(* ===== verification/_CoqProject ===== *)
-Q . S2P
Prelude.v
PyCore.v
Pandas.v
NumpyRandom.v
Libraries.v
LibraryModels.v
Encodings.v
NaNtreatment.v
Lifecycle.v
Pipeline.v
RandomState.v
TargetStatistics.v
