(* ===== verification/Prelude.v ===== *)
(** * A verification development of percentile_encoder (src/percentile.py)

    The repository ships one Python module, [src/percentile.py], with two
    scikit-learn style transformers that a pipeline composes in sequence:

    - [Encodings] (lines 9-107) selects the categorical columns of a pandas
      DataFrame, builds one of four category_encoders estimators
      (TargetEncoder, WOEEncoder, CatBoostEncoder, OneHotEncoder), fits it
      (after a random row permutation for CatBoost, after a cardinality
      filter for OneHot), and on [transform] renames the encoded columns
      with the suffix [_<encoding_type>] and joins them to the input;
    - [NaNtreatment] (lines 109-140) picks a sklearn [SimpleImputer]
      strategy from its [treatment] and fills missing values.

    The two classes never call each other; both mutate their own instance
    attributes on every call, and both reach module globals ([np],
    [sklearn.impute]) and the numpy global random state.

    ** Files, in dependency order (see _CoqProject)

    - [Prelude] (this file): the state-and-exception monad [PyM] in which
      every method is written ([let*] notation in [py_scope]), the
      [pydb] hint database, generic lemmas on lists and on [PyM].
    - [PyCore]: Python values ([pyval]: the configuration parameters are
      arbitrary Python objects), truthiness, [isinstance], the string
      comparisons the source performs, exceptions ([exc]) and the module
      environment ([env]: whether [np] is bound, whether [sklearn.impute]
      is loaded). [str.format] messages are kept as a format value.
    - [Pandas]: dtypes, cells, columns, DataFrames with their index,
      [X.columns[X.dtypes==object]], [X[key]], [.iloc], [reset_index],
      [Series.unique], [DataFrame.join], [_get_numeric_data], [.values].
    - [NumpyRandom]: [np.random.permutation] as numpy's Fisher-Yates loop
      over the global random stream, and the proof that it returns a
      permutation of [0..n-1].
    - [Libraries]: the interfaces the two classes use of third-party code,
      as type classes with their laws: [CategoryEncoders] (fit/transform
      of the four encoders, with category_encoders' input-dimension check)
      and [SimpleImputerLib] (sklearn's SimpleImputer).
    - [LibraryModels]: executable models of those libraries built from
      the spec's description, and the proofs that they satisfy the laws.
    - [Encodings] (Module [Encodings]): the class [Encodings]. The state
      record [enc_self] holds the attributes of the instance; [world]
      adds numpy's random stream. [__init__], [fit] (with its steps
      [select_step], [catboost_step], [onehot_step], [fit_encoder]) and
      [transform] follow the source statement by statement;
      [transform_spec] is the pure function [transform] computes. Proved
      against [CategoryEncodersLaws]; concrete runs on [ce_mean] close the
      module, among them the spec's end-to-end TargetEncoder example.
    - [NaNtreatment] (Module [NaNtreatment]): the class [NaNtreatment].
      The state record [nan_self]; [__init__], [fit] (with the branch
      choice [fit_strategy] and the constructor call [make_imputer]),
      [transform], and [fit_spec], the pure function [fit] computes.
      Proved against [SimpleImputerLaws]; concrete runs on the executable
      SimpleImputer model close the module (spec examples 5 to 7).
    - [Lifecycle] (Modules [EncodingsLifecycle], [NaNLifecycle]): sklearn's
      [get_params], [set_params], [clone] and [fit_transform] for both
      classes, one pipeline call
      as an inductive step relation ([step]), the instances reachable from
      [__init__] ([reachable]), and invariants of every reachable instance
      proved by induction on reachability.
    - [Pipeline] (Module [Pipeline]): sklearn's [Pipeline.fit_transform]
      over an [Encodings] step and a [NaNtreatment] step, the spec's
      deployment and the only place the two classes meet.
    - [RandomState] (Module [RandomState]): a pipeline's calls on an
      [Encodings] instance as an explicit sequence ([call], [run_calls]),
      a two-run simulation ([simR], [agree]) between instances that
      differ in numpy's stream, and the theorem that no result depends on
      the stream.

    - [TargetStatistics] (Module [TargetStatistics]): [fit] then
      [transform] of the class on the executable encoder model, for any
      per-category statistic: the spec's end-to-end TargetEncoder
      property.

    ** What the theorems show

    - [Encodings.transform]: the output is the encoder's columns renamed
      [<name>_<encoding_type>] followed by the input's columns
      ([transform_output_columns]); it succeeds exactly when the encoder
      accepts the selection and no new name clashes ([transform_succeeds],
      [transform_name_clash]); it is the pure [transform_spec] of the
      parameters and the fitted encoder, so a second call returns the same
      result ([transform_refines]); with [return_categorical] false only
      numeric columns survive ([transform_numeric_only]); a well-formed
      table gives a well-formed table ([transform_wf]).
    - [Encodings.fit]: the CatBoost branch permutes the selected rows and
      the target with one permutation, keeping every (row, target) pair
      ([catboost_pairs]), and raises [NameError] as shipped since [np] is
      never imported ([fit_catboost_needs_np]); the OneHot branch keeps
      exactly the columns of fewer than 50 distinct values
      ([onehot_fit_low_cardinality]), after which [transform] of the same
      table fails whenever a column was dropped ([onehot_transform_fails]);
      the TargetEncoder and WOEEncoder branches fit and then transform the
      fitting table ([fit_then_transform]); on the executable encoder
      model each encoded cell is the statistic of its row's category
      (count and target sum), for the spec's TargetEncoder example and any
      statistic ([target_encoding_values]); an encoding type set outside
      the allowed list refits the previous encoder ([stale_encoder_refit]).
    - Both methods recompute the column selection from their input
      ([selection_rederived]) and never change the constructor parameters
      ([fit_transform_keep_params], [nan_keep_params]); the constructors
      accept exactly the allowed values ([init_validates],
      [nan_init_validates]); [transform] before [fit] raises
      [AttributeError] ([transform_before_fit], [nan_transform_before_fit]).
    - [NaNtreatment]: as shipped every [fit] of a new instance raises
      ([fit_fresh_fails]); "fixed_value", "mode" and "None" pass the
      constructor but reach no branch, "most_frequent" and [None] have a
      branch the constructor refuses ([init_dispatch_mismatch]); the
      string "None" is no passthrough ([none_string_not_passthrough]),
      only [None] is ([none_passthrough]); a treatment with no branch
      refits the previous imputer ([stale_method_refit]); a numeric
      treatment fills every missing cell and nothing else
      ([constant_fill]); the default ["mean"] fills the missing cells of
      each column with the mean of its observed cells in the fitting
      table ([mean_fill]).
    - Any sequence of calls: [_allowed_encodings] and
      [_allowed_treatments] never change, numpy's stream only moves
      forward ([reachable_stream]) and a stored imputer always has a
      strategy of one of [fit]'s branches ([nan_reachable_method_ok]); as
      shipped, no
      reachable instance ever holds a CatBoost estimator
      ([as_shipped_no_catboost]) or an imputer at all
      ([as_shipped_no_imputer]). With [np] bound, no reachable imputer
      instance is stuck: [set_params(treatment=v)] and [fit] bring any of
      them to one that fills with [v] ([nan_recoverable]). sklearn's
      [clone] re-runs the constructor on the current parameters: it gives
      an unfitted copy with equal [get_params] or raises the constructor's
      [AssertionError], so a value [set_params] stored without the check
      is refused only there ([clone_revalidates],
      [nan_clone_revalidates]).
    - Composition: a clean table (numeric columns of numbers or missing
      values) encoded with [return_categorical=False] is a valid input of
      a numeric [NaNtreatment], and the pipeline returns it with every
      missing cell filled ([pipeline_no_missing]).
    - Random state: the permutation drawn at line 57 reaches no output.
      The module never passes a target to [self.enc.transform], and a
      CatBoostEncoder transforms from per-category target counts and sums
      (the law [ce_fit_rows_perm], proved for the executable model with
      the setoid of cells [cell_equiv] and row-order-free folds), so any
      sequence of [fit], [transform], [fit_transform] and [set_params]
      calls returns the same results for every stream
      ([outputs_ignore_stream]); only [data_encode] and the stream's
      position differ.
    - Loops and library calls: the renaming loop is [map]
      ([rename_loop_map]); the CatBoost positions are in range
      ([catboost_in_bounds]); assigning [.columns] and reading it back is a
      round trip ([set_columns_roundtrip]).
    - [NumpyRandom]: [np.random.permutation n] is a permutation of
      [0..n-1] for every random stream, consuming [n-1] draws; at line 57
      it needs [np] and leaves the instance alone
      ([draw_permutation_spec]).

    There is no fuel and no bound chosen by the model: every loop of the
    source runs over a finite list (columns, encoder outputs) and is a
    structural [Fixpoint] ([pfor]); the 50 of the OneHot filter is the
    source's constant.

    ** Choices of the model

    Numbers are rationals [Q] (the code only compares and averages them;
    sums of rationals do not depend on the order of their terms, which
    floating-point sums do only up to rounding);
    a missing value is the cell [CNaN]. Python exceptions keep the
    attribute writes made before them, so a method is a function from the
    state to an outcome and the new state ([PyM]). The random stream is an
    explicit [nat -> nat] with a position, so every theorem about the
    CatBoost branch holds for every stream. Third-party estimators are
    reached only through the interfaces of [Libraries].

    Not modelled: the numerical content of the encoders beyond the laws
    (target-encoding smoothing, WOE log-odds), pandas joins on indexes
    that differ (the encoders return their input's index, so the code
    never reaches one), printing, and the [Pipeline] and search objects
    of sklearn beyond the two-step [Pipeline.fit_transform] (they only
    call the operations above). Object identity is not modelled: values
    are immutable, so [clone]'s deep copy is the value and its identity
    check on the parameters always passes. *)

From stdpp Require Export base list.
From stdpp Require Import sets.
From Stdlib Require Import List.

(** ** The state and exception monad of the methods *)

(** [PyM E S A]: a computation that reads and writes a state [S] and
    either returns an [A] or raises an [E]; a raise keeps the state
    reached so far, as a Python exception keeps attribute writes. *)
Definition PyM (E S A : Type) : Type := S -> (E + A) * S.

Definition pret {E S A} (a : A) : PyM E S A := fun s => (inr a, s).

Definition pbind {E S A B} (m : PyM E S A) (k : A -> PyM E S B) : PyM E S B :=
  fun s => match m s with
           | (inl e, s') => (inl e, s')
           | (inr a, s') => k a s'
           end.

Definition praise {E S A} (e : E) : PyM E S A := fun s => (inl e, s).

Definition pget {E S} : PyM E S S := fun s => (inr s, s).

Definition pput {E S} (s : S) : PyM E S unit := fun _ => (inr tt, s).

Definition pmodify {E S} (f : S -> S) : PyM E S unit := fun s => (inr tt, f s).

(** A pure fallible step. *)
Definition plift {E S A} (r : E + A) : PyM E S A := fun s => (r, s).

(** [for x in xs: body(x)] *)
Fixpoint pfor {E S A} (xs : list A) (body : A -> PyM E S unit) : PyM E S unit :=
  match xs with
  | [] => pret tt
  | x :: xs' => pbind (body x) (fun _ => pfor xs' body)
  end.

(** Map a fallible function over a list, stopping at the first error. *)
Fixpoint sum_mapM {E A B} (f : A -> E + B) (l : list A) : E + list B :=
  match l with
  | [] => inr []
  | x :: l' =>
      match f x with
      | inl e => inl e
      | inr y => match sum_mapM f l' with
                 | inl e => inl e
                 | inr ys => inr (y :: ys)
                 end
      end
  end.

Declare Scope py_scope.
Delimit Scope py_scope with py.

Notation "'let*' x ':=' c 'in' k" := (pbind c (fun x => k))
  (at level 10, x name, c at level 100, k at level 200) : py_scope.
Notation "'let*' ' p ':=' c 'in' k" := (pbind c (fun x => match x with p => k end))
  (at level 10, p pattern, c at level 100, k at level 200) : py_scope.
Notation "'do*' c ';' k" := (pbind c (fun _ => k))
  (at level 10, c at level 100, k at level 200) : py_scope.

(** Bind of a pure fallible step. *)
Definition sbind {E A B} (r : E + A) (k : A -> E + B) : E + B :=
  match r with inl e => inl e | inr a => k a end.

Notation "'let?' x ':=' c 'in' k" := (sbind c (fun x => k))
  (at level 10, x name, c at level 100, k at level 200) : py_scope.

(** The outcome of a run. *)
Definition is_ok {E A} (r : E + A) : bool :=
  match r with inr _ => true | inl _ => false end.

(** ** Hint database and tactics *)

Create HintDb pydb discriminated.
Create Rewrite HintDb pyrw.

(** Unfold the monad in the goal and in the hypotheses. *)
Ltac py_unfold :=
  cbn [pbind pret praise pget pput pmodify plift pfor] in *.

(** Case on the result of a computation the goal is stuck on. *)
Ltac py_case m :=
  let o := fresh "o" in let s := fresh "s" in let E := fresh "Erun" in
  destruct (m) as [[o|o] s] eqn:E.

Section MonadLemmas.
Context {E S : Type}.

Lemma pbind_ok {A B} (m : PyM E S A) (k : A -> PyM E S B) s a s' :
  m s = (inr a, s') -> pbind m k s = k a s'.
Proof. intros H. unfold pbind. by rewrite H. Qed.

Lemma pbind_err {A B} (m : PyM E S A) (k : A -> PyM E S B) s e s' :
  m s = (inl e, s') -> pbind m k s = (inl e, s').
Proof. intros H. unfold pbind. by rewrite H. Qed.

(** A bind succeeds only when both halves do. *)
Lemma pbind_inr {A B} (m : PyM E S A) (k : A -> PyM E S B) s b s'' :
  pbind m k s = (inr b, s'') ->
  exists a s', m s = (inr a, s') /\ k a s' = (inr b, s'').
Proof.
  unfold pbind. destruct (m s) as [[e|a] s'] eqn:Hm; [congruence|].
  intros H. by exists a, s'.
Qed.

Lemma pfor_app {A} (xs ys : list A) (body : A -> PyM E S unit) s :
  pfor (xs ++ ys) body s = pbind (pfor xs body) (fun _ => pfor ys body) s.
Proof.
  revert s. induction xs as [|x xs IH]; intros s; [done|].
  cbn. unfold pbind. destruct (body x s) as [[e|[]] s']; [done|].
  apply IH.
Qed.
End MonadLemmas.

(** ** Lemmas on [sum_mapM] *)

Lemma sum_mapM_inr {E A B} (f : A -> E + B) l ys :
  sum_mapM f l = inr ys -> Forall2 (fun x y => f x = inr y) l ys.
Proof.
  revert ys. induction l as [|x l IH]; intros ys H; cbn in H.
  - injection H as <-. constructor.
  - destruct (f x) as [e|y] eqn:Hf; [discriminate|].
    destruct (sum_mapM f l) as [e|ys'] eqn:Hl; [discriminate|].
    injection H as <-. constructor; auto.
Qed.

Lemma sum_mapM_all_ok {E A B} (f : A -> E + B) l :
  (forall x, x ∈ l -> exists y, f x = inr y) -> exists ys, sum_mapM f l = inr ys.
Proof.
  induction l as [|x l IH]; intros H; cbn; [by eexists|].
  destruct (H x) as [y ->]; [set_solver|].
  destruct IH as [ys ->]; [|by eexists]. intros z Hz. apply H. set_solver.
Qed.

Lemma sum_mapM_map {E A B} (f : A -> B) l :
  sum_mapM (E:=E) (fun x => inr (f x)) l = inr (map f l).
Proof. induction l as [|x l IH]; cbn; [done|]. by rewrite IH. Qed.

Lemma sum_mapM_ext_inr {E A B} (f : A -> E + B) (g : A -> B) l :
  (forall x, x ∈ l -> f x = inr (g x)) -> sum_mapM f l = inr (map g l).
Proof.
  induction l as [|x l IH]; intros H; cbn; [done|].
  rewrite H by set_solver. rewrite IH; [done|]. intros z Hz. apply H. set_solver.
Qed.

(** ** Lists indexed by a permutation *)

Lemma map_nth_seq_self {A} (l : list A) (d : A) :
  map (fun i => nth i l d) (seq 0 (length l)) = l.
Proof.
  induction l as [|x l IH]; [done|]. cbn [length seq map nth]. f_equal.
  rewrite <- seq_shift, map_map. exact IH.
Qed.

(** Reading a list at the positions of a permutation of its indices
    gives a permutation of the list. *)
Lemma map_nth_perm {A} (l : list A) (p : list nat) (d : A) :
  p ≡ₚ seq 0 (length l) -> map (fun i => nth i l d) p ≡ₚ l.
Proof.
  intros Hp. rewrite Hp. by rewrite map_nth_seq_self.
Qed.

(** Reading two lists of equal length at the same positions is reading
    their zip. *)
Lemma combine_map_nth {A B} (l1 : list A) (l2 : list B) d1 d2 (p : list nat) :
  length l1 = length l2 ->
  combine (map (fun i => nth i l1 d1) p) (map (fun i => nth i l2 d2) p)
  = map (fun i => nth i (combine l1 l2) (d1, d2)) p.
Proof.
  intros Hlen. induction p as [|i p IH]; cbn; [done|].
  by rewrite IH, combine_nth.
Qed.

Lemma Forall_filter_prop {A} (P : A -> Prop) (f : A -> bool) (l : list A) :
  (forall x, f x = true -> P x) -> Forall P (filter f l).
Proof.
  intros H. apply Forall_forall. intros x Hx.
  apply filter_In in Hx as [_ Hx]. auto.
Qed.

Lemma Forall_filter_sub {A} (P : A -> Prop) (f : A -> bool) (l : list A) :
  Forall P l -> Forall P (filter f l).
Proof.
  rewrite !Forall_forall. intros H x Hx. apply filter_In in Hx as [Hx _]. auto.
Qed.

#[export] Hint Resolve Forall_filter_prop Forall_filter_sub : pydb.
#[export] Hint Resolve sum_mapM_inr : pydb.

(** ** Filters *)

Lemma NoDup_map_filter {A B} (g : A -> B) (P : A -> bool) (l : list A) :
  base.NoDup (map g l) -> base.NoDup (map g (List.filter P l)).
Proof.
  rewrite !NoDup_ListNoDup.
  induction l as [|x l IH]; intros Hnd; cbn in *; [constructor|].
  apply NoDup_cons_iff in Hnd as [Hx Hnd]. destruct (P x); cbn; [|by apply IH].
  constructor; [|by apply IH]. intros Hin. apply Hx.
  apply in_map_iff in Hin as (z & Hz & Hzin). apply filter_In in Hzin as [Hzin _].
  apply in_map_iff. by exists z.
Qed.

(** Two filters with disjoint predicates are, up to order, one filter. *)
Lemma filter_app_perm {A} (P Q : A -> bool) (l : list A) :
  (forall x, P x = true -> Q x = false) ->
  List.filter P l ++ List.filter Q l ≡ₚ List.filter (fun x => P x || Q x) l.
Proof.
  intros Hdisj. induction l as [|x l IH]; [done|]. cbn.
  destruct (P x) eqn:HP; cbn.
  - rewrite (Hdisj x HP). by constructor.
  - destruct (Q x); cbn; [|done]. rewrite <- Permutation_middle. by constructor.
Qed.

Lemma filter_length_lt {A} (f : A -> bool) (l : list A) x :
  x ∈ l -> f x = false -> length (List.filter f l) < length l.
Proof.
  induction l as [|y l IH]; intros Hx Hf; [by apply elem_of_nil in Hx|]. cbn.
  pose proof (filter_length_le f l).
  apply elem_of_cons in Hx as [->|Hx].
  - rewrite Hf. cbn. lia.
  - destruct (f y); cbn; specialize (IH Hx Hf); lia.
Qed.

(** ** Folds and tests that do not see the order of a list *)

Lemma existsb_perm {A} (f : A -> bool) (l l' : list A) :
  l ≡ₚ l' -> existsb f l = existsb f l'.
Proof.
  induction 1; cbn; try congruence.
  by rewrite !orb_assoc, (orb_comm (f y)).
Qed.

Lemma forallb_perm {A} (f : A -> bool) (l l' : list A) :
  l ≡ₚ l' -> forallb f l = forallb f l'.
Proof.
  induction 1; cbn; try congruence.
  by rewrite !andb_assoc, (andb_comm (f y)).
Qed.

(** Zipping two reads at the same positions is reading pairs there. *)
Lemma combine_map_same {A B C} (f : A -> B) (g : A -> C) (l : list A) :
  combine (map f l) (map g l) = map (fun x => (f x, g x)) l.
Proof. induction l as [|x l IH]; cbn; congruence. Qed.

(** [find] over a list renamed componentwise. *)
Lemma find_map {A B} (P : B -> bool) (f : A -> B) (l : list A) :
  find P (map f l) = option_map f (find (fun x => P (f x)) l).
Proof. induction l as [|x l IH]; cbn; [done|]. by destruct (P (f x)). Qed.

Lemma sum_relation_impl {A B} (RA RA' : relation A) (RB RB' : relation B) x y :
  (forall a a', RA a a' -> RA' a a') -> (forall b b', RB b b' -> RB' b b') ->
  sum_relation RA RB x y -> sum_relation RA' RB' x y.
Proof. intros HA HB []; constructor; auto. Qed.

Lemma concat_map_single {A B} (f : A -> list B) (g : A -> B) (l : list A) :
  (forall x, x ∈ l -> f x = [g x]) -> concat (map f l) = map g l.
Proof.
  induction l as [|x l IH]; intros H; cbn; [done|].
  rewrite H by left. cbn. f_equal. apply IH. intros y Hy. apply H. by right.
Qed.
