(* ===== verification/PyCore.v ===== *)
(** * Python values, exceptions and the module environment

    The constructor parameters of both classes ([encoding_type], [columns],
    [return_categorical], [treatment]) are arbitrary Python objects: a
    pipeline may set them with [set_params] without going through
    [__init__]. This file gives them the type [pyval] and models the only
    operations the source applies to them: comparison with a string
    literal ([x == "All"]), membership in a list of string literals,
    [== None], [isinstance(x, (int, float))] and truthiness. It also
    models the exceptions the module can raise and the global environment
    the module runs in: whether the name [np] is bound (the module never
    imports numpy), whether the submodule [sklearn.impute] is loaded
    ([import sklearn] alone does not load it) and whether assertions run
    ([python -O] removes them). *)

From S2P Require Import Prelude.
From stdpp Require Import strings.
From Stdlib Require Import QArith ZArith String Ascii DecimalString.

Inductive pyval :=
| PyNone
| PyBool (b : bool)
| PyInt (z : Z)
| PyFloat (q : Q)
| PyStr (s : string)
| PyList (xs : list pyval)
| PyObject (tag : string).

(** [v == "s"] for a string literal ["s"]: only a [str] with the same
    characters is equal to it. *)
Definition py_eq_str (v : pyval) (s : string) : bool :=
  match v with
  | PyStr s' => String.eqb s' s
  | _ => false
  end.

(** [v in ["a", "b", ...]] *)
Definition py_in_strs (v : pyval) (l : list string) : bool :=
  existsb (py_eq_str v) l.

(** [v == None] *)
Definition py_eq_none (v : pyval) : bool :=
  match v with PyNone => true | _ => false end.

(** [isinstance(v, (int, float))]; [bool] is a subclass of [int]. *)
Definition py_is_number (v : pyval) : bool :=
  match v with PyBool _ | PyInt _ | PyFloat _ => true | _ => false end.

(** The number a numeric value denotes. *)
Definition py_number (v : pyval) : option Q :=
  match v with
  | PyBool b => Some (if b then 1 else 0)%Q
  | PyInt z => Some (inject_Z z)
  | PyFloat q => Some q
  | _ => None
  end.

(** Truthiness, as [if v:] decides it. *)
Definition py_truthy (v : pyval) : bool :=
  match v with
  | PyNone => false
  | PyBool b => b
  | PyInt z => negb (Z.eqb z 0)
  | PyFloat q => negb (Qeq_bool q 0)
  | PyStr s => negb (String.eqb s "")
  | PyList xs => negb (Nat.eqb (List.length xs) 0)
  | PyObject _ => true
  end.

(** ** [str.format] messages *)

(** A call [template.format(args...)], kept with its arguments. *)
Record fmt := Fmt { fmt_template : string; fmt_args : list pyval }.

(** [repr] of a [str] made of printable ASCII without quotes or
    backslashes: the text between single quotes. *)
Definition plain_char (c : ascii) : bool :=
  let n := nat_of_ascii c in
  (32 <=? n)%nat && (n <=? 126)%nat && negb (Nat.eqb n 39) && negb (Nat.eqb n 92).

Fixpoint plain_string (s : string) : bool :=
  match s with
  | EmptyString => true
  | String c s' => plain_char c && plain_string s'
  end.

Definition sep_join (sep : string) (l : list string) : string :=
  match l with
  | [] => ""
  | x :: l' => fold_left (fun acc y => acc +:+ sep +:+ y) l' x
  end.

(** [str(v)] where the model knows Python's rendering; [None] for floats
    and other objects. *)
Definition py_str (v : pyval) : option string :=
  match v with
  | PyNone => Some "None"
  | PyBool b => Some (if b then "True" else "False")
  | PyInt z => Some (NilZero.string_of_int (Z.to_int z))
  | PyStr s => Some s
  | PyList xs =>
      let fix reprs (xs : list pyval) : option (list string) :=
        match xs with
        | [] => Some []
        | PyStr s :: xs' =>
            if plain_string s
            then match reprs xs' with
                 | Some r => Some (("'" +:+ s +:+ "'") :: r)
                 | None => None
                 end
            else None
        | _ :: _ => None
        end in
      match reprs xs with
      | Some r => Some ("[" +:+ sep_join ", " r +:+ "]")
      | None => None
      end
  | _ => None
  end.

(** Substitute the [{}] fields of a template in order; [None] when an
    argument is missing (Python raises [IndexError]) or unrenderable. *)
Fixpoint format_subst (t : string) (args : list string) : option string :=
  match t with
  | EmptyString => Some ""
  | String "{" (String "}" rest) =>
      match args with
      | a :: args' =>
          match format_subst rest args' with
          | Some r => Some (a +:+ r)
          | None => None
          end
      | [] => None
      end
  | String c rest =>
      match format_subst rest args with
      | Some r => Some (String c r)
      | None => None
      end
  end.

Definition render (m : fmt) : option string :=
  match sum_mapM (fun v => match py_str v with Some s => inr s | None => inl tt end)
                 (fmt_args m) with
  | inr strs => format_subst (fmt_template m) strs
  | inl _ => None
  end.

(** ** Exceptions *)

Inductive exc :=
| AssertionError (msg : fmt)
| NameError (name : string)
| AttributeError (owner attr : string)
| KeyError (key : pyval)
| ValueError (msg : string)
| IndexError (msg : string)
| TypeError (msg : string)
| NotFittedError (msg : string)
(** Behaviour of a library outside this model (see [Pandas.frame_join]). *)
| Unsupported (what : string).

(** ** The module environment *)

Record env := {
  np_bound : bool;               (** the global name [np] *)
  sklearn_impute_loaded : bool;  (** [sklearn.impute] is an attribute of [sklearn] *)
  asserts_enabled : bool         (** not run under [python -O] *)
}.

(** [src/percentile.py] imports [sklearn] and [category_encoders] and
    never binds [np]. *)
Definition module_env (impute_loaded : bool) : env :=
  {| np_bound := false; sklearn_impute_loaded := impute_loaded; asserts_enabled := true |}.

(** Evaluating the name [np]. *)
Definition np_global (en : env) : exc + unit :=
  if np_bound en then inr tt else inl (NameError "np").

(** Evaluating the attribute [sklearn.impute]. *)
Definition sklearn_impute (en : env) : exc + unit :=
  if sklearn_impute_loaded en then inr tt else inl (AttributeError "sklearn" "impute").

(** [assert cond, msg] *)
Definition py_assert (en : env) (cond : bool) (msg : fmt) : exc + unit :=
  if asserts_enabled en then (if cond then inr tt else inl (AssertionError msg))
  else inr tt.

(** ** Lemmas *)

Lemma py_in_strs_iff v l : py_in_strs v l = true <-> exists s, v = PyStr s /\ s ∈ l.
Proof.
  unfold py_in_strs. rewrite existsb_exists. split.
  - intros [s [Hin Heq]]. destruct v; try discriminate.
    apply String.eqb_eq in Heq as ->. exists s. split; [done|]. by apply list_elem_of_In.
  - intros [s [-> Hin]]. exists s. split; [by apply list_elem_of_In|]. apply String.eqb_refl.
Qed.

Lemma py_assert_ok en c m : asserts_enabled en = true -> c = true -> py_assert en c m = inr tt.
Proof. intros H1 H2. unfold py_assert. by rewrite H1, H2. Qed.

Lemma py_assert_fail en c m :
  asserts_enabled en = true -> c = false -> py_assert en c m = inl (AssertionError m).
Proof. intros H1 H2. unfold py_assert. by rewrite H1, H2. Qed.

#[export] Hint Rewrite py_assert_ok py_assert_fail using done : pyrw.
