(* ===== verification/Pandas.v ===== *)
(** * The pandas operations of src/percentile.py

    A DataFrame is its index (row labels) and its columns in order, each
    column a name, a dtype and its cells; a Series is an index and one
    column. Duplicate column names are allowed, as in pandas. The
    operations are the ones the module calls: the dtype selection of
    lines 35/81, [X[key]] (lines 41, 68, 71, 89), [.columns], [len],
    [.iloc[perm]] and [.reset_index(drop=True)] (lines 57-59),
    [Series.unique] (line 68), assignment of [.columns] (line 98),
    [DataFrame.join] (lines 105/107), [_get_numeric_data] (line 107) and
    [.values] (line 134). *)

From S2P Require Import Prelude PyCore.
From stdpp Require Import strings.
From Stdlib Require Import QArith.

Local Open Scope nat_scope.

Inductive dtype :=
| DObject      (** [object]: Python strings and mixed values *)
| DCategory    (** [category] *)
| DInt64
| DFloat64
| DBool
| DString      (** the extension dtype [string] *)
| DDatetime.

#[export] Instance dtype_eq_dec : EqDecision dtype.
Proof. solve_decision. Defined.

(** A cell; [CNaN] is [np.nan], the missing value. *)
Inductive cell :=
| CStr (s : string)
| CNum (q : Q)
| CBool (b : bool)
| CNaN.

Record column := Column { col_name : string; col_dtype : dtype; col_values : list cell }.

Record frame := Frame { f_index : list nat; f_cols : list column }.

(** What [X[key]] and the encoders' inputs can be. *)
Inductive pdobj :=
| PDFrame (f : frame)
| PDSeries (idx : list nat) (c : column).

(** The target [y]: a Series, an array or list (no [.iloc]), or [None]. *)
Inductive target :=
| TSeries (idx : list nat) (vals : list cell)
| TArray (vals : list cell)
| TNone.

Definition is_numeric_dtype (d : dtype) : bool :=
  match d with DInt64 | DFloat64 | DBool => true | _ => false end.

(** Every column has one cell per index label. *)
Definition frame_wf (f : frame) : Prop :=
  Forall (fun c => length (col_values c) = length (f_index f)) (f_cols f).

Definition col_names (f : frame) : list string := map col_name (f_cols f).

Definition pd_index (o : pdobj) : list nat :=
  match o with PDFrame f => f_index f | PDSeries idx _ => idx end.

(** [len(X)] *)
Definition pd_len (o : pdobj) : nat := length (pd_index o).

(** The DataFrame a library builds from its input ([pd.DataFrame(s)] for a
    Series). *)
Definition to_frame (o : pdobj) : frame :=
  match o with PDFrame f => f | PDSeries idx c => Frame idx [c] end.

Definition pd_ncols (o : pdobj) : nat := length (f_cols (to_frame o)).

(** [X.columns[X.dtypes == dt].tolist()] *)
Definition dtype_columns (X : frame) (dt : dtype) : list string :=
  map col_name (List.filter (fun c => bool_decide (col_dtype c = dt)) (f_cols X)).

(** [.columns]: a Series has none. *)
Definition pd_columns (o : pdobj) : exc + list string :=
  match o with
  | PDFrame f => inr (col_names f)
  | PDSeries _ _ => inl (AttributeError "Series" "columns")
  end.

(** The columns a key names. *)
Definition matching (X : frame) (k : pyval) : list column :=
  List.filter (fun c => py_eq_str k (col_name c)) (f_cols X).

Definition lookup_key (X : frame) (k : pyval) : exc + list column :=
  match matching X k with
  | [] => inl (KeyError k)
  | cs => inr cs
  end.

(** [X[key]]: a list selects every column of each name, in the order of
    the list; any other key selects the column of that name as a Series,
    or a DataFrame when the name is duplicated. *)
Definition getitem (X : frame) (key : pyval) : exc + pdobj :=
  match key with
  | PyList ks =>
      match sum_mapM (lookup_key X) ks with
      | inl e => inl e
      | inr css => inr (PDFrame (Frame (f_index X) (concat css)))
      end
  | k =>
      match lookup_key X k with
      | inl e => inl e
      | inr [c] => inr (PDSeries (f_index X) c)
      | inr cs => inr (PDFrame (Frame (f_index X) cs))
      end
  end.

(** [obj[key]] where [obj] is a DataFrame or a Series. The module only
    indexes DataFrames; a Series' label lookup is outside the model. *)
Definition pd_getitem (o : pdobj) (key : pyval) : exc + pdobj :=
  match o with
  | PDFrame f => getitem f key
  | PDSeries _ _ => inl (Unsupported "Series label lookup")
  end.

(** Equality of cells as [Series.unique] hashes them: numbers by value
    ([True == 1]), all NaNs one value. *)
Definition cell_num (x : cell) : option Q :=
  match x with CNum q => Some q | CBool b => Some (if b then 1 else 0)%Q | _ => None end.

(** A numeric cell as the number a library reads from it. *)
Definition num_of (x : cell) : Q := default 0%Q (cell_num x).

Definition cell_eqb (x y : cell) : bool :=
  match x, y with
  | CStr s, CStr t => String.eqb s t
  | CNaN, CNaN => true
  | _, _ => match cell_num x, cell_num y with
            | Some p, Some q => Qeq_bool p q
            | _, _ => false
            end
  end.

(** The distinct values, in order of first appearance. *)
Fixpoint unique_acc (seen : list cell) (l : list cell) : list cell :=
  match l with
  | [] => rev seen
  | x :: l' =>
      if existsb (cell_eqb x) seen then unique_acc seen l' else unique_acc (x :: seen) l'
  end.

Definition unique (l : list cell) : list cell := unique_acc [] l.

(** [obj.unique()]: a DataFrame has no [unique]. *)
Definition pd_unique (o : pdobj) : exc + list cell :=
  match o with
  | PDSeries _ c => inr (unique (col_values c))
  | PDFrame _ => inl (AttributeError "DataFrame" "unique")
  end.

(** [.iloc[p]]: the rows at positions [p]. *)
Definition take_rows {A} (p : list nat) (l : list A) (d : A) : list A :=
  map (fun i => nth i l d) p.

Definition iloc_check (n : nat) (p : list nat) : exc + unit :=
  if forallb (fun i => i <? n) p then inr tt
  else inl (IndexError "positional indexers are out-of-bounds").

Definition iloc (o : pdobj) (p : list nat) : exc + pdobj :=
  match iloc_check (pd_len o) p with
  | inl e => inl e
  | inr _ =>
      let sel c := Column (col_name c) (col_dtype c) (take_rows p (col_values c) CNaN) in
      inr (match o with
           | PDFrame f => PDFrame (Frame (take_rows p (f_index f) 0%nat) (map sel (f_cols f)))
           | PDSeries idx c => PDSeries (take_rows p idx 0%nat) (sel c)
           end)
  end.

(** [.reset_index(drop=True)] *)
Definition reset_index (o : pdobj) : pdobj :=
  match o with
  | PDFrame f => PDFrame (Frame (seq 0 (length (f_index f))) (f_cols f))
  | PDSeries idx c => PDSeries (seq 0 (length idx)) c
  end.

(** [y.iloc[p].reset_index(drop=True)] on the target. *)
Definition target_iloc_reset (y : target) (p : list nat) : exc + target :=
  match y with
  | TSeries idx vals =>
      match iloc_check (length idx) p with
      | inl e => inl e
      | inr _ => inr (TSeries (seq 0 (length p)) (take_rows p vals CNaN))
      end
  | TArray _ => inl (AttributeError "ndarray" "iloc")
  | TNone => inl (AttributeError "NoneType" "iloc")
  end.

(** [df.columns = names] *)
Definition set_columns (f : frame) (names : list string) : exc + frame :=
  if Nat.eqb (length names) (length (f_cols f))
  then inr (Frame (f_index f)
                  (zip_with (fun c n => Column n (col_dtype c) (col_values c)) (f_cols f) names))
  else inl (ValueError "Length mismatch").

(** [left.join(right)]: a left join on the index. Both frames the module
    joins have the same index; other joins are outside the model. *)
Definition frame_join (left right : frame) : exc + frame :=
  if decide (f_index left = f_index right) then
    if existsb (fun n => bool_decide (n ∈ col_names right)) (col_names left)
    then inl (ValueError "columns overlap but no suffix specified")
    else inr (Frame (f_index left) (f_cols left ++ f_cols right))
  else inl (Unsupported "join on different indexes").

(** [df._get_numeric_data()] *)
Definition numeric_data (f : frame) : frame :=
  Frame (f_index f) (List.filter (fun c => is_numeric_dtype (col_dtype c)) (f_cols f)).

(** [df.values]: the rows, left to right. *)
Definition frame_values (f : frame) : list (list cell) :=
  map (fun i => map (fun c => nth i (col_values c) CNaN) (f_cols f))
      (seq 0 (length (f_index f))).

(** ** Lemmas *)

Lemma frame_join_inr l r j :
  frame_join l r = inr j ->
  f_index r = f_index l /\ (forall n, n ∈ col_names l -> n ∉ col_names r) /\
  j = Frame (f_index l) (f_cols l ++ f_cols r).
Proof.
  unfold frame_join. case_decide as Hidx; [|done].
  destruct (existsb _ _) eqn:He; [done|]. intros [= <-].
  split; [done|]. split; [|done]. intros n Hl Hr.
  apply not_true_iff_false in He. apply He, existsb_exists.
  exists n. split; [by apply list_elem_of_In|]. by apply bool_decide_eq_true.
Qed.

(** The join succeeds exactly when the indexes agree and no name is
    shared. *)
Lemma frame_join_ok l r :
  f_index l = f_index r -> (forall n, n ∈ col_names l -> n ∉ col_names r) ->
  frame_join l r = inr (Frame (f_index l) (f_cols l ++ f_cols r)).
Proof.
  intros Hidx Hdisj. unfold frame_join. rewrite decide_True by done.
  destruct (existsb _ _) eqn:He; [|done].
  apply existsb_exists in He as [n [Hn Hin]]. apply bool_decide_eq_true in Hin.
  exfalso. apply (Hdisj n); [by apply list_elem_of_In|done].
Qed.

Lemma frame_join_overlap l r n :
  f_index l = f_index r -> n ∈ col_names l -> n ∈ col_names r ->
  frame_join l r = inl (ValueError "columns overlap but no suffix specified").
Proof.
  intros Hidx Hl Hr. unfold frame_join. rewrite decide_True by done.
  destruct (existsb _ _) eqn:He; [done|].
  exfalso. apply not_true_iff_false in He. apply He, existsb_exists.
  exists n. split; [by apply list_elem_of_In|]. by apply bool_decide_eq_true.
Qed.

Lemma rename_cols_names (cs : list column) (names : list string) :
  length names = length cs ->
  map col_name (zip_with (fun c n => Column n (col_dtype c) (col_values c)) cs names) = names.
Proof.
  revert names. induction cs as [|c cs IH]; intros [|n names] Hlen; cbn in *; try lia; [done|].
  f_equal. apply IH. lia.
Qed.

(** [df.columns = names] renames and keeps everything else. *)
Lemma set_columns_inr t names t' :
  set_columns t names = inr t' ->
  col_names t' = names /\ f_index t' = f_index t /\
  f_cols t' = zip_with (fun c n => Column n (col_dtype c) (col_values c)) (f_cols t) names.
Proof.
  unfold set_columns. destruct (Nat.eqb_spec (length names) (length (f_cols t))) as [H|];
    [|done].
  intros [= <-]. split; [|done]. by apply rename_cols_names.
Qed.

Lemma set_columns_ok t names :
  length names = length (f_cols t) ->
  set_columns t names
  = inr (Frame (f_index t)
                (zip_with (fun c n => Column n (col_dtype c) (col_values c)) (f_cols t) names)).
Proof. intros H. unfold set_columns. by rewrite (proj2 (Nat.eqb_eq _ _) H). Qed.

(** [_get_numeric_data] keeps exactly the numeric columns, in order. *)
Lemma numeric_data_cols f :
  f_cols (numeric_data f) = List.filter (fun c => is_numeric_dtype (col_dtype c)) (f_cols f).
Proof. done. Qed.

Lemma numeric_data_numeric f :
  Forall (fun c => is_numeric_dtype (col_dtype c) = true) (f_cols (numeric_data f)).
Proof. apply Forall_filter_prop. done. Qed.

#[export] Hint Resolve numeric_data_numeric : pydb.

Lemma getitem_index X k d : getitem X k = inr d -> pd_index d = f_index X.
Proof.
  unfold getitem.
  destruct k as [| | | | |ks|];
    try (destruct (lookup_key X _) as [e|[|c [|c' cs]]]; intros H; simplify_eq; done).
  destruct (sum_mapM (lookup_key X) ks); intros H; simplify_eq; done.
Qed.

(** ** Selecting columns of a frame with distinct names *)

Lemma filter_name_unique (cols : list column) (c : column) :
  NoDup (map col_name cols) -> c ∈ cols ->
  List.filter (fun c' => py_eq_str (PyStr (col_name c)) (col_name c')) cols = [c].
Proof.
  induction cols as [|c0 cols IH]; intros Hnd Hin; [by apply elem_of_nil in Hin|].
  cbn in Hnd. apply NoDup_cons in Hnd as [Hc0 Hnd]. cbn.
  apply elem_of_cons in Hin as [<-|Hin].
  - rewrite String.eqb_refl. f_equal.
    destruct (List.filter _ cols) as [|c1 l] eqn:Hf; [done|]. exfalso.
    assert (Hc1 : c1 ∈ List.filter (fun c' => py_eq_str (PyStr (col_name c)) (col_name c')) cols)
      by (rewrite Hf; left).
    apply list_elem_of_In, filter_In in Hc1 as [Hc1 Heq]. cbn in Heq.
    apply String.eqb_eq in Heq. apply Hc0. rewrite Heq.
    apply list_elem_of_In, in_map, Hc1.
  - destruct (String.eqb_spec (col_name c) (col_name c0)) as [Heq|]; [|by apply IH].
    exfalso. apply Hc0. rewrite <- Heq. apply list_elem_of_fmap_2, Hin.
Qed.

(** [X[name]] of a column whose name is unique is that column. *)
Lemma getitem_name X c :
  NoDup (col_names X) -> c ∈ f_cols X ->
  getitem X (PyStr (col_name c)) = inr (PDSeries (f_index X) c).
Proof.
  intros Hnd Hin. unfold getitem, lookup_key, matching.
  by rewrite (filter_name_unique (f_cols X) c Hnd Hin).
Qed.

(** [X[[names]]] of columns whose names are unique are those columns. *)
Lemma getitem_names X cs :
  NoDup (col_names X) -> (forall c, c ∈ cs -> c ∈ f_cols X) ->
  getitem X (PyList (map (fun c => PyStr (col_name c)) cs))
  = inr (PDFrame (Frame (f_index X) cs)).
Proof.
  intros Hnd Hin. unfold getitem.
  assert (Hall : sum_mapM (lookup_key X) (map (fun c => PyStr (col_name c)) cs)
                 = inr (map (fun c => [c]) cs)).
  { induction cs as [|c cs IH]; [done|]. cbn.
    unfold lookup_key at 1, matching at 1.
    rewrite (filter_name_unique (f_cols X) c Hnd) by (apply Hin; left).
    rewrite IH; [done|]. intros c' Hc'. apply Hin. by right. }
  rewrite Hall. cbn. do 3 f_equal. clear Hall Hin.
  induction cs as [|c cs IH]; cbn; [done|]. by rewrite IH.
Qed.

(** ** Rows after [.iloc] *)

Lemma map_as_nth_seq {A B} (g : A -> B) (l : list A) (d : A) :
  map g l = map (fun j => g (nth j l d)) (seq 0 (length l)).
Proof.
  rewrite <- (map_nth_seq_self l d) at 1. by rewrite map_map.
Qed.

Lemma nth_take_rows {A} (p : list nat) (l : list A) (d : A) j :
  j < length p -> nth j (take_rows p l d) d = nth (nth j p 0) l d.
Proof.
  unfold take_rows. revert j.
  induction p as [|i p IH]; intros [|j] Hj; cbn in *; [lia|lia|done|]. apply IH. lia.
Qed.

Lemma length_take_rows {A} p (l : list A) d : length (take_rows p l d) = length p.
Proof. apply length_map. Qed.

Lemma take_rows_as_seq {A} p (l : list A) d :
  take_rows p l d = map (fun j => nth (nth j p 0) l d) (seq 0 (length p)).
Proof. unfold take_rows. apply (map_as_nth_seq (fun i => nth i l d) p 0). Qed.

Lemma nth_map_seq {B} (F : nat -> B) n i d : i < n -> nth i (map F (seq 0 n)) d = F i.
Proof.
  intros H. rewrite (nth_indep _ d (F 0)) by (rewrite length_map, length_seq; lia).
  rewrite map_nth, seq_nth; [done|lia].
Qed.

(** The rows of a frame read at positions [p] are its rows at [p]. *)
Lemma frame_values_take idx cols p :
  Forall (fun i => i < length idx) p ->
  frame_values (Frame (take_rows p idx 0)
                      (map (fun c => Column (col_name c) (col_dtype c)
                                            (take_rows p (col_values c) CNaN)) cols))
  = take_rows p (frame_values (Frame idx cols)) [].
Proof.
  intros Hp. unfold frame_values. cbn. rewrite length_take_rows.
  rewrite (take_rows_as_seq p (map _ (seq 0 (length idx)))).
  apply map_ext_in. intros j Hj. apply in_seq in Hj.
  assert (Hlt : nth j p 0 < length idx).
  { rewrite Forall_forall in Hp. apply Hp, list_elem_of_In, nth_In. lia. }
  rewrite nth_map_seq by done. rewrite map_map.
  apply map_ext. intros c. cbn. apply nth_take_rows. lia.
Qed.

Lemma length_frame_values f : length (frame_values f) = length (f_index f).
Proof. unfold frame_values. by rewrite length_map, length_seq. Qed.

Lemma frame_values_reset o :
  frame_values (to_frame (reset_index o)) = frame_values (to_frame o).
Proof. destruct o; unfold frame_values; cbn; by rewrite length_seq. Qed.

Lemma pd_index_reset o : pd_index (reset_index o) = seq 0 (pd_len o).
Proof. by destruct o. Qed.

Lemma iloc_check_ok n p : iloc_check n p = inr tt <-> Forall (fun i => i < n) p.
Proof.
  unfold iloc_check. rewrite Forall_forall. destruct (forallb _ p) eqn:H.
  - split; [|done]. intros _ i Hi. apply list_elem_of_In in Hi.
    rewrite forallb_forall in H. apply Nat.ltb_lt, H, Hi.
  - split; [done|]. intros Hall. exfalso. apply not_true_iff_false in H. apply H.
    apply forallb_forall. intros i Hi. apply Nat.ltb_lt, Hall, list_elem_of_In, Hi.
Qed.

(** [.iloc[p]] reads the rows and the index labels at [p]. *)
Lemma iloc_values o p o' :
  iloc o p = inr o' ->
  frame_values (to_frame o') = take_rows p (frame_values (to_frame o)) [] /\
  pd_index o' = take_rows p (pd_index o) 0.
Proof.
  unfold iloc. destruct (iloc_check (pd_len o) p) as [|[]] eqn:Hc; [done|].
  apply iloc_check_ok in Hc. unfold pd_len in Hc. intros [= <-].
  destruct o as [f|idx c]; cbn in *.
  - split; [|done]. by apply (frame_values_take (f_index f) (f_cols f) p).
  - split; [|done]. by apply (frame_values_take idx [c] p).
Qed.

Lemma to_frame_index X : f_index (to_frame X) = pd_index X.
Proof. by destruct X. Qed.

(** ** Decidable equality of the data *)

#[export] Instance Q_eq_dec_leibniz : EqDecision Q.
Proof. intros [a b] [c d]. destruct (decide (a = c)); destruct (decide (b = d)); subst;
  [left; done|right; congruence..]. Defined.

#[export] Instance cell_eq_dec : EqDecision cell.
Proof. solve_decision. Defined.

#[export] Instance column_eq_dec : EqDecision column.
Proof. solve_decision. Defined.

(** A membership test that computes, for the concrete examples. *)
Lemma names_disjoint_by_test (l l' : list string) :
  forallb (fun n => negb (bool_decide (n ∈ l'))) l = true -> forall n, n ∈ l -> n ∉ l'.
Proof.
  intros H n Hn Hn'. rewrite forallb_forall in H.
  apply list_elem_of_In, H in Hn. by rewrite bool_decide_eq_true_2 in Hn.
Qed.

(** ** Well-formedness of the frames the operations build *)

Lemma lookup_key_sub X k cs : lookup_key X k = inr cs -> forall c, c ∈ cs -> c ∈ f_cols X.
Proof.
  unfold lookup_key, matching. destruct (List.filter _ _) as [|c0 l] eqn:Hf; [done|].
  intros [= <-] c Hc. rewrite <- Hf in Hc.
  apply list_elem_of_In, filter_In in Hc as [Hc _]. by apply list_elem_of_In.
Qed.

(** [X[key]] takes columns of [X], on [X]'s index. *)
Lemma getitem_sub X k d :
  getitem X k = inr d ->
  f_index (to_frame d) = f_index X /\ (forall c, c ∈ f_cols (to_frame d) -> c ∈ f_cols X).
Proof.
  unfold getitem. destruct k as [| | | | |ks|].
  6: { destruct (sum_mapM (lookup_key X) ks) as [|css] eqn:Hs; [done|].
       intros [= <-]. cbn. split; [done|]. intros c Hc.
       apply list_elem_of_In, in_concat in Hc as (cs & Hcs & Hc).
       apply sum_mapM_inr in Hs. revert Hcs. induction Hs as [|k cs' ks' css' Hk _ IH]; [done|].
       intros [<-|Hcs]; [|by apply IH].
       eapply lookup_key_sub; [exact Hk|by apply list_elem_of_In]. }
  all: destruct (lookup_key X _) as [|cs] eqn:Hl; [done|];
    destruct cs as [|c0 [|c1 cs]]; intros [= <-]; cbn;
    (split; [done|intros c Hc; eapply lookup_key_sub; [exact Hl|exact Hc]]).
Qed.

Lemma frame_wf_sub X f :
  frame_wf X -> f_index f = f_index X -> (forall c, c ∈ f_cols f -> c ∈ f_cols X) -> frame_wf f.
Proof.
  unfold frame_wf. intros HX Hi Hs. rewrite Hi. apply Forall_forall.
  intros c Hc. rewrite Forall_forall in HX. by apply HX, Hs.
Qed.

Lemma getitem_wf X k d : frame_wf X -> getitem X k = inr d -> frame_wf (to_frame d).
Proof. intros HX Hd. apply getitem_sub in Hd as [Hi Hs]. by eapply frame_wf_sub. Qed.

Lemma set_columns_wf t names t' : frame_wf t -> set_columns t names = inr t' -> frame_wf t'.
Proof.
  intros Hwf Hs. apply set_columns_inr in Hs as (_ & Hi & Hc).
  unfold frame_wf in *. rewrite Hc, Hi. clear Hc Hi. revert names.
  induction Hwf as [|c cs Hc _ IH]; intros [|n names]; cbn; constructor; auto.
Qed.

Lemma numeric_data_wf f : frame_wf f -> frame_wf (numeric_data f).
Proof. unfold frame_wf, numeric_data. cbn. apply Forall_filter_sub. Qed.

Lemma frame_join_wf l r j : frame_wf l -> frame_wf r -> frame_join l r = inr j -> frame_wf j.
Proof.
  intros Hl Hr Hj. apply frame_join_inr in Hj as (Hi & _ & ->).
  unfold frame_wf in *. cbn. apply Forall_app. split; [done|]. by rewrite <- Hi.
Qed.

(** ** [.columns] as a getter and a setter *)

Lemma rename_cols_same (cs : list column) :
  zip_with (fun c n => Column n (col_dtype c) (col_values c)) cs (map col_name cs) = cs.
Proof. induction cs as [|[n d v] cs IH]; cbn; [done|]. by rewrite IH. Qed.

Lemma rename_cols_cells (cs : list column) (names : list string) :
  length names = length cs ->
  map (fun c => (col_dtype c, col_values c))
      (zip_with (fun c n => Column n (col_dtype c) (col_values c)) cs names)
  = map (fun c => (col_dtype c, col_values c)) cs.
Proof.
  revert names. induction cs as [|c cs IH]; intros [|n names] Hlen; cbn in *; try lia; [done|].
  f_equal. apply IH. lia.
Qed.


(** ** Cells that fit their column's dtype *)

(** A number or a missing value. *)
Definition num_or_nan (x : cell) : bool :=
  match x with CNum _ | CNaN => true | _ => false end.

(** Every cell is a number or missing: what [X.values] must be for the
    mean, median and constant strategies of SimpleImputer. *)
Definition numeric_frame (X : frame) : bool :=
  forallb (fun c => forallb num_or_nan (col_values c)) (f_cols X).

(** An integer or float column holds numbers or missing values only, and
    no column is boolean. *)
Definition col_clean (c : column) : bool :=
  match col_dtype c with
  | DInt64 | DFloat64 => forallb num_or_nan (col_values c)
  | DBool => false
  | _ => true
  end.

Definition frame_clean (f : frame) : bool := forallb col_clean (f_cols f).

Lemma frame_clean_sub X f :
  frame_clean X = true -> (forall c, c ∈ f_cols f -> c ∈ f_cols X) -> frame_clean f = true.
Proof.
  unfold frame_clean. rewrite !forallb_forall. intros HX Hs c Hc.
  by apply HX, list_elem_of_In, Hs, list_elem_of_In.
Qed.

Lemma getitem_clean X k d : frame_clean X = true -> getitem X k = inr d -> frame_clean (to_frame d) = true.
Proof. intros HX Hd. apply getitem_sub in Hd as [_ Hs]. by eapply frame_clean_sub. Qed.

Lemma set_columns_clean t names t' :
  frame_clean t = true -> set_columns t names = inr t' -> frame_clean t' = true.
Proof.
  intros Ht Hs. apply set_columns_inr in Hs as (_ & _ & Hc).
  unfold frame_clean in *. rewrite Hc. clear Hc. revert names.
  induction (f_cols t) as [|c cs IH]; intros [|n names]; cbn in *; try done.
  apply andb_prop in Ht as [Hc Hcs]. rewrite IH by done. by rewrite andb_true_r.
Qed.

Lemma frame_join_clean l r j :
  frame_clean l = true -> frame_clean r = true -> frame_join l r = inr j -> frame_clean j = true.
Proof.
  intros Hl Hr Hj. apply frame_join_inr in Hj as (_ & _ & ->).
  unfold frame_clean in *. cbn. by rewrite forallb_app, Hl, Hr.
Qed.

(** [_get_numeric_data] of a clean frame holds numbers and missing values only. *)
Lemma numeric_data_clean f : frame_clean f = true -> numeric_frame (numeric_data f) = true.
Proof.
  unfold frame_clean, numeric_frame, numeric_data. cbn. rewrite !forallb_forall.
  intros H c Hc. apply filter_In in Hc as [Hin Hnum].
  specialize (H c Hin). unfold col_clean, is_numeric_dtype in *.
  by destruct (col_dtype c).
Qed.

(** ** Cells up to [cell_eqb]

    [Series.unique] and [groupby] identify the cells [cell_eqb] equates:
    an equivalence coarser than [=] ([True] and [1], [1] and [2/2]). *)

Definition cell_equiv (x y : cell) : Prop := cell_eqb x y = true.

#[export] Instance cell_equiv_equivalence : Equivalence cell_equiv.
Proof.
  unfold cell_equiv. split.
  - intros [s|q|b|]; cbn; [apply String.eqb_refl|apply Qeq_bool_refl..|done].
  - intros [s|q|b|] [t|r|c|]; cbn; rewrite ?String.eqb_eq, ?Qeq_bool_iff; try done;
      intros; by symmetry.
  - intros [s|q|b|] [t|r|c|] [u|o|d|]; cbn; rewrite ?String.eqb_eq, ?Qeq_bool_iff;
      try done; intros H1 H2; rewrite ?Qeq_bool_iff in *; try congruence;
      eapply Qeq_trans; eassumption.
Qed.

#[export] Instance cell_eqb_proper : Proper (cell_equiv ==> cell_equiv ==> eq) cell_eqb.
Proof.
  intros x x' Hx y y' Hy. apply Bool.eq_iff_eq_true.
  change (cell_equiv x y <-> cell_equiv x' y'). by rewrite Hx, Hy.
Qed.

(** [unique] keeps a representative of every value of its input. *)
Lemma existsb_unique_acc x seen l :
  existsb (cell_eqb x) (unique_acc seen l) = existsb (cell_eqb x) seen || existsb (cell_eqb x) l.
Proof.
  revert seen. induction l as [|y l IH]; intros seen; cbn.
  - rewrite orb_false_r. apply existsb_perm. symmetry. apply Permutation_rev.
  - destruct (existsb (cell_eqb y) seen) eqn:Hy; rewrite IH; cbn.
    + destruct (cell_eqb x y) eqn:Hxy; cbn; [|done].
      apply existsb_exists in Hy as (z & Hz & Hyz).
      assert (Hxz : cell_eqb x z = true) by (change (cell_equiv x z); by etrans).
      assert (Hs : existsb (cell_eqb x) seen = true) by (apply existsb_exists; by exists z).
      by rewrite Hs.
    + rewrite !orb_assoc. f_equal. apply orb_comm.
Qed.

Lemma existsb_unique x l : existsb (cell_eqb x) (unique l) = existsb (cell_eqb x) l.
Proof. unfold unique. by rewrite existsb_unique_acc. Qed.

(** ** Rows reordered by [.iloc[p].reset_index(drop=True)] *)

Definition col_take (p : list nat) (c : column) : column :=
  Column (col_name c) (col_dtype c) (take_rows p (col_values c) CNaN).

Lemma iloc_reset_frame o p o' :
  iloc o p = inr o' ->
  to_frame (reset_index o') = Frame (seq 0 (length p)) (map (col_take p) (f_cols (to_frame o))).
Proof.
  unfold iloc. destruct (iloc_check _ p); [done|]. intros [= <-].
  destruct o; cbn; by rewrite length_take_rows.
Qed.

Lemma target_iloc_reset_inr y p y' :
  target_iloc_reset y p = inr y' ->
  exists idx vals, y = TSeries idx vals /\ y' = TSeries (seq 0 (length p)) (take_rows p vals CNaN).
Proof.
  destruct y as [idx vals| |]; cbn; [|done|done].
  destruct (iloc_check _ p); [done|]. intros [= <-]. by exists idx, vals.
Qed.

Lemma iloc_check_perm n p p' : p ≡ₚ p' -> iloc_check n p = iloc_check n p'.
Proof. intros Hp. unfold iloc_check. by rewrite (forallb_perm _ _ _ Hp). Qed.

(** [.iloc] at two reorderings of the same positions raises alike. *)
Lemma iloc_perm_cases o p p' :
  p ≡ₚ p' -> sum_relation eq (fun _ _ => True) (iloc o p) (iloc o p').
Proof.
  intros Hp. unfold iloc. rewrite (iloc_check_perm _ _ _ Hp).
  destruct (iloc_check _ p'); by constructor.
Qed.

Lemma target_iloc_reset_perm_cases y p p' :
  p ≡ₚ p' -> sum_relation eq (fun _ _ => True) (target_iloc_reset y p) (target_iloc_reset y p').
Proof.
  intros Hp. destruct y as [idx vals| |]; cbn; try by constructor.
  rewrite (iloc_check_perm _ _ _ Hp). destruct (iloc_check _ p'); by constructor.
Qed.
