(* ===== verification/NumpyRandom.v ===== *)
(** * [np.random.permutation] over numpy's global random state

    The CatBoost branch of [Encodings.fit] (src/percentile.py line 57)
    draws [perm = np.random.permutation(len(X))]. numpy builds
    [arange(n)] and shuffles it in place with the Fisher-Yates loop
    [for i in reversed(range(1, n)): j = random_interval(i); swap(i, j)].
    The global random state is modelled as a stream of draws with a read
    position; [random_interval(i)] is a draw reduced to [0..i]. The
    theorems hold for every stream: the result is a permutation of
    [0..n-1] and exactly [n-1] draws are consumed. *)

From S2P Require Import Prelude.
From Stdlib Require Import Lia.

Record rng := Rng { rng_draw : nat -> nat; rng_pos : nat }.

(** One draw from the global state, which advances. *)
Definition next_draw (g : rng) : nat * rng :=
  (rng_draw g (rng_pos g), Rng (rng_draw g) (S (rng_pos g))).

(** [arr[i], arr[j] = arr[j], arr[i]] *)
Definition swap (arr : list nat) (i j : nat) : list nat :=
  match arr !! i, arr !! j with
  | Some x, Some y => <[j:=x]> (<[i:=y]> arr)
  | _, _ => arr
  end.

(** The loop body for [i], then the iterations for [i-1 .. 1]. *)
Fixpoint shuffle_loop (i : nat) (arr : list nat) (g : rng) : list nat * rng :=
  match i with
  | 0 => (arr, g)
  | S i' =>
      let (d, g') := next_draw g in
      let j := d mod (S i) in
      shuffle_loop i' (swap arr i j) g'
  end.

(** [np.random.permutation(n)] *)
Definition permutation (n : nat) (g : rng) : list nat * rng :=
  match n with
  | 0 => ([], g)
  | S m => shuffle_loop m (seq 0 n) g
  end.

Lemma swap_perm arr i j : swap arr i j ≡ₚ arr.
Proof.
  unfold swap. destruct (arr !! i) as [x|] eqn:Hi; [|done].
  destruct (arr !! j) as [y|] eqn:Hj; [|done].
  by apply Permutation_insert_swap.
Qed.

Lemma swap_length arr i j : length (swap arr i j) = length arr.
Proof. apply Permutation_length, swap_perm. Qed.

Lemma shuffle_loop_perm i arr g : (shuffle_loop i arr g).1 ≡ₚ arr.
Proof.
  revert arr g. induction i as [|i IH]; intros arr g; [done|].
  cbn [shuffle_loop]. destruct (next_draw g) as [d g'].
  rewrite IH. apply swap_perm.
Qed.

Lemma shuffle_loop_pos i arr g : rng_pos (shuffle_loop i arr g).2 = rng_pos g + i.
Proof.
  revert arr g. induction i as [|i IH]; intros arr g; cbn [shuffle_loop next_draw].
  - cbn. lia.
  - rewrite IH. cbn. lia.
Qed.

Lemma shuffle_loop_draw i arr g : rng_draw (shuffle_loop i arr g).2 = rng_draw g.
Proof.
  revert arr g. induction i as [|i IH]; intros arr g; cbn [shuffle_loop next_draw]; [done|].
  by rewrite IH.
Qed.

#[export] Hint Resolve swap_perm shuffle_loop_perm : pydb.

(** [np.random.permutation(n)] returns a permutation of [0..n-1], for
    every state of the random stream. *)
Theorem permutation_is_perm (n : nat) (g : rng) :
  (permutation n g).1 ≡ₚ seq 0 n.
Proof. destruct n; [done|]. apply shuffle_loop_perm. Qed.

(** It consumes exactly [n-1] draws and leaves the stream itself alone. *)
Theorem permutation_draws (n : nat) (g : rng) :
  rng_pos (permutation n g).2 = rng_pos g + (n - 1) /\
  rng_draw (permutation n g).2 = rng_draw g.
Proof.
  destruct n as [|m]; cbn; [split; [lia|done]|].
  rewrite shuffle_loop_pos, shuffle_loop_draw. split; [lia|done].
Qed.

Lemma permutation_length n g : length (permutation n g).1 = n.
Proof. rewrite (Permutation_length (permutation_is_perm n g)). apply length_seq. Qed.

Lemma permutation_bound n g i : i ∈ (permutation n g).1 -> i < n.
Proof.
  intros Hi. rewrite (permutation_is_perm n g) in Hi.
  apply list_elem_of_In, in_seq in Hi. lia.
Qed.

Lemma permutation_in_bounds n g : Forall (fun i => i < n) (permutation n g).1.
Proof. apply Forall_forall. intros i Hi. by eapply permutation_bound. Qed.
