(* ===== verification/Libraries.v ===== *)
(** * Interfaces of the third-party estimators the module drives

    [Encodings] builds and drives category_encoders estimators and
    [NaNtreatment] a sklearn [SimpleImputer]. Their statistics are not the
    repository's code: each library is an interface (a type class of its
    operations) and a class of laws, the facts about the library the
    repository's behaviour depends on. The classes of [Encodings.v] and
    [NaNtreatment.v] are proved against these interfaces;
    [LibraryModels.v] gives executable instances and proves their laws.

    The Python objects held in [self.enc] and [self.treatment_method] are
    [encoder_obj] and [imputer_obj]: the estimator's constructor arguments
    and its fitted state, [None] until [fit] succeeds ([fit] mutates the
    object in place and leaves it as it was when it raises). *)

From S2P Require Import Prelude PyCore Pandas.
From stdpp Require Import strings.
From Stdlib Require Import QArith.

Local Open Scope nat_scope.

(** ** category_encoders *)

(** The four estimators the module can build (lines 46, 49, 60, 63). *)
Inductive enc_kind := TargetEncoder | WOEEncoder | CatBoostEncoder | OneHotEncoder.

#[export] Instance enc_kind_eq_dec : EqDecision enc_kind.
Proof. solve_decision. Defined.

Class CategoryEncoders := {
  ce_fitted : Type;
  (** [enc.fit(X, y)] on a fresh estimator of the kind *)
  ce_fit : enc_kind -> pdobj -> target -> exc + ce_fitted;
  (** the number of input columns the fitted estimator expects *)
  ce_dim : ce_fitted -> nat;
  (** [enc.transform(X)] *)
  ce_transform : ce_fitted -> pdobj -> exc + frame
}.

(** Two fitted estimators that transform every input alike. *)
Definition fitted_equiv `{CategoryEncoders} (m m' : ce_fitted) : Prop :=
  forall X, ce_transform m X = ce_transform m' X.

#[export] Instance fitted_equiv_equivalence `{CategoryEncoders} : Equivalence fitted_equiv.
Proof.
  split; unfold fitted_equiv.
  - done.
  - intros m m' Hm X. by rewrite Hm.
  - intros m1 m2 m3 Hm Hm' X. by rewrite Hm, Hm'.
Qed.

(** Facts about category_encoders: [fit] records the input's width,
    [transform] raises [ValueError("Unexpected input dimension ...")]
    on any other width, returns a well-formed frame on its input's index,
    succeeds on the table the estimator was fitted on, and outputs its
    input's columns or integer and float columns of numbers. A
    CatBoostEncoder keeps, per category, the count and the sum of its
    targets, and [transform] without a target encodes from them: a fit on
    the rows and targets read at one order transforms every input as a fit
    at any other order ([ce_fit_rows_perm]). *)
Class CategoryEncodersLaws `{CategoryEncoders} := {
  ce_fit_dim : forall k X y m, ce_fit k X y = inr m -> ce_dim m = pd_ncols X;
  ce_transform_dim : forall m X,
    pd_ncols X <> ce_dim m -> exists msg, ce_transform m X = inl (ValueError msg);
  ce_transform_index : forall m X out,
    ce_transform m X = inr out -> f_index out = pd_index X;
  ce_transform_wf : forall m X out,
    frame_wf (to_frame X) -> ce_transform m X = inr out -> frame_wf out;
  ce_fit_transform : forall k X y m,
    ce_fit k X y = inr m -> exists out, ce_transform m X = inr out;
  ce_transform_clean : forall m X out,
    frame_clean (to_frame X) = true -> ce_transform m X = inr out -> frame_clean out = true;
  ce_fit_rows_perm : forall X y p p' Xp Xp' yp yp',
    p ≡ₚ p' -> iloc X p = inr Xp -> iloc X p' = inr Xp' ->
    target_iloc_reset y p = inr yp -> target_iloc_reset y p' = inr yp' ->
    sum_relation eq fitted_equiv (ce_fit CatBoostEncoder (reset_index Xp) yp)
                                 (ce_fit CatBoostEncoder (reset_index Xp') yp')
}.

Section EncoderObject.
Context `{CategoryEncoders}.

(** An estimator object: its kind and, once fitted, its state. *)
Record encoder_obj := EncoderObj { eo_kind : enc_kind; eo_fitted : option ce_fitted }.

(** [category_encoders.<kind>()] *)
Definition new_encoder (k : enc_kind) : encoder_obj := EncoderObj k None.

(** [enc.fit(X, y)]: the object after the call. *)
Definition encoder_fit (o : encoder_obj) (X : pdobj) (y : target) : exc + encoder_obj :=
  match ce_fit (eo_kind o) X y with
  | inl e => inl e
  | inr m => inr (EncoderObj (eo_kind o) (Some m))
  end.

(** [enc.transform(X)] *)
Definition encoder_transform (o : encoder_obj) (X : pdobj) : exc + frame :=
  match eo_fitted o with
  | None => inl (NotFittedError "Must train encoder before it can be used to transform data.")
  | Some m => ce_transform m X
  end.
End EncoderObject.

(** ** sklearn.impute.SimpleImputer *)

(** The strategies the module asks for (lines 124-131). *)
Inductive strategy :=
| SMean
| SMedian
| SMostFrequent
| SConstant (fill : pyval).

(** A numpy 2-d array, row by row. *)
Abbreviation matrix := (list (list cell)).

Class SimpleImputerLib := {
  si_fitted : Type;
  (** [SimpleImputer(missing_values=np.nan, strategy=..).fit(M)] *)
  si_fit : strategy -> matrix -> exc + si_fitted;
  (** [imputer.transform(M)] *)
  si_transform : si_fitted -> matrix -> exc + matrix
}.

(** Replace a missing cell. *)
Definition fill_nan (v : cell) (x : cell) : cell :=
  match x with CNaN => v | _ => x end.

(** Column [j] of a matrix. *)
Definition mcol (j : nat) (M : matrix) : list cell := map (fun row => nth j row CNaN) M.

(** The non-missing cells. *)
Definition observed (l : list cell) : list cell :=
  List.filter (fun x => match x with CNaN => false | _ => true end) l.

Definition q_mean (l : list Q) : option Q :=
  match l with
  | [] => None
  | _ => Some (Qred (fold_right Qplus 0%Q l / inject_Z (Z.of_nat (length l))))
  end.

(** The mean of the observed cells of column [j], as [strategy='mean']
    computes it, for each of the [w] columns. *)
Definition col_means (w : nat) (M : matrix) : list cell :=
  map (fun j => CNum (default 0%Q (q_mean (map num_of (observed (mcol j M)))))) (seq 0 w).

(** Every row has [w] cells, each a number or missing. *)
Definition numeric_matrix (w : nat) (M : matrix) : Prop :=
  Forall (fun row => length row = w /\
                     Forall (fun x => x = CNaN \/ exists q, x = CNum q) row) M.

(** The facts about SimpleImputer the module's constant and mean
    treatments rely on: with a numeric [fill_value], a fit on numeric data
    of at least one row and one column succeeds and its transform of
    numeric data of the same width replaces exactly the missing cells by
    the fill value; with [strategy='mean'] the fit succeeds on the same
    data and, when every column has an observed value, its transform
    replaces the missing cells of column [j] by the mean of the observed
    cells of column [j] of the fitting data. *)
Class SimpleImputerLaws `{SimpleImputerLib} := {
  si_const_fit : forall v q w M,
    py_number v = Some q -> 0 < w -> numeric_matrix w M -> M <> [] ->
    exists st, si_fit (SConstant v) M = inr st;
  si_const_transform : forall v q w M st M',
    py_number v = Some q -> numeric_matrix w M -> M <> [] ->
    si_fit (SConstant v) M = inr st -> numeric_matrix w M' ->
    si_transform st M' = inr (map (map (fill_nan (CNum q))) M');
  si_mean_fit : forall w M,
    0 < w -> numeric_matrix w M -> M <> [] -> exists st, si_fit SMean M = inr st;
  si_mean_transform : forall w M st M',
    numeric_matrix w M -> (forall j, j < w -> observed (mcol j M) <> []) ->
    si_fit SMean M = inr st -> numeric_matrix w M' ->
    si_transform st M' = inr (map (zip_with fill_nan (col_means w M)) M')
}.

Section ImputerObject.
Context `{SimpleImputerLib}.

Record imputer_obj := ImputerObj { io_strategy : strategy; io_fitted : option si_fitted }.

Definition new_imputer (s : strategy) : imputer_obj := ImputerObj s None.

Definition imputer_fit (o : imputer_obj) (M : matrix) : exc + imputer_obj :=
  match si_fit (io_strategy o) M with
  | inl e => inl e
  | inr st => inr (ImputerObj (io_strategy o) (Some st))
  end.

Definition imputer_transform (o : imputer_obj) (M : matrix) : exc + matrix :=
  match io_fitted o with
  | None => inl (NotFittedError "This SimpleImputer instance is not fitted yet.")
  | Some st => si_transform st M
  end.
End ImputerObject.

Lemma fill_nan_not_nan v x : v <> CNaN -> fill_nan v x <> CNaN.
Proof. by destruct x. Qed.
