(* ===== verification/LibraryModels.v ===== *)
(** * Executable models of category_encoders and SimpleImputer

    Instances of the interfaces of [Libraries.v], built from the spec's
    description of the libraries (section 4 and the glossary), so that the
    theorems about the module can be evaluated on concrete tables.

    category_encoders: with no [cols] argument an estimator encodes the
    [object] and [category] columns of its input and passes the others
    through. TargetEncoder, WOEEncoder and CatBoostEncoder replace an
    encoded column by one float column holding a statistic of the
    category's targets, a function [stat] of the category's count and
    target sum and of the table's row count and target sum (smoothed
    mean, log-odds, or CatBoost's prior-weighted mean, which is what its
    [transform] computes when no target is given). [stat] is a parameter
    of the model, since only its place in the table matters to the
    module; because it sees the rows only through these counts and sums,
    a fit on reordered rows transforms alike ([ce_model_fit_rows_perm],
    with the setoid [ce_model_equiv] of fitted models and its [Proper]
    instance for [transform]). OneHotEncoder replaces
    an encoded column [c] by indicator columns [c_1 .. c_k], one per
    category seen at fit time in order of appearance; an unseen category
    gets no indicator. [fit] records the input width and [transform]
    refuses any other width, with category_encoders' message.

    SimpleImputer: the statistic of each column over its non-missing
    cells (mean; median, the mean of the two middle values for an even
    count; the most frequent value, the smallest on ties; or the constant);
    columns with no observed value are dropped by [transform] except under
    the constant strategy; mean and median refuse non-numeric data. *)

From S2P Require Import Prelude PyCore Pandas Libraries.
From stdpp Require Import strings pretty.
From Stdlib Require Import QArith.

Local Open Scope py_scope.

(** ** category_encoders *)

Definition ce_is_cat (c : column) : bool :=
  match col_dtype c with DObject | DCategory => true | _ => false end.

(** The target as numbers; category_encoders refuses a missing target or
    one that is not numeric. *)
Definition target_nums (y : target) : exc + list Q :=
  let vals := match y with TSeries _ v | TArray v => Some v | TNone => None end in
  match vals with
  | None => inl (ValueError "y must be provided")
  | Some v =>
      sum_mapM (fun x => match cell_num x with
                         | Some q => inr q
                         | None => inl (ValueError "target must be numeric")
                         end) v
  end.

(** The count and target sum of the rows holding value [v]. *)
Fixpoint cat_stats (v : cell) (vals : list cell) (ys : list Q) : nat * Q :=
  match vals, ys with
  | x :: vals', q :: ys' =>
      let (n, s) := cat_stats v vals' ys' in
      if cell_eqb v x then (S n, q + s)%Q else (n, s)
  | _, _ => (0%nat, 0%Q)
  end.

Fixpoint assoc {B} (k : string) (l : list (string * B)) : option B :=
  match l with
  | [] => None
  | (k', b) :: l' => if String.eqb k k' then Some b else assoc k l'
  end.

Fixpoint assoc_cell (v : cell) (l : list (cell * Q)) : option Q :=
  match l with
  | [] => None
  | (x, q) :: l' => if cell_eqb v x then Some q else assoc_cell v l'
  end.

Record ce_model := CeModel {
  cm_kind : enc_kind;
  cm_dim : nat;
  cm_levels : list (string * list cell);     (** one-hot categories *)
  cm_stats : list (string * list (cell * Q)); (** supervised values *)
  cm_prior : Q
}.

(** ** Row order

    Rational addition is computed without normalisation, so it is
    associative and commutative up to [=], not only up to [==]: a sum or
    a per-category count and sum of targets does not see the order of
    the rows. *)

#[export] Instance Qplus_assoc_L : Assoc (=) Qplus.
Proof.
  intros [a A] [b B] [c C]. unfold Qplus. cbn.
  f_equal; [rewrite !Pos2Z.inj_mul; ring|apply Pos.mul_assoc].
Qed.

#[export] Instance Qplus_comm_L : Comm (=) Qplus.
Proof. intros [a A] [b B]. unfold Qplus. cbn. f_equal; [ring|apply Pos.mul_comm]. Qed.

(** One row of [cat_stats]. *)
Definition stat_upd (v : cell) (xq : cell * Q) (acc : nat * Q) : nat * Q :=
  if cell_eqb v xq.1 then (S acc.1, xq.2 + acc.2)%Q else acc.

Lemma cat_stats_foldr v vals ys :
  cat_stats v vals ys = foldr (stat_upd v) (0%nat, 0%Q) (combine vals ys).
Proof.
  revert ys. induction vals as [|x vals IH]; intros [|q ys]; cbn; try done.
  rewrite <- IH. destruct (cat_stats v vals ys). unfold stat_upd. cbn. by destruct (cell_eqb v x).
Qed.

Lemma stat_upd_perm v l l' :
  l ≡ₚ l' -> foldr (stat_upd v) (0%nat, 0%Q) l = foldr (stat_upd v) (0%nat, 0%Q) l'.
Proof.
  apply (foldr_permutation_proper eq); [solve_proper|].
  intros [x q] [x' q'] [n t]. unfold stat_upd. cbn.
  destruct (cell_eqb v x), (cell_eqb v x'); cbn; try done.
  by rewrite !(base.assoc Qplus), (base.comm Qplus q q').
Qed.

Lemma stat_upd_equiv v v' l :
  cell_equiv v v' -> foldr (stat_upd v) (0%nat, 0%Q) l = foldr (stat_upd v') (0%nat, 0%Q) l.
Proof.
  intros Hv. induction l as [|[x q] l IH]; cbn; [done|]. rewrite IH. unfold stat_upd. cbn.
  by rewrite (cell_eqb_proper v v' Hv x x (reflexivity x)).
Qed.

Definition num_cell (x : cell) : bool := match cell_num x with Some _ => true | None => false end.

Lemma target_nums_series idx vals :
  target_nums (TSeries idx vals) =
    if forallb num_cell vals then inr (map num_of vals) else inl (ValueError "target must be numeric").
Proof.
  unfold target_nums. induction vals as [|x vals IH]; [done|]. cbn -[num_cell] in *.
  rewrite IH. unfold num_cell, num_of. destruct (cell_num x); cbn; [|done].
  by destruct (forallb _ vals).
Qed.

Lemma yq_take p vals : map num_of (take_rows p vals CNaN) = take_rows p (map num_of vals) 0%Q.
Proof.
  unfold take_rows. rewrite map_map. apply map_ext. intros i.
  change 0%Q with (num_of CNaN). by rewrite map_nth.
Qed.

Lemma assoc_cell_stats (g : cell -> Q) x U :
  (forall v v', cell_equiv v v' -> g v = g v') ->
  assoc_cell x (map (fun v => (v, g v)) U) = if existsb (cell_eqb x) U then Some (g x) else None.
Proof.
  intros Hg. induction U as [|v U IH]; cbn; [done|].
  destruct (cell_eqb x v) eqn:H; cbn; [|done]. f_equal. symmetry. by apply Hg.
Qed.

Lemma assoc_map_find {B} (F : column -> B) name cs :
  assoc name (map (fun c => (col_name c, F c)) cs) =
  option_map F (find (fun c => String.eqb name (col_name c)) cs).
Proof. induction cs as [|c cs IH]; cbn; [done|]. by destruct (String.eqb name (col_name c)). Qed.

Lemma cat_stats_equiv v v' vals ys :
  cell_equiv v v' -> cat_stats v vals ys = cat_stats v' vals ys.
Proof. intros Hv. rewrite !cat_stats_foldr. by apply stat_upd_equiv. Qed.

(** The count and target sum of a category over rows read at [p] do not
    depend on the order of [p]. *)
Lemma stats_pair (g : nat -> Q -> Q) vals ys U :
  map (fun v => let (cnt, t) := cat_stats v vals ys in (v, g cnt t)) U =
  map (fun v => (v, let (cnt, t) := cat_stats v vals ys in g cnt t)) U.
Proof. apply map_ext. intros v. by destruct (cat_stats v vals ys). Qed.

Lemma cat_stats_take x p p' vc ys :
  p ≡ₚ p' ->
  cat_stats x (take_rows p vc CNaN) (take_rows p ys 0%Q) =
  cat_stats x (take_rows p' vc CNaN) (take_rows p' ys 0%Q).
Proof.
  intros Hp. rewrite !cat_stats_foldr. unfold take_rows. rewrite !combine_map_same.
  apply stat_upd_perm, Permutation_map, Hp.
Qed.

Lemma take_rows_perm {A} p p' (l : list A) d : p ≡ₚ p' -> take_rows p l d ≡ₚ take_rows p' l d.
Proof. intros Hp. unfold take_rows. by apply Permutation_map. Qed.

Lemma filter_cat_take p cols :
  List.filter ce_is_cat (map (col_take p) cols) = map (col_take p) (List.filter ce_is_cat cols).
Proof.
  induction cols as [|c cols IH]; cbn; [done|].
  change (ce_is_cat (col_take p c)) with (ce_is_cat c). destruct (ce_is_cat c); cbn; by rewrite IH.
Qed.

Lemma find_name_take name p cols :
  find (fun c => String.eqb name (col_name c)) (map (col_take p) cols) =
  option_map (col_take p) (find (fun c => String.eqb name (col_name c)) cols).
Proof. by rewrite find_map. Qed.

Section CategoryEncodersModel.
(** [stat kind count sum n total]: the value of a category seen [count]
    times with target sum [sum], in a training set of [n] rows with
    target sum [total]. *)
Variable stat : enc_kind -> nat -> Q -> nat -> Q -> Q.

Definition ce_model_fit (k : enc_kind) (X : pdobj) (y : target) : exc + ce_model :=
  let f := to_frame X in
  let n := length (f_index f) in
  let cats := List.filter ce_is_cat (f_cols f) in
  let levels := map (fun c => (col_name c, unique (col_values c))) cats in
  match k with
  | OneHotEncoder => inr (CeModel k (length (f_cols f)) levels [] 0)
  | _ =>
      let? ys := target_nums y in
      if Nat.eqb (length ys) n then
        let total := fold_right Qplus 0 ys in
        let stats :=
          map (fun c => (col_name c,
                         map (fun v => let (cnt, s) := cat_stats v (col_values c) ys in
                                       (v, stat k cnt s n total))
                             (unique (col_values c)))) cats in
        inr (CeModel k (length (f_cols f)) levels stats
                     (if Nat.eqb n 0 then 0 else total / inject_Z (Z.of_nat n)))
      else inl (ValueError "The length of X does not match the length of y")
  end.

Definition encode_col (m : ce_model) (c : column) : list column :=
  if ce_is_cat c then
    match cm_kind m with
    | OneHotEncoder =>
        let lv := default [] (assoc (col_name c) (cm_levels m)) in
        imap (fun i v => Column (col_name c +:+ "_" +:+ pretty (S i)) DInt64
                                (map (fun x => CNum (if cell_eqb x v then 1 else 0)) (col_values c)))
             lv
    | _ =>
        let st := default [] (assoc (col_name c) (cm_stats m)) in
        [Column (col_name c) DFloat64
                (map (fun x => CNum (default (cm_prior m) (assoc_cell x st))) (col_values c))]
    end
  else [c].

Definition ce_model_transform (m : ce_model) (X : pdobj) : exc + frame :=
  let f := to_frame X in
  if Nat.eqb (length (f_cols f)) (cm_dim m)
  then inr (Frame (f_index f) (concat (map (encode_col m) (f_cols f))))
  else inl (ValueError "Unexpected input dimension").

Lemma encode_col_wf m c n :
  length (col_values c) = n -> Forall (fun c' => length (col_values c') = n) (encode_col m c).
Proof.
  intros Hc. unfold encode_col. destruct (ce_is_cat c); [|by constructor].
  destruct (cm_kind m).
  4: { apply Forall_forall. intros c' Hin. apply elem_of_lookup_imap in Hin as (i & v & -> & _). cbn. by rewrite length_map. }
  all: constructor; [cbn; by rewrite length_map|constructor].
Qed.

Lemma encode_col_clean m c :
  col_clean c = true -> forall c', c' ∈ encode_col m c -> col_clean c' = true.
Proof.
  intros Hc c' Hin. unfold encode_col in Hin. destruct (ce_is_cat c); [|by apply list_elem_of_singleton in Hin as ->].
  destruct (cm_kind m).
  4: { apply elem_of_lookup_imap in Hin as (i & v & -> & _). unfold col_clean. cbn.
       apply forallb_forall. intros x Hx. apply in_map_iff in Hx as (y & <- & _). done. }
  all: apply list_elem_of_singleton in Hin as ->; unfold col_clean; cbn;
    apply forallb_forall; intros x Hx; apply in_map_iff in Hx as (y & <- & _); done.
Qed.

(** The value a fitted supervised model gives cell [x] of column [name]. *)
Definition stat_lookup (m : ce_model) (name : string) (x : cell) : Q :=
  default (cm_prior m) (assoc_cell x (default [] (assoc name (cm_stats m)))).

(** Two fitted models that encode every column alike. *)
Definition ce_model_equiv (m m' : ce_model) : Prop :=
  cm_kind m = cm_kind m' /\ cm_dim m = cm_dim m' /\
  (cm_kind m = OneHotEncoder -> cm_levels m = cm_levels m') /\
  forall name x, stat_lookup m name x = stat_lookup m' name x.

#[export] Instance ce_model_equiv_equivalence : Equivalence ce_model_equiv.
Proof.
  split.
  - intros m. by split_and!.
  - intros m m' (Hk & Hd & Hl & Hs).
    split_and!; [done|done|intros Ho; symmetry; apply Hl; congruence|intros name x; by rewrite Hs].
  - intros m1 m2 m3 (Hk & Hd & Hl & Hs) (Hk' & Hd' & Hl' & Hs').
    split_and!; [congruence|congruence| |intros name x; by rewrite Hs, Hs'].
    intros Ho. rewrite Hl by done. apply Hl'. congruence.
Qed.

#[export] Instance encode_col_proper : Proper (ce_model_equiv ==> eq ==> eq) encode_col.
Proof.
  intros m m' (Hk & _ & Hl & Hs) c ? <-. unfold encode_col.
  destruct (ce_is_cat c); [|done]. rewrite <- Hk.
  destruct (cm_kind m) eqn:Hkind; [..|by rewrite Hl];
    do 2 f_equal; apply map_ext; intros x; f_equal; exact (Hs _ _).
Qed.

#[export] Instance ce_model_transform_proper : Proper (ce_model_equiv ==> eq ==> eq) ce_model_transform.
Proof.
  intros m m' Hm X ? <-. unfold ce_model_transform.
  destruct Hm as (Hk & Hd & Hl & Hs) eqn:Hm'. rewrite Hd.
  destruct (Nat.eqb _ _); [|done]. do 3 f_equal. apply map_ext. intros c. by rewrite Hm.
Qed.

(** A supervised model fitted on the rows of [X] and [y] read at [p]
    encodes every column as one fitted on them read at a reordering of
    [p]: it keeps per category a count and a target sum, and the prior is
    the target mean. *)
Lemma ce_model_fit_rows_perm k X y p p' Xp Xp' yp yp' :
  k <> OneHotEncoder -> p ≡ₚ p' -> iloc X p = inr Xp -> iloc X p' = inr Xp' ->
  target_iloc_reset y p = inr yp -> target_iloc_reset y p' = inr yp' ->
  sum_relation eq ce_model_equiv (ce_model_fit k (reset_index Xp) yp) (ce_model_fit k (reset_index Xp') yp').
Proof.
  intros Hk Hp HX HX' Hy Hy'.
  destruct (target_iloc_reset_inr _ _ _ Hy) as (idx & vals & -> & ->).
  destruct (target_iloc_reset_inr _ _ _ Hy') as (idx' & vals' & [= <- <-] & ->).
  assert (Hlen : length p' = length p) by (symmetry; apply Permutation_length, Hp).
  assert (Htot : fold_right Qplus 0 (map num_of (take_rows p' vals CNaN)) =
                 fold_right Qplus 0 (map num_of (take_rows p vals CNaN))).
  { rewrite !yq_take. apply (foldr_permutation_proper' eq Qplus 0). by apply take_rows_perm. }
  unfold ce_model_fit. rewrite (iloc_reset_frame _ _ _ HX), (iloc_reset_frame _ _ _ HX').
  cbn [f_index f_cols]. rewrite !target_nums_series.
  rewrite (forallb_perm num_cell (take_rows p' vals CNaN) (take_rows p vals CNaN))
    by (symmetry; by apply take_rows_perm).
  rewrite !filter_cat_take, !length_map, !length_seq, Hlen.
  destruct k; [..|done]; (destruct (forallb num_cell _); [|by constructor]); cbn [sbind];
    rewrite !length_map, !length_take_rows, Hlen, Nat.eqb_refl, Htot; constructor;
    (split_and!; [done|done|done|]);
    intros name x; unfold stat_lookup; cbn [cm_prior cm_stats];
    rewrite !assoc_map_find, !find_name_take;
    (destruct (find _ (List.filter ce_is_cat _)) as [c|]; cbn; [|done]);
    rewrite !stats_pair, !assoc_cell_stats by (intros v v' Hv; by rewrite (cat_stats_equiv v v'));
    rewrite !existsb_unique, (existsb_perm _ (take_rows p' _ _) (take_rows p _ _))
      by (symmetry; by apply take_rows_perm);
    (destruct (existsb _ _); cbn; [|done]);
    rewrite !yq_take; by rewrite (cat_stats_take x p p').
Qed.

(** The value a supervised model fitted on target numbers [ys] gives a
    cell [x] of a column holding [vc], in a table of [n] rows. *)
Definition encoded_value (k : enc_kind) (vc : list cell) (ys : list Q) (n : nat) (x : cell) : Q :=
  let (cnt, t) := cat_stats x vc ys in stat k cnt t n (fold_right Qplus 0 ys).

Lemma find_name_in name cs c :
  NoDup (map col_name cs) -> c ∈ cs -> col_name c = name ->
  find (fun c' => String.eqb name (col_name c')) cs = Some c.
Proof.
  intros Hnd Hin <-. induction cs as [|c0 cs IH]; [by apply elem_of_nil in Hin|].
  cbn in Hnd |- *. apply NoDup_cons in Hnd as [Hc0 Hnd].
  apply elem_of_cons in Hin as [<-|Hin]; [by rewrite String.eqb_refl|].
  destruct (String.eqb_spec (col_name c) (col_name c0)) as [Heq|]; [|by apply IH].
  exfalso. apply Hc0. rewrite <- Heq. by apply list_elem_of_fmap_2.
Qed.

(** A supervised fit on categorical columns of distinct names, then its
    transform of the same table: every cell becomes its category's value. *)
Lemma ce_model_fit_transform_cats k idx cats y ys :
  k <> OneHotEncoder -> forallb ce_is_cat cats = true -> NoDup (map col_name cats) ->
  target_nums y = inr ys -> length ys = length idx ->
  exists m, ce_model_fit k (PDFrame (Frame idx cats)) y = inr m /\
    ce_model_transform m (PDFrame (Frame idx cats)) =
      inr (Frame idx (map (fun c => Column (col_name c) DFloat64
                                     (map (fun x => CNum (encoded_value k (col_values c) ys (length idx) x))
                                          (col_values c))) cats)).
Proof.
  intros Hk Hcat Hnd Hy Hlen.
  unfold ce_model_fit. cbn [to_frame f_index f_cols]. rewrite (forallb_filter_id _ _ Hcat), Hy.
  destruct k; [..|done]; cbn [sbind]; rewrite Hlen, Nat.eqb_refl; eexists;
    (split; [reflexivity|]); unfold ce_model_transform; cbn; rewrite Nat.eqb_refl;
    do 2 f_equal; apply concat_map_single;
    intros c Hc; unfold encode_col;
    (rewrite forallb_forall in Hcat; rewrite (Hcat c) by by apply list_elem_of_In); cbn;
    rewrite assoc_map_find, (find_name_in _ _ c) by done; cbn;
    do 2 f_equal; apply map_ext_in; intros x Hx%list_elem_of_In;
    rewrite stats_pair, assoc_cell_stats by (intros v v' Hv; by rewrite (cat_stats_equiv v v'));
    rewrite existsb_unique;
    (replace (existsb (cell_eqb x) (col_values c)) with true
       by (symmetry; apply existsb_exists; exists x; split; [by apply list_elem_of_In|apply (reflexivity (R := cell_equiv))]));
    done.
Qed.

Definition ce_model_inst : CategoryEncoders :=
  {| ce_fitted := ce_model; ce_fit := ce_model_fit; ce_dim := cm_dim;
     ce_transform := ce_model_transform |}.

Lemma ce_model_fit_dim k X y m :
  ce_model_fit k X y = inr m -> cm_dim m = length (f_cols (to_frame X)).
Proof.
  unfold ce_model_fit, sbind.
  destruct k; [..|by intros [= <-]];
    (destruct (target_nums y); [done|]; destruct (Nat.eqb _ _); [|done]; by intros [= <-]).
Qed.

Lemma ce_model_laws : @CategoryEncodersLaws ce_model_inst.
Proof.
  split; cbn.
  - apply ce_model_fit_dim.
  - intros m X Hne. unfold ce_model_transform, pd_ncols in *.
    destruct (Nat.eqb_spec (length (f_cols (to_frame X))) (cm_dim m)); [done|]. by eexists.
  - intros m X out. unfold ce_model_transform.
    destruct (Nat.eqb _ _); [|done]. intros [= <-]. apply to_frame_index.
  - intros m X out Hwf. unfold ce_model_transform.
    destruct (Nat.eqb _ _); [|done]. intros [= <-]. unfold frame_wf in *. cbn.
    apply Forall_concat, Forall_map. eapply Forall_impl; [exact Hwf|].
    intros c Hc. by apply encode_col_wf.
  - intros k X y m Hfit. unfold ce_model_transform. eexists.
    by rewrite (ce_model_fit_dim _ _ _ _ Hfit), Nat.eqb_refl.
  - intros m X out Hc. unfold ce_model_transform.
    destruct (Nat.eqb _ _); [|done]. intros [= <-]. unfold frame_clean in *. cbn.
    apply forallb_forall. intros c' Hc'%list_elem_of_In.
    apply list_elem_of_In, in_concat in Hc' as (cs & Hcs & Hc').
    apply in_map_iff in Hcs as (c & <- & Hin).
    rewrite forallb_forall in Hc. by apply (encode_col_clean m c); [apply Hc|apply list_elem_of_In].
  - intros X y p p' Xp Xp' yp yp' Hp HX HX' Hy Hy'.
    pose proof (ce_model_fit_rows_perm CatBoostEncoder X y p p' Xp Xp' yp yp'
                  ltac:(done) Hp HX HX' Hy Hy') as Hr.
    eapply sum_relation_impl; [done| |exact Hr].
    intros m m' Hm Z. cbn. by rewrite Hm.
Qed.
End CategoryEncodersModel.

(** The plain mean of the category's targets, the prior for an unseen
    category: the statistic of the end-to-end examples. *)
Definition mean_stat (_ : enc_kind) (cnt : nat) (s : Q) (n : nat) (total : Q) : Q :=
  match cnt with 0%nat => 0 | _ => Qred (s / inject_Z (Z.of_nat cnt)) end.

#[export] Instance ce_mean : CategoryEncoders := ce_model_inst mean_stat.
#[export] Instance ce_mean_laws : CategoryEncodersLaws := ce_model_laws mean_stat.

(** ** sklearn.impute.SimpleImputer *)

(** The cells as numbers; mean and median refuse anything else. *)
Definition cells_nums (name : string) (l : list cell) : exc + list Q :=
  sum_mapM (fun x => match cell_num x with
                     | Some q => inr q
                     | None => inl (ValueError ("Cannot use " +:+ name +:+ " strategy with non-numeric data"))
                     end) l.

Fixpoint q_insert (q : Q) (l : list Q) : list Q :=
  match l with
  | [] => [q]
  | x :: l' => if Qle_bool q x then q :: l else x :: q_insert q l'
  end.

Definition q_sort (l : list Q) : list Q := fold_right q_insert [] l.

(** The median; the mean of the two middle values for an even count. *)
Definition q_median (l : list Q) : option Q :=
  let s := q_sort l in
  let n := length s in
  match n with
  | 0%nat => None
  | _ => if Nat.even n
         then Some (Qred ((nth (n / 2 - 1) s 0 + nth (n / 2) s 0) / 2))
         else Some (nth (n / 2) s 0)
  end.

(** Python's [<] where it is defined between two cells. *)
Definition cell_ltb (x y : cell) : bool :=
  match x, y with
  | CStr s, CStr t => match String.compare s t with Lt => true | _ => false end
  | _, _ => match cell_num x, cell_num y with
            | Some p, Some q => negb (Qle_bool q p)
            | _, _ => false
            end
  end.

Definition count_cell (v : cell) (l : list cell) : nat := length (List.filter (cell_eqb v) l).

(** The most frequent value, the smallest one on ties. *)
Definition most_frequent (l : list cell) : option cell :=
  fold_left (fun best x =>
               match best with
               | None => Some x
               | Some b =>
                   let cx := count_cell x l in
                   let cb := count_cell b l in
                   if Nat.ltb cb cx || (Nat.eqb cx cb && cell_ltb x b) then Some x else best
               end) l None.

(** The statistic of one column from its observed cells; [None] when there
    is none, and the column is then dropped. *)
Definition column_stat (s : strategy) (obs : list cell) : exc + option cell :=
  match s with
  | SMean => let? qs := cells_nums "mean" obs in inr (option_map CNum (q_mean qs))
  | SMedian => let? qs := cells_nums "median" obs in inr (option_map CNum (q_median qs))
  | SMostFrequent => inr (most_frequent obs)
  | SConstant v =>
      match py_number v, v with
      | Some q, _ => inr (Some (CNum q))
      | None, PyStr t => inr (Some (CStr t))
      | None, _ => inl (ValueError "fill_value must be a number or a string")
      end
  end.

Record si_model := SiModel { sm_strategy : strategy; sm_width : nat; sm_stats : list (option cell) }.

Definition si_model_fit (s : strategy) (M : matrix) : exc + si_model :=
  match M with
  | [] => inl (ValueError "Found array with 0 sample(s)")
  | row :: _ =>
      let w := length row in
      if Nat.eqb w 0 then inl (ValueError "Found array with 0 feature(s)")
      else if forallb (fun r => Nat.eqb (length r) w) M then
        let? stats := sum_mapM (fun j => column_stat s (observed (mcol j M))) (seq 0 w) in
        inr (SiModel s w stats)
      else inl (ValueError "inhomogeneous shape")
  end.

(** One row: fill the missing cells of the kept columns, drop the others. *)
Definition impute_row (stats : list (option cell)) (row : list cell) : list cell :=
  concat (zip_with (fun st x => match st with Some v => [fill_nan v x] | None => [] end) stats row).

Definition si_model_transform (m : si_model) (M : matrix) : exc + matrix :=
  if forallb (fun r => Nat.eqb (length r) (sm_width m)) M
  then inr (map (impute_row (sm_stats m)) M)
  else inl (ValueError "X has a different number of features than during fitting").

#[export] Instance si_model_inst : SimpleImputerLib :=
  {| si_fitted := si_model; si_fit := si_model_fit; si_transform := si_model_transform |}.

Lemma numeric_matrix_width w M :
  numeric_matrix w M -> forallb (fun r => Nat.eqb (length r) w) M = true.
Proof.
  intros H. apply forallb_forall. intros r Hr. apply Nat.eqb_eq.
  unfold numeric_matrix in H. rewrite Forall_forall in H.
  by apply (H r), list_elem_of_In.
Qed.

Lemma impute_row_some (f : nat -> cell) row s n :
  length row = n ->
  impute_row (map (fun j => Some (f j)) (seq s n)) row = zip_with fill_nan (map f (seq s n)) row.
Proof.
  revert s n. induction row as [|x row IH]; intros s [|n] Hn; cbn in *; try done.
  unfold impute_row in *. cbn. f_equal. apply IH. lia.
Qed.

Lemma impute_row_const v row s n :
  length row = n -> impute_row (map (fun _ => Some v) (seq s n)) row = map (fill_nan v) row.
Proof.
  intros Hn. rewrite (impute_row_some (fun _ => v)) by done.
  revert s n Hn. induction row as [|x row IH]; intros s [|n] Hn; cbn in *; try done.
  f_equal. apply IH. lia.
Qed.

Lemma numeric_matrix_mcol w M j :
  numeric_matrix w M -> Forall (fun x => x = CNaN \/ exists q, x = CNum q) (mcol j M).
Proof.
  intros HM. unfold mcol. apply Forall_map. eapply Forall_impl; [exact HM|].
  intros row [_ Hrow]. destruct (nth_in_or_default j row CNaN) as [Hin| ->]; [|by left].
  rewrite Forall_forall in Hrow. by apply Hrow, list_elem_of_In.
Qed.

(** Observed numeric cells are numbers to [mean] and [median]. *)
Lemma cells_nums_observed name l :
  Forall (fun x => x = CNaN \/ exists q, x = CNum q) l ->
  cells_nums name (observed l) = inr (map num_of (observed l)).
Proof.
  unfold cells_nums. induction 1 as [|x l [->|[q ->]] _ IH]; [done|exact IH|].
  change (observed (CNum q :: l)) with (CNum q :: observed l). cbn -[observed].
  by rewrite IH.
Qed.

(** The fit of the mean strategy on a numeric matrix of width [w]. *)
Lemma si_model_fit_mean w M :
  (0 < w)%nat -> numeric_matrix w M -> M <> [] ->
  si_model_fit SMean M =
    inr (SiModel SMean w (map (fun j => option_map CNum (q_mean (map num_of (observed (mcol j M))))) (seq 0 w))).
Proof.
  intros Hw HM Hne. destruct M as [|row M']; [done|].
  pose proof (numeric_matrix_width _ _ HM) as Hwd.
  destruct (Forall_inv HM) as [Hrow _]. cbn [si_model_fit].
  rewrite Hrow, Hwd. destruct (Nat.eqb_spec w 0); [lia|].
  unfold sbind. rewrite (sum_mapM_ext_inr _ (fun j => option_map CNum (q_mean (map num_of (observed (mcol j (row :: M'))))))); [done|].
  intros j _. cbn [column_stat]. by rewrite cells_nums_observed by (eapply numeric_matrix_mcol; exact HM).
Qed.

(** The fit of the constant strategy on a matrix of width [w]. *)
Lemma si_model_fit_const v q w M :
  py_number v = Some q -> (0 < w)%nat -> numeric_matrix w M -> M <> [] ->
  si_model_fit (SConstant v) M = inr (SiModel (SConstant v) w (map (fun _ => Some (CNum q)) (seq 0 w))).
Proof.
  intros Hq Hw HM Hne. destruct M as [|row M']; [done|].
  pose proof (numeric_matrix_width _ _ HM) as Hwd.
  destruct (Forall_inv HM) as [Hrow _]. cbn [si_model_fit].
  rewrite Hrow, Hwd. destruct (Nat.eqb_spec w 0); [lia|].
  unfold sbind. rewrite (sum_mapM_ext_inr _ (fun _ => Some (CNum q))); [done|].
  intros j _. cbn. by rewrite Hq.
Qed.

#[export] Instance si_model_laws : SimpleImputerLaws.
Proof.
  split; cbn.
  - intros v q w M Hq Hw HM Hne. eexists. by apply si_model_fit_const.
  - intros v q w M st M' Hq HM Hne Hfit HM'.
    destruct (decide (w = 0%nat)) as [->|Hw].
    + destruct M as [|row M]; [done|]. destruct (Forall_inv HM) as [Hrow _].
      cbn in Hfit. by rewrite Hrow in Hfit.
    + rewrite si_model_fit_const with (q := q) (w := w) in Hfit by (done || lia).
      injection Hfit as <-. unfold si_model_transform. cbn.
      rewrite numeric_matrix_width by done. f_equal.
      apply map_ext_in. intros row Hrow. apply impute_row_const.
      unfold numeric_matrix in HM'. rewrite Forall_forall in HM'.
      by apply (HM' row), list_elem_of_In.
  - intros w M Hw HM Hne. eexists. by apply si_model_fit_mean.
  - intros w M st M' HM Hobs Hfit HM'.
    destruct (decide (w = 0%nat)) as [->|Hw].
    + destruct M as [|row M]; [done|]. destruct (Forall_inv HM) as [Hrow _].
      cbn in Hfit. by rewrite Hrow in Hfit.
    + destruct M as [|row M]; [done|].
      rewrite si_model_fit_mean with (w := w) in Hfit by (done || lia).
      injection Hfit as <-. unfold si_model_transform. cbn.
      rewrite numeric_matrix_width by done. f_equal.
      rewrite (map_ext_in (fun j => option_map CNum (q_mean (map num_of (observed (mcol j (row :: M))))))
                 (fun j => Some ((fun j => CNum (default 0%Q (q_mean (map num_of (observed (mcol j (row :: M))))))) j))).
      * apply map_ext_in. intros r Hr. apply impute_row_some.
        unfold numeric_matrix in HM'. rewrite Forall_forall in HM'.
        by apply (HM' r), list_elem_of_In.
      * intros j Hj%in_seq. specialize (Hobs j ltac:(lia)).
        destruct (observed (mcol j (row :: M))) as [|x l]; [done|]. done.
Qed.
