(* ===== verification/Encodings.v ===== *)
(** * The class [Encodings] (src/percentile.py, lines 9-107)

    The instance is the record [enc_self] of its attributes: the three
    constructor parameters, the list [_allowed_encodings], and the
    attributes [fit] and [transform] create ([categorical_cols],
    [data_encode], [enc], [new_list], [transformed], [new_names]), each
    [None] until first written. A method runs in [PyM exc world] where
    the [world] is the instance and numpy's global random stream.

    [__init__], [fit] and [transform] follow the source statement by
    statement: every attribute write is a [self_update], every read of an
    attribute that may be unset raises [AttributeError], the four [if]s
    of [fit] are tested in the source's order against the stored
    [encoding_type], the OneHot filter is the source's [for] loop.

    [transform_spec] is the pure statement of what [transform] computes
    and [transform_eq_spec] proves that the stateful definition implements
    it; the properties of [transform] are proved on the specification. The
    properties of [fit] are proved on the stateful definition through the
    run lemmas of its steps ([select_step_run], [catboost_step_ok],
    [fit_onehot_all]). Everything that depends on category_encoders uses
    the interface [Libraries.CategoryEncodersLaws] only. Facts that hold
    after every run of a method, whatever it raises, are [preserves R m]
    for a preorder [R] on worlds, proved step by step by [preserves_step]
    ([keeps pr] when [R] says a projection is unchanged). The module ends
    with concrete runs on the executable model [LibraryModels.ce_mean]. *)

From S2P Require Import Prelude PyCore Pandas NumpyRandom Libraries LibraryModels.
From stdpp Require Import strings pretty.
From Stdlib Require Import QArith.

Local Open Scope nat_scope.
Local Open Scope py_scope.

Module Encodings.
Section Model.
Context `{CE : CategoryEncoders}.

Record enc_self := EncSelf {
  allowed_encodings : list string;
  encoding_type : pyval;
  columns : pyval;
  return_categorical : pyval;
  categorical_cols : option pyval;
  data_encode : option pdobj;
  enc : option encoder_obj;
  new_list : option (list string);
  transformed : option frame;
  new_names : option (list string)
}.

Record world := World { w_self : enc_self; w_rng : rng }.

(** ** Attribute access *)

Definition self_get : PyM exc world enc_self := fun w => (inr (w_self w), w).

Definition self_update (f : enc_self -> enc_self) : PyM exc world unit :=
  pmodify (fun w => World (f (w_self w)) (w_rng w)).

(** Reading [self.<name>] that may be unset. *)
Definition attr {A} (o : option A) (name : string) : exc + A :=
  match o with Some a => inr a | None => inl (AttributeError "Encodings" name) end.

Definition set_categorical_cols (v : pyval) (s : enc_self) : enc_self :=
  EncSelf (allowed_encodings s) (encoding_type s) (columns s) (return_categorical s)
    (Some v) (data_encode s) (enc s) (new_list s) (transformed s) (new_names s).

Definition set_data_encode (v : pdobj) (s : enc_self) : enc_self :=
  EncSelf (allowed_encodings s) (encoding_type s) (columns s) (return_categorical s)
    (categorical_cols s) (Some v) (enc s) (new_list s) (transformed s) (new_names s).

Definition set_enc (v : encoder_obj) (s : enc_self) : enc_self :=
  EncSelf (allowed_encodings s) (encoding_type s) (columns s) (return_categorical s)
    (categorical_cols s) (data_encode s) (Some v) (new_list s) (transformed s) (new_names s).

Definition set_new_list (v : list string) (s : enc_self) : enc_self :=
  EncSelf (allowed_encodings s) (encoding_type s) (columns s) (return_categorical s)
    (categorical_cols s) (data_encode s) (enc s) (Some v) (transformed s) (new_names s).

Definition set_transformed (v : frame) (s : enc_self) : enc_self :=
  EncSelf (allowed_encodings s) (encoding_type s) (columns s) (return_categorical s)
    (categorical_cols s) (data_encode s) (enc s) (new_list s) (Some v) (new_names s).

Definition set_new_names (v : list string) (s : enc_self) : enc_self :=
  EncSelf (allowed_encodings s) (encoding_type s) (columns s) (return_categorical s)
    (categorical_cols s) (data_encode s) (enc s) (new_list s) (transformed s) (Some v).

(** ** [__init__] (lines 15-23) *)

Definition allowed : list string :=
  ["TargetEncoder"; "WOEEncoder"; "CatBoostEncoder"; "OneHotEncoder"].

Definition init_message (encoding_type : pyval) : fmt :=
  Fmt "the encoding type introduced {} is not valid. Please use one in {}"
      [encoding_type; PyList (map PyStr allowed)].

Definition __init__ (en : env) (encoding_type columns return_categorical : pyval)
  : exc + enc_self :=
  let? _ := py_assert en (py_in_strs encoding_type allowed) (init_message encoding_type) in
  inr (EncSelf allowed encoding_type columns return_categorical
               None None None None None None).

(** The defaults [encoding_type="TargetEncoder", columns="All",
    return_categorical=True]. *)
Definition init_default (en : env) : exc + enc_self :=
  __init__ en (PyStr "TargetEncoder") (PyStr "All") (PyBool true).

(** ** Column selection (lines 34-41 and 80-89) *)

(** [X.columns[X.dtypes==object].tolist() + X.columns[X.dtypes=="category"].tolist()]
    when [columns == "All"], else [columns] itself. *)
Definition categorical_of (columns : pyval) (X : frame) : pyval :=
  if py_eq_str columns "All"
  then PyList (map PyStr (dtype_columns X DObject ++ dtype_columns X DCategory))
  else columns.

(** [self.categorical_cols = ...; self.data_encode = X[self.categorical_cols]] *)
Definition select_step (X : frame) : PyM exc world unit :=
  let* s := self_get in
  do* self_update (set_categorical_cols (categorical_of (columns s) X));
  let* s := self_get in
  let* cols := plift (attr (categorical_cols s) "categorical_cols") in
  let* d := plift (getitem X cols) in
  self_update (set_data_encode d).

(** ** [fit] (lines 26-75) *)

(** [perm = np.random.permutation(len(X))] *)
Definition draw_permutation (en : env) (n : nat) : PyM exc world (list nat) :=
  do* plift (np_global en);
  fun w => let (p, g) := permutation n (w_rng w) in (inr p, World (w_self w) g).

(** Lines 57-60: the CatBoost branch returns the permuted [y]. *)
Definition catboost_step (en : env) (X : frame) (y : target) : PyM exc world target :=
  let* perm := draw_permutation en (pd_len (PDFrame X)) in
  let* s := self_get in
  let* d := plift (attr (data_encode s) "data_encode") in
  let* d' := plift (iloc d perm) in
  do* self_update (set_data_encode (reset_index d'));
  let* y' := plift (target_iloc_reset y perm) in
  do* self_update (set_enc (new_encoder CatBoostEncoder));
  pret y'.

(** Lines 67-69, one iteration: keep [col] when it has fewer than 50
    distinct values. *)
Definition onehot_check (col : string) : PyM exc world unit :=
  let* s := self_get in
  let* d := plift (attr (data_encode s) "data_encode") in
  let* c := plift (pd_getitem d (PyStr col)) in
  let* u := plift (pd_unique c) in
  if Nat.ltb (length u) 50 then
    let* s := self_get in
    let* nl := plift (attr (new_list s) "new_list") in
    self_update (set_new_list (nl ++ [col]))
  else pret tt.

(** Lines 63-71. *)
Definition onehot_step : PyM exc world unit :=
  do* self_update (set_enc (new_encoder OneHotEncoder));
  do* self_update (set_new_list []);
  let* s := self_get in
  let* d := plift (attr (data_encode s) "data_encode") in
  let* cols := plift (pd_columns d) in
  do* pfor cols onehot_check;
  let* s := self_get in
  let* d := plift (attr (data_encode s) "data_encode") in
  let* nl := plift (attr (new_list s) "new_list") in
  let* d' := plift (pd_getitem d (PyList (map PyStr nl))) in
  self_update (set_data_encode d').

(** Line 74: [self.enc.fit(self.data_encode, y)] *)
Definition fit_encoder (y : target) : PyM exc world unit :=
  let* s := self_get in
  let* e := plift (attr (enc s) "enc") in
  let* d := plift (attr (data_encode s) "data_encode") in
  let* e' := plift (encoder_fit e d y) in
  self_update (set_enc e').

Definition fit (en : env) (X : frame) (y : target) : PyM exc world unit :=
  do* select_step X;
  let* s := self_get in
  do* (if py_eq_str (encoding_type s) "TargetEncoder"
       then self_update (set_enc (new_encoder TargetEncoder)) else pret tt);
  do* (if py_eq_str (encoding_type s) "WOEEncoder"
       then self_update (set_enc (new_encoder WOEEncoder)) else pret tt);
  let* y := (if py_eq_str (encoding_type s) "CatBoostEncoder"
             then catboost_step en X y else pret y) in
  do* (if py_eq_str (encoding_type s) "OneHotEncoder" then onehot_step else pret tt);
  fit_encoder y.

(** ** [transform] (lines 77-107) *)

(** [c + '_' + self.encoding_type] *)
Definition suffixed (encoding_type : pyval) (c : string) : exc + string :=
  match encoding_type with
  | PyStr t => inr (c +:+ "_" +:+ t)
  | _ => inl (TypeError "can only concatenate str to str")
  end.

(** Line 97, one iteration. *)
Definition rename_one (c : string) : PyM exc world unit :=
  let* s := self_get in
  let* n := plift (suffixed (encoding_type s) c) in
  let* nn := plift (attr (new_names s) "new_names") in
  self_update (set_new_names (nn ++ [n])).

Definition transform (X : frame) : PyM exc world frame :=
  do* select_step X;
  let* s := self_get in
  let* e := plift (attr (enc s) "enc") in
  let* d := plift (attr (data_encode s) "data_encode") in
  let* t := plift (encoder_transform e d) in
  do* self_update (set_transformed t);
  do* self_update (set_new_names []);
  let* s := self_get in
  let* t := plift (attr (transformed s) "transformed") in
  do* pfor (col_names t) rename_one;
  let* s := self_get in
  let* nn := plift (attr (new_names s) "new_names") in
  let* t := plift (attr (transformed s) "transformed") in
  let* t' := plift (set_columns t nn) in
  do* self_update (set_transformed t');
  let* s := self_get in
  let* t := plift (attr (transformed s) "transformed") in
  if py_truthy (return_categorical s)
  then plift (frame_join t X)
  else let* j := plift (frame_join t X) in pret (numeric_data j).

(** ** Pure specifications of the methods *)

(** What [transform] returns, as a function of the instance before
    the call and the input. *)
Definition transform_spec (s : enc_self) (X : frame) : exc + frame :=
  let? d := getitem X (categorical_of (columns s) X) in
  let? e := attr (enc s) "enc" in
  let? t := encoder_transform e d in
  let? names := sum_mapM (suffixed (encoding_type s)) (col_names t) in
  let? t' := set_columns t names in
  let? j := frame_join t' X in
  inr (if py_truthy (return_categorical s) then j else numeric_data j).

(** ** Running the steps *)

Lemma select_step_run X w :
  let c := categorical_of (columns (w_self w)) X in
  select_step X w =
    match getitem X c with
    | inl e => (inl e, World (set_categorical_cols c (w_self w)) (w_rng w))
    | inr d => (inr tt, World (set_data_encode d (set_categorical_cols c (w_self w))) (w_rng w))
    end.
Proof. cbn. by destruct (getitem X _). Qed.

Lemma rename_one_run c s g :
  rename_one c (World s g) =
    match suffixed (encoding_type s) c with
    | inl e => (inl e, World s g)
    | inr n =>
        match new_names s with
        | None => (inl (AttributeError "Encodings" "new_names"), World s g)
        | Some nn => (inr tt, World (set_new_names (nn ++ [n]) s) g)
        end
    end.
Proof. cbn. destruct (suffixed _ c); [done|]. by destruct (new_names s). Qed.

Lemma set_new_names_same s acc : new_names s = Some acc -> set_new_names acc s = s.
Proof. destruct s; unfold set_new_names; cbn; congruence. Qed.

(** The renaming loop computes [sum_mapM suffixed] into [new_names]. *)
Lemma rename_loop (l : list string) w acc :
  new_names (w_self w) = Some acc ->
  (forall ns, sum_mapM (suffixed (encoding_type (w_self w))) l = inr ns ->
     pfor l rename_one w = (inr tt, World (set_new_names (acc ++ ns) (w_self w)) (w_rng w))) /\
  (forall e, sum_mapM (suffixed (encoding_type (w_self w))) l = inl e ->
     (pfor l rename_one w).1 = inl e).
Proof.
  revert w acc. induction l as [|c l IH]; intros [s g] acc Hacc; cbn in Hacc |- *.
  - split; [|done]. intros ns [= <-]. rewrite app_nil_r.
    unfold pret. by rewrite set_new_names_same.
  - unfold pbind. rewrite !rename_one_run.
    destruct (suffixed (encoding_type s) c) as [e|n] eqn:Hs;
      [split; intros ? H; cbn in H |- *; congruence|].
    rewrite Hacc.
    destruct (IH (World (set_new_names (acc ++ [n]) s) g) (acc ++ [n]) eq_refl)
      as [IHok IHerr]. cbn in IHok, IHerr.
    split.
    + intros ns Hns. destruct (sum_mapM _ l) as [e|ns'] eqn:Hl; [done|].
      injection Hns as <-. rewrite (IHok ns' eq_refl). cbn.
      by rewrite <- app_assoc.
    + intros e He. destruct (sum_mapM _ l) as [e'|ns'] eqn:Hl; [|done].
      injection He as <-. by apply IHerr.
Qed.

(** [transform] computes [transform_spec] of the instance it runs on. *)
Lemma transform_eq_spec X w : (transform X w).1 = transform_spec (w_self w) X.
Proof.
  unfold transform, transform_spec. unfold pbind at 1. rewrite select_step_run.
  destruct (getitem X _) as [e|d]; [done|]. cbn.
  destruct (enc (w_self w)) as [e|]; [|done]. cbn.
  destruct (encoder_transform e d) as [err|t]; [done|]. cbn.
  set (w1 := World _ _).
  destruct (rename_loop (col_names t) w1 [] eq_refl) as [Hok Herr].
  destruct (sum_mapM _ (col_names t)) as [err|ns] eqn:Hns.
  - specialize (Herr err eq_refl).
    destruct (pfor (col_names t) rename_one w1) as [[e'|[]] w2] eqn:Hp;
      cbn in Herr; [|congruence].
    injection Herr as ->. by erewrite pbind_err by exact Hp.
  - erewrite pbind_ok by exact (Hok ns eq_refl). cbn.
    destruct (set_columns t ns) as [err|t']; [done|]. cbn.
    destruct (py_truthy _); cbn; by destruct (frame_join t' X).
Qed.

(** ** What [transform] returns *)

(** The encoder's columns after line 98: [<name>_<encoding_type>]. *)
Definition renamed (et : string) (t : frame) : list column :=
  map (fun c => Column (col_name c +:+ "_" +:+ et) (col_dtype c) (col_values c)) (f_cols t).

Definition suffix_names (et : string) (t : frame) : list string :=
  map (fun n => n +:+ "_" +:+ et) (col_names t).

Lemma suffixed_all et l : sum_mapM (suffixed (PyStr et)) l = inr (map (fun n => n +:+ "_" +:+ et) l).
Proof. apply sum_mapM_map. Qed.

Lemma renamed_zip et t :
  zip_with (fun c n => Column n (col_dtype c) (col_values c)) (f_cols t)
           (map (fun n => n +:+ "_" +:+ et) (col_names t)) = renamed et t.
Proof.
  unfold renamed, col_names. induction (f_cols t) as [|c cs IH]; cbn; [done|]. by rewrite IH.
Qed.

Lemma renamed_names et t : map col_name (renamed et t) = suffix_names et t.
Proof. unfold renamed, suffix_names, col_names. by rewrite !map_map. Qed.

Lemma transform_spec_inv s X out :
  transform_spec s X = inr out ->
  exists d e t names,
    getitem X (categorical_of (columns s) X) = inr d /\ enc s = Some e /\
    encoder_transform e d = inr t /\
    sum_mapM (suffixed (encoding_type s)) (col_names t) = inr names /\
    length names = length (f_cols t) /\
    f_index X = f_index t /\ (forall n, n ∈ names -> n ∉ col_names X) /\
    out = (let j := Frame (f_index t)
                 (zip_with (fun c n => Column n (col_dtype c) (col_values c)) (f_cols t) names
                  ++ f_cols X) in
           if py_truthy (return_categorical s) then j else numeric_data j).
Proof.
  unfold transform_spec, sbind.
  destruct (getitem X _) as [|d] eqn:Hd; [done|].
  destruct (enc s) as [e|]; [|done]. cbn.
  destruct (encoder_transform e d) as [|t] eqn:Ht; [done|].
  destruct (sum_mapM _ _) as [|names] eqn:Hn; [done|].
  destruct (set_columns t names) as [|t'] eqn:Hs; [done|].
  destruct (frame_join t' X) as [|j] eqn:Hj; [done|]. intros [= <-].
  apply set_columns_inr in Hs as (Hnames & Hidx' & Hcols).
  apply frame_join_inr in Hj as (HiX & Hdisj & ->).
  exists d, e, t, names. split_and!; try done.
  - apply sum_mapM_inr, Forall2_length in Hn.
    unfold col_names in Hn. by rewrite length_map in Hn.
  - congruence.
  - intros n Hin. apply Hdisj. by rewrite Hnames.
  - by rewrite Hidx', Hcols.
Qed.

(** The suffix the code appends, when [encoding_type] is a string. *)
Lemma transform_spec_inv_str s X out et :
  encoding_type s = PyStr et -> transform_spec s X = inr out ->
  exists d e t,
    getitem X (categorical_of (columns s) X) = inr d /\ enc s = Some e /\
    encoder_transform e d = inr t /\ f_index X = f_index t /\
    (forall n, n ∈ suffix_names et t -> n ∉ col_names X) /\
    out = (let j := Frame (f_index t) (renamed et t ++ f_cols X) in
           if py_truthy (return_categorical s) then j else numeric_data j).
Proof.
  intros Het Hspec.
  destruct (transform_spec_inv s X out Hspec)
    as (d & e & t & names & Hd & He & Ht & Hn & _ & Hidx & Hdisj & ->).
  rewrite Het, suffixed_all in Hn. injection Hn as <-.
  exists d, e, t. rewrite renamed_zip. by repeat split.
Qed.

(** ** The constructor parameters are never written *)

(** What [__init__] stores and [get_params] reads back. *)
Definition params (s : enc_self) : list string * pyval * pyval * pyval :=
  (allowed_encodings s, encoding_type s, columns s, return_categorical s).

End Model.

(** ** Properties preserved by every run of a method *)

Section Preserves.
Context `{CE : CategoryEncoders} (R : world -> world -> Prop) `{!PreOrder R}.

(** Every run of [m] relates the world before to the world after,
    whatever it raises. *)
Definition preserves {A} (m : PyM exc world A) : Prop := forall w, R w (m w).2.

Lemma preserves_pbind {A B} (m : PyM exc world A) (k : A -> PyM exc world B) :
  preserves m -> (forall a, preserves (k a)) -> preserves (pbind m k).
Proof.
  intros Hm Hk w. unfold pbind. specialize (Hm w).
  destruct (m w) as [[e|a] w']; cbn in *; [done|]. etrans; [exact Hm|apply Hk].
Qed.

Lemma preserves_pret {A} (a : A) : preserves (pret a).
Proof. intros w. cbn. reflexivity. Qed.

Lemma preserves_plift {A} (r : exc + A) : preserves (plift r).
Proof. intros w. cbn. reflexivity. Qed.

Lemma preserves_self_get : preserves self_get.
Proof. intros w. cbn. reflexivity. Qed.

Lemma preserves_update f :
  (forall w, R w (World (f (w_self w)) (w_rng w))) -> preserves (self_update f).
Proof. intros H w. apply H. Qed.

Lemma preserves_pfor {A} (l : list A) body :
  (forall x, preserves (body x)) -> preserves (pfor l body).
Proof.
  intros Hb. induction l as [|x l IH]; [apply preserves_pret|].
  apply preserves_pbind; auto.
Qed.

Lemma preserves_draw en n :
  (forall w, R w (World (w_self w) (permutation n (w_rng w)).2)) ->
  preserves (draw_permutation en n).
Proof.
  intros H. apply preserves_pbind; [apply preserves_plift|]. intros _ w. cbn.
  specialize (H w). by destruct (permutation n (w_rng w)).
Qed.
End Preserves.

Section SameProj.
Context `{CE : CategoryEncoders}.

(** [m] leaves the projection [pr] of the instance unchanged. *)
Definition same_proj {T} (pr : enc_self -> T) (w w' : world) : Prop :=
  pr (w_self w') = pr (w_self w).

#[export] Instance same_proj_preorder {T} (pr : enc_self -> T) : PreOrder (same_proj pr).
Proof. unfold same_proj. split; [intros w; done|intros w1 w2 w3 H1 H2; congruence]. Qed.
End SameProj.

Abbreviation keeps pr := (preserves (same_proj pr)).

(** One step of a [preserves] proof, the leaves closed by [close]. *)
Ltac preserves_step close :=
  match goal with
  | |- preserves ?R (pbind _ _) => apply (preserves_pbind R); [|intros]
  | |- preserves ?R (pret _) => apply (preserves_pret R)
  | |- preserves ?R (plift _) => apply (preserves_plift R)
  | |- preserves ?R self_get => apply (preserves_self_get R)
  | |- preserves ?R (self_update _) => apply (preserves_update R); intros; close
  | |- preserves ?R (pfor _ _) => apply (preserves_pfor R); intros
  | |- preserves ?R (draw_permutation _ _) => apply (preserves_draw R); intros; close
  | |- preserves _ (if ?b then _ else _) => destruct b
  end.

(** The steps of [fit] and [transform], unfolded. *)
Ltac unfold_step :=
  match goal with
  | |- preserves _ (select_step _) => unfold select_step
  | |- preserves _ (catboost_step _ _ _) => unfold catboost_step
  | |- preserves _ onehot_step => unfold onehot_step
  | |- preserves _ (onehot_check _) => unfold onehot_check
  | |- preserves _ (fit_encoder _) => unfold fit_encoder
  | |- preserves _ (rename_one _) => unfold rename_one
  end.

Ltac keeps_tac :=
  repeat (first [preserves_step ltac:(unfold same_proj; reflexivity) | unfold_step]).

Section Props.
Context `{CE : CategoryEncoders}.

Lemma fit_keeps_params en X y : keeps params (fit en X y).
Proof. unfold fit; keeps_tac. Qed.

Lemma transform_keeps_params X : keeps params (transform X).
Proof. unfold transform; keeps_tac. Qed.

(** C33: [fit] and [transform] write attributes of their own and never
    the constructor parameters, whatever they raise: the estimator keeps
    scikit-learn's [get_params] contract. *)
Theorem fit_transform_keep_params en X y w :
  params (w_self (fit en X y w).2) = params (w_self w) /\
  params (w_self (transform X w).2) = params (w_self w).
Proof. split; [apply fit_keeps_params|apply transform_keeps_params]. Qed.

(** [transform_spec] reads the parameters and the encoder only. *)
Lemma transform_spec_params s s' X :
  params s = params s' -> enc s = enc s' -> transform_spec s X = transform_spec s' X.
Proof.
  unfold params. intros [= _ Het Hcols Hrc] He. unfold transform_spec.
  by rewrite Het, Hcols, Hrc, He.
Qed.

(** C2: [transform] is the pure function [transform_spec] of the
    parameters and the fitted encoder: the attributes it writes
    ([categorical_cols], [data_encode], [transformed], [new_names]) do
    not feed back, and a second call on the same table returns the same
    result. *)
Theorem transform_refines X w :
  (transform X w).1 = transform_spec (w_self w) X /\
  (transform X (transform X w).2).1 = (transform X w).1.
Proof.
  assert (He : keeps enc (transform X)) by (unfold transform; keeps_tac).
  rewrite !transform_eq_spec. split; [done|].
  apply transform_spec_params; [apply transform_keeps_params|apply He].
Qed.

(** A new instance: the parameters and no fitted attribute. *)
Lemma enc_init_inr en et cols rc s :
  __init__ en et cols rc = inr s ->
  s = EncSelf allowed et cols rc None None None None None None.
Proof. unfold __init__, sbind. destruct (py_assert _ _ _); [done|]. by intros [= <-]. Qed.

(** C31: [transform] before any [fit] raises [AttributeError] on
    [self.enc] as soon as the columns are selected: a new instance has no
    encoder. *)
Theorem transform_before_fit en et cols rc s g X d :
  __init__ en et cols rc = inr s ->
  getitem X (categorical_of cols X) = inr d ->
  (transform X (World s g)).1 = inl (AttributeError "Encodings" "enc").
Proof.
  intros Hi Hd. apply enc_init_inr in Hi as ->.
  rewrite transform_eq_spec. unfold transform_spec. cbn. by rewrite Hd.
Qed.

(** C21: the renaming loop of lines 95-97 is [map]: from
    [new_names = []] and a [str] encoding type it leaves [new_names]
    equal to the list of [c + '_' + encoding_type], changing nothing
    else; with any other encoding type it raises [TypeError] on the first
    column. *)
Theorem rename_loop_map l w :
  new_names (w_self w) = Some [] ->
  (forall et, encoding_type (w_self w) = PyStr et ->
     pfor l rename_one w =
       (inr tt, World (set_new_names (map (fun c => c +:+ "_" +:+ et) l) (w_self w)) (w_rng w))) /\
  (l <> [] -> (forall et, encoding_type (w_self w) <> PyStr et) ->
     (pfor l rename_one w).1 = inl (TypeError "can only concatenate str to str")).
Proof.
  intros Hnn. destruct (rename_loop l w [] Hnn) as [Hok Herr]. split.
  - intros et Het. apply Hok. rewrite Het. apply suffixed_all.
  - intros Hl Hnot. apply Herr. destruct l as [|c l]; [done|]. cbn.
    destruct (encoding_type (w_self w)); try done. by destruct (Hnot s).
Qed.

(** C22: the constructor accepts exactly the four encoder names (as
    [str]); any other value raises [AssertionError] with the message
    naming the value and the allowed list. A new instance holds the
    three parameters and none of the fitted attributes. *)
Theorem init_validates en et cols rc :
  asserts_enabled en = true ->
  match __init__ en et cols rc with
  | inr s => (exists t, et = PyStr t /\ t ∈ allowed) /\
             params s = (allowed, et, cols, rc) /\
             enc s = None /\ categorical_cols s = None /\ data_encode s = None
  | inl e => e = AssertionError (init_message et) /\
             ~ (exists t, et = PyStr t /\ t ∈ allowed)
  end.
Proof.
  intros Ha. unfold __init__, sbind. destruct (py_in_strs et allowed) eqn:Hin.
  - rewrite py_assert_ok by done. apply py_in_strs_iff in Hin. by repeat split.
  - rewrite py_assert_fail by done. split; [done|].
    intros Hex. apply py_in_strs_iff in Hex. congruence.
Qed.

(** C34: both [fit] and [transform] recompute [categorical_cols] from
    the table they are given (lines 34-37 and 80-83), whatever happens
    later in the call: [transform] never reuses the selection made at
    fit time. *)
Theorem selection_rederived en X y w X' :
  categorical_cols (w_self (fit en X y w).2) = Some (categorical_of (columns (w_self w)) X) /\
  categorical_cols (w_self (transform X' w).2) = Some (categorical_of (columns (w_self w)) X').
Proof.
  split; [unfold fit|unfold transform]; unfold pbind at 1; rewrite select_step_run;
    (destruct (getitem _ _) as [e|d]; [done|]); cbv beta iota;
    match goal with
    | |- categorical_cols (w_self (?m ?w1).2) = _ =>
        assert (H : keeps categorical_cols m) by keeps_tac; by rewrite H
    end.
Qed.

(** ** [transform]: output, success and errors *)



Context {CEL : CategoryEncodersLaws}.

Lemma encoder_transform_index e d t :
  encoder_transform e d = inr t -> f_index t = pd_index d.
Proof.
  unfold encoder_transform. destruct (eo_fitted e); [|done]. apply ce_transform_index.
Qed.

(** [transform_spec] on an instance whose encoder accepts the selection
    and whose new names are fresh. *)
Lemma transform_spec_ok s X d e t et :
  encoding_type s = PyStr et -> enc s = Some e ->
  getitem X (categorical_of (columns s) X) = inr d ->
  encoder_transform e d = inr t ->
  (forall n, n ∈ suffix_names et t -> n ∉ col_names X) ->
  transform_spec s X =
    inr (let j := Frame (f_index X) (renamed et t ++ f_cols X) in
         if py_truthy (return_categorical s) then j else numeric_data j).
Proof.
  intros Het He Hd Ht Hdisj. unfold transform_spec.
  rewrite Hd, He. cbn. rewrite Ht. cbn. rewrite Het, suffixed_all. cbn.
  rewrite set_columns_ok by (unfold col_names; by rewrite !length_map). cbn.
  rewrite renamed_zip.
  assert (Hidx : f_index t = f_index X).
  { rewrite (encoder_transform_index _ _ _ Ht). by apply getitem_index in Hd. }
  rewrite frame_join_ok; cbn.
  - by rewrite Hidx.
  - done.
  - intros n Hn. apply Hdisj. unfold col_names in Hn. cbn in Hn.
    by rewrite renamed_names in Hn.
Qed.

Lemma encoder_transform_wf e d t :
  frame_wf (to_frame d) -> encoder_transform e d = inr t -> frame_wf t.
Proof.
  unfold encoder_transform. destruct (eo_fitted e); [|done]. apply ce_transform_wf.
Qed.


Lemma encoder_transform_clean e d t :
  frame_clean (to_frame d) = true -> encoder_transform e d = inr t -> frame_clean t = true.
Proof.
  unfold encoder_transform. destruct (eo_fitted e); [|done]. apply ce_transform_clean.
Qed.

(** With [return_categorical] false, [transform] of a clean table returns
    numbers and missing values only, on the table's index: an input
    SimpleImputer's numeric strategies accept. *)
Lemma transform_numeric_frame X w out :
  frame_clean X = true -> py_truthy (return_categorical (w_self w)) = false ->
  (transform X w).1 = inr out -> numeric_frame out = true /\ f_index out = f_index X.
Proof.
  intros HX Htr Hout. rewrite transform_eq_spec in Hout.
  destruct (transform_spec_inv _ _ _ Hout)
    as (d & e & t & names & Hd & He & Ht & _ & Hlen & Hidx & _ & ->).
  rewrite Htr. split; [|done]. apply numeric_data_clean.
  assert (Ht' : frame_clean (Frame (f_index t)
             (zip_with (fun c n => Column n (col_dtype c) (col_values c)) (f_cols t) names)) = true).
  { eapply set_columns_clean; [|by apply set_columns_ok].
    eapply encoder_transform_clean; [|exact Ht]. by eapply getitem_clean. }
  unfold frame_clean in *. cbn in *. by rewrite forallb_app, Ht', HX.
Qed.


(** C30: a renamed column that already exists in [X] (the same encoder
    applied twice in one pipeline) makes the join raise. *)
Theorem transform_name_clash X w d e t et n :
  encoding_type (w_self w) = PyStr et -> enc (w_self w) = Some e ->
  getitem X (categorical_of (columns (w_self w)) X) = inr d ->
  encoder_transform e d = inr t ->
  n ∈ suffix_names et t -> n ∈ col_names X ->
  (transform X w).1 = inl (ValueError "columns overlap but no suffix specified").
Proof.
  intros Het He Hd Ht Hn HX. rewrite transform_eq_spec. unfold transform_spec.
  rewrite Hd, He. cbn. rewrite Ht. cbn. rewrite Het, suffixed_all. cbn.
  rewrite set_columns_ok by (unfold col_names; by rewrite !length_map). cbn.
  rewrite renamed_zip.
  assert (Hidx : f_index t = f_index X).
  { rewrite (encoder_transform_index _ _ _ Ht). by apply getitem_index in Hd. }
  rewrite (frame_join_overlap _ _ n); [done|exact Hidx| |exact HX].
  unfold col_names. cbn. by rewrite renamed_names.
Qed.

(** ** [fit]: the CatBoost branch *)


Lemma catboost_step_ok en X y w y' w' :
  catboost_step en X y w = (inr y', w') ->
  np_bound en = true /\
  exists d d',
    let pg := permutation (length (f_index X)) (w_rng w) in
    data_encode (w_self w) = Some d /\ iloc d pg.1 = inr d' /\
    target_iloc_reset y pg.1 = inr y' /\
    w' = World (set_enc (new_encoder CatBoostEncoder)
                        (set_data_encode (reset_index d') (w_self w))) pg.2.
Proof.
  unfold catboost_step, draw_permutation, np_global, pd_len,
    pbind, plift, self_get, self_update, pmodify, pret. cbn.
  destruct (np_bound en); [|by intros [=]].
  destruct (permutation _ (w_rng w)) as [p g] eqn:Hp. cbn.
  destruct (data_encode (w_self w)) as [d|]; [|by intros [=]]. cbn.
  destruct (iloc d p) as [|d'] eqn:Hi; [by intros [=]|]. cbn.
  destruct (target_iloc_reset y p) as [|y''] eqn:Hy; [by intros [=]|].
  intros [= <- <-].
  split; [done|]. exists d, d'. by repeat split.
Qed.

(** C16: the CatBoost branch (lines 57-59) reorders the selected rows
    and the target with one permutation: every (row, target) pair of the
    input survives, each once, and both come back on a fresh
    [0..n-1] index. It needs the global [np]. *)
Theorem catboost_pairs en X y w y' w' d idx vals :
  data_encode (w_self w) = Some d -> pd_index d = f_index X ->
  y = TSeries idx vals -> length vals = length (f_index X) ->
  catboost_step en X y w = (inr y', w') ->
  np_bound en = true /\
  exists d' vals',
    data_encode (w_self w') = Some d' /\
    y' = TSeries (seq 0 (length (f_index X))) vals' /\
    pd_index d' = seq 0 (length (f_index X)) /\
    combine (frame_values (to_frame d')) vals' ≡ₚ combine (frame_values (to_frame d)) vals.
Proof.
  intros Hd Hidx -> Hlen Hstep.
  destruct (catboost_step_ok _ _ _ _ _ _ Hstep)
    as (Hnp & d0 & d' & Hd0 & Hi & Hy & ->).
  rewrite Hd in Hd0. injection Hd0 as <-. split; [done|].
  set (p := (permutation (length (f_index X)) (w_rng w)).1) in *.
  assert (Hperm : p ≡ₚ seq 0 (length (f_index X))) by apply permutation_is_perm.
  assert (Hplen : length p = length (f_index X))
    by (rewrite (Permutation_length Hperm); apply length_seq).
  cbn in Hy. destruct (iloc_check (length idx) p); [done|].
  injection Hy as <-.
  apply iloc_values in Hi as [Hrows Hidx'].
  exists (reset_index d'), (take_rows p vals CNaN). split_and!; [done|by rewrite Hplen| |].
  - rewrite pd_index_reset. unfold pd_len. by rewrite Hidx', length_take_rows, Hplen.
  - rewrite frame_values_reset, Hrows. unfold take_rows.
    rewrite combine_map_nth
      by (rewrite length_frame_values, to_frame_index, Hidx; lia).
    apply map_nth_perm.
    rewrite length_combine, length_frame_values, to_frame_index, Hidx, Hlen, Nat.min_id.
    exact Hperm.
Qed.

(** C17: the positions drawn at line 57 are in range: with [np] bound, a
    selection on [X]'s index and a target Series as long as [X], the
    CatBoost branch never raises [IndexError] at lines 58-59 and always
    returns the permuted target. *)
Theorem catboost_in_bounds en X w d idx vals :
  np_bound en = true -> data_encode (w_self w) = Some d -> pd_index d = f_index X ->
  length idx = length (f_index X) ->
  exists y' w', catboost_step en X (TSeries idx vals) w = (inr y', w').
Proof.
  intros Hnp Hd Hidx Hlen.
  pose proof (permutation_in_bounds (length (f_index X)) (w_rng w)) as Hb.
  unfold catboost_step, draw_permutation, np_global, pd_len,
    pbind, plift, self_get, self_update, pmodify, pret. cbn. rewrite Hnp.
  destruct (permutation _ (w_rng w)) as [p g]. cbn in Hb |- *. rewrite Hd. cbn.
  unfold iloc, pd_len. rewrite Hidx, (proj2 (iloc_check_ok _ _) Hb). cbn.
  rewrite Hlen, (proj2 (iloc_check_ok _ _) Hb). by eexists _, _.
Qed.

(** C18: as shipped the module never binds [np], so fitting a
    CatBoost encoder raises [NameError] as soon as the columns are
    selected. *)
Theorem fit_catboost_needs_np en X y w d :
  np_bound en = false -> encoding_type (w_self w) = PyStr "CatBoostEncoder" ->
  getitem X (categorical_of (columns (w_self w)) X) = inr d ->
  (fit en X y w).1 = inl (NameError "np").
Proof.
  intros Hnp Het Hd. unfold fit. unfold pbind at 1. rewrite select_step_run, Hd.
  unfold pbind, self_get, self_update, pmodify, plift, pret, catboost_step,
    draw_permutation, np_global.
  cbn. rewrite Het. cbn. by rewrite Hnp.
Qed.

(** ** [fit] then [transform]: the TargetEncoder and WOEEncoder branches *)

(** Lines 45-49 and 74: the supervised encoders are built and fitted on
    the selection, with the target as given. *)
Lemma fit_supervised_run en X y w et k d :
  (et = "TargetEncoder" /\ k = TargetEncoder \/ et = "WOEEncoder" /\ k = WOEEncoder) ->
  encoding_type (w_self w) = PyStr et ->
  getitem X (categorical_of (columns (w_self w)) X) = inr d ->
  let s1 := set_enc (new_encoder k)
              (set_data_encode d (set_categorical_cols (categorical_of (columns (w_self w)) X) (w_self w))) in
  fit en X y w =
    match ce_fit k d y with
    | inl e => (inl e, World s1 (w_rng w))
    | inr m => (inr tt, World (set_enc (EncoderObj k (Some m)) s1) (w_rng w))
    end.
Proof.
  intros Hk Het Hd s1. unfold fit. unfold pbind at 1. rewrite select_step_run, Hd.
  unfold pbind, self_get, self_update, pmodify, plift, pret, fit_encoder, encoder_fit.
  destruct Hk as [[-> ->]|[-> ->]]; cbn; rewrite Het; cbn; by destruct (ce_fit _ d y).
Qed.


(** An encoding type outside [allowed] selects none of the four
    branches of [fit]. *)
Lemma not_allowed_no_branch v t :
  py_in_strs v allowed = false -> t ∈ allowed -> py_eq_str v t = false.
Proof.
  intros Hn Ht. destruct (py_eq_str v t) eqn:Heq; [|done].
  rewrite <- Hn. symmetry. apply existsb_exists. exists t. split; [|done].
  by apply list_elem_of_In.
Qed.

(** C35: an encoding type that names no encoder (set with [set_params]
    after a fit) reaches no branch of [fit], which then refits whatever
    [self.enc] an earlier fit left, on the new selection. *)
Theorem stale_encoder_refit en X y w d e :
  py_in_strs (encoding_type (w_self w)) allowed = false ->
  getitem X (categorical_of (columns (w_self w)) X) = inr d ->
  enc (w_self w) = Some e ->
  let s1 := set_data_encode d (set_categorical_cols (categorical_of (columns (w_self w)) X) (w_self w)) in
  fit en X y w =
    match encoder_fit e d y with
    | inl err => (inl err, World s1 (w_rng w))
    | inr e' => (inr tt, World (set_enc e' s1) (w_rng w))
    end.
Proof.
  intros Hn Hd He s1. unfold fit. unfold pbind at 1. rewrite select_step_run, Hd.
  unfold pbind, self_get, self_update, pmodify, plift, pret, fit_encoder. cbn.
  rewrite !(not_allowed_no_branch _ _ Hn) by (unfold allowed; repeat constructor). cbn.
  rewrite He. cbn. by destruct (encoder_fit e d y).
Qed.

(** ** [fit]: the OneHot branch *)

(** One iteration of lines 67-69 as a pure step: keep [col] when its
    Series has fewer than 50 distinct values. *)
Definition onehot_keep (f : frame) (col : string) : exc + bool :=
  let? c := getitem f (PyStr col) in
  let? u := pd_unique c in
  inr (Nat.ltb (length u) 50).

Fixpoint onehot_filter (f : frame) (cols : list string) : exc + list string :=
  match cols with
  | [] => inr []
  | col :: cols' =>
      let? b := onehot_keep f col in
      let? rest := onehot_filter f cols' in
      inr (if b then col :: rest else rest)
  end.

Lemma set_new_list_same s acc : new_list s = Some acc -> set_new_list acc s = s.
Proof. destruct s; unfold set_new_list; cbn; congruence. Qed.

Lemma onehot_check_run col s g f :
  data_encode s = Some (PDFrame f) ->
  onehot_check col (World s g) =
    match onehot_keep f col with
    | inl e => (inl e, World s g)
    | inr false => (inr tt, World s g)
    | inr true =>
        match new_list s with
        | None => (inl (AttributeError "Encodings" "new_list"), World s g)
        | Some nl => (inr tt, World (set_new_list (nl ++ [col]) s) g)
        end
    end.
Proof.
  intros Hd. unfold onehot_check, onehot_keep, pbind, self_get, plift, self_update,
    pmodify, pret, sbind. cbn -[getitem pd_unique]. rewrite Hd.
  cbn -[getitem pd_unique].
  destruct (getitem f (PyStr col)) as [e|c]; [done|].
  destruct (pd_unique c) as [e|u]; [done|]. cbn.
  destruct (length u <=? 49); [|done]. cbn. by destruct (new_list s).
Qed.

(** The loop of lines 67-69 computes [onehot_filter] into [new_list]. *)
Lemma onehot_loop f cols s g acc :
  data_encode s = Some (PDFrame f) -> new_list s = Some acc ->
  match onehot_filter f cols with
  | inr kept => pfor cols onehot_check (World s g) = (inr tt, World (set_new_list (acc ++ kept) s) g)
  | inl e => (pfor cols onehot_check (World s g)).1 = inl e
  end.
Proof.
  revert s acc. induction cols as [|col cols IH]; intros s acc Hd Hnl; cbn.
  - unfold pret. by rewrite app_nil_r, set_new_list_same.
  - unfold pbind. rewrite !(onehot_check_run col s g f Hd). unfold sbind.
    destruct (onehot_keep f col) as [e|[]]; [done| |].
    + rewrite Hnl. cbn -[onehot_check].
      specialize (IH (set_new_list (acc ++ [col]) s) (acc ++ [col]) Hd eq_refl).
      destruct (onehot_filter f cols) as [e|kept]; [done|].
      rewrite IH. cbn. by rewrite <- app_assoc.
    + specialize (IH s acc Hd Hnl).
      by destruct (onehot_filter f cols).
Qed.

Lemma onehot_step_ok s g w' f :
  data_encode s = Some (PDFrame f) -> onehot_step (World s g) = (inr tt, w') ->
  exists kept d', onehot_filter f (col_names f) = inr kept /\
    getitem f (PyList (map PyStr kept)) = inr d' /\
    w' = World (set_data_encode d' (set_new_list kept (set_enc (new_encoder OneHotEncoder) s))) g.
Proof.
  intros Hd. unfold onehot_step, pbind, self_get, plift, self_update, pmodify, pret.
  cbn -[getitem]. rewrite Hd. cbn -[getitem].
  pose proof (onehot_loop f (col_names f)
                (set_new_list [] (set_enc (new_encoder OneHotEncoder) s)) g [] Hd eq_refl)
    as Hloop.
  destruct (onehot_filter f (col_names f)) as [e|kept].
  - destruct (pfor _ _ _) as [[e'|[]] w1]; cbn in Hloop; [|done]. by intros [=].
  - rewrite Hloop. cbn -[getitem]. rewrite Hd. cbn -[getitem].
    destruct (getitem f (PyList (map PyStr kept))) as [e|d'] eqn:Hg; [by intros [=]|].
    intros [= <-]. by exists kept, d'.
Qed.

(** A successful OneHot fit: the frame the loop scanned, the names it
    kept, and the encoder fitted on them. *)
Lemma fit_onehot_ok en X y w w' :
  encoding_type (w_self w) = PyStr "OneHotEncoder" -> fit en X y w = (inr tt, w') ->
  exists f kept d' m,
    getitem X (categorical_of (columns (w_self w)) X) = inr (PDFrame f) /\
    onehot_filter f (col_names f) = inr kept /\
    getitem f (PyList (map PyStr kept)) = inr d' /\
    ce_fit OneHotEncoder d' y = inr m /\
    enc (w_self w') = Some (EncoderObj OneHotEncoder (Some m)) /\
    data_encode (w_self w') = Some d' /\ new_list (w_self w') = Some kept.
Proof.
  intros Het. destruct w as [s g]. cbn [w_self] in *. unfold fit.
  unfold pbind at 1. rewrite select_step_run. cbn [w_self w_rng].
  destruct (getitem X (categorical_of (columns s) X)) as [e|d] eqn:Hd; [by intros [=]|].
  unfold pbind, self_get, pret. cbn -[onehot_step fit_encoder getitem categorical_of].
  rewrite Het. cbn -[onehot_step fit_encoder getitem categorical_of].
  set (s1 := set_data_encode d (set_categorical_cols _ s)).
  destruct (onehot_step (World s1 g)) as [[e|[]] w1] eqn:Hstep; [by intros [=]|].
  destruct d as [f|idx c].
  2: { exfalso. unfold onehot_step, pbind, self_get, plift, self_update, pmodify, pret
         in Hstep. cbn in Hstep. inversion Hstep. }
  destruct (onehot_step_ok s1 g w1 f eq_refl Hstep) as (kept & d' & Hkept & Hd' & ->).
  unfold fit_encoder, pbind, self_get, plift, self_update, pmodify, encoder_fit.
  cbn -[ce_fit].
  destruct (ce_fit OneHotEncoder d' y) as [e|m] eqn:Hm; [by intros [=]|].
  intros [= <-]. exists f, kept, d', m. by repeat split.
Qed.

(** The distinct-value test of line 68. *)
Definition low_card (c : column) : bool := Nat.ltb (length (unique (col_values c))) 50.

(** The columns [columns="All"] selects, in the order of line 35. *)
Definition categorical_columns (X : frame) : list column :=
  List.filter (fun c => bool_decide (col_dtype c = DObject)) (f_cols X) ++
  List.filter (fun c => bool_decide (col_dtype c = DCategory)) (f_cols X).

Lemma categorical_of_all X :
  categorical_of (PyStr "All") X = PyList (map (fun c => PyStr (col_name c)) (categorical_columns X)).
Proof.
  unfold categorical_of, categorical_columns, dtype_columns. cbn.
  by rewrite !List.map_app, !List.map_map.
Qed.

Lemma categorical_columns_in X c : c ∈ categorical_columns X -> c ∈ f_cols X.
Proof.
  unfold categorical_columns. rewrite elem_of_app, !list_elem_of_In, !filter_In.
  by intros [[]|[]].
Qed.

Lemma categorical_columns_NoDup X :
  NoDup (col_names X) -> NoDup (map col_name (categorical_columns X)).
Proof.
  intros Hnd. unfold categorical_columns.
  rewrite (filter_app_perm _ _ _).
  - by apply NoDup_map_filter.
  - intros c Hc. apply bool_decide_eq_true in Hc. apply bool_decide_eq_false. congruence.
Qed.

Lemma onehot_filter_unique f cs :
  NoDup (col_names f) -> (forall c, c ∈ cs -> c ∈ f_cols f) ->
  onehot_filter f (map col_name cs) = inr (map col_name (List.filter low_card cs)).
Proof.
  intros Hnd. induction cs as [|c cs IH]; intros Hin; [done|]. cbn.
  unfold onehot_keep at 1. rewrite getitem_name by (done || (apply Hin; left)). cbn.
  rewrite IH by (intros c' Hc'; apply Hin; by right). cbn.
  unfold low_card. cbn. by destruct (length (unique (col_values c)) <=? 49).
Qed.

Lemma fit_onehot_all en X y w w' :
  NoDup (col_names X) -> columns (w_self w) = PyStr "All" ->
  encoding_type (w_self w) = PyStr "OneHotEncoder" -> fit en X y w = (inr tt, w') ->
  exists m,
    ce_fit OneHotEncoder
      (PDFrame (Frame (f_index X) (List.filter low_card (categorical_columns X)))) y = inr m /\
    enc (w_self w') = Some (EncoderObj OneHotEncoder (Some m)) /\
    new_list (w_self w') = Some (map col_name (List.filter low_card (categorical_columns X))) /\
    data_encode (w_self w') =
      Some (PDFrame (Frame (f_index X) (List.filter low_card (categorical_columns X)))).
Proof.
  intros Hnd Hcols Het Hfit.
  destruct (fit_onehot_ok _ _ _ _ _ Het Hfit)
    as (f & kept & d' & m & Hd & Hkept & Hd' & Hm & He & Hde & Hnl).
  rewrite Hcols, categorical_of_all, getitem_names in Hd
    by (done || apply categorical_columns_in).
  injection Hd as <-.
  pose proof (categorical_columns_NoDup X Hnd) as Hnd'.
  unfold col_names in Hkept. cbn in Hkept.
  rewrite onehot_filter_unique in Hkept by done.
  injection Hkept as <-. rewrite map_map, getitem_names in Hd'.
  - injection Hd' as <-. by exists m.
  - done.
  - intros c Hc. cbn. apply list_elem_of_In, filter_In in Hc as [Hc _].
    by apply list_elem_of_In.
Qed.

(** C20: fitting with [encoding_type="OneHotEncoder"] and
    [columns="All"] keeps in [new_list] and [data_encode] exactly the
    categorical columns with fewer than 50 distinct values, in the order
    of the selection. *)
Theorem onehot_fit_low_cardinality en X y w w' :
  NoDup (col_names X) -> columns (w_self w) = PyStr "All" ->
  encoding_type (w_self w) = PyStr "OneHotEncoder" -> fit en X y w = (inr tt, w') ->
  new_list (w_self w') = Some (map col_name (List.filter low_card (categorical_columns X))) /\
  data_encode (w_self w') =
    Some (PDFrame (Frame (f_index X) (List.filter low_card (categorical_columns X)))).
Proof.
  intros Hnd Hcols Het Hfit.
  by destruct (fit_onehot_all _ _ _ _ _ Hnd Hcols Het Hfit) as (m & _ & _ & Hnl & Hde).
Qed.

(** C6: [transform] does not repeat the cardinality filter of [fit]: as
    soon as one categorical column has 50 or more distinct values, a
    successful OneHot fit is followed by a [transform] of the same table
    that raises [ValueError] (the encoder sees more columns than it was
    fitted on), instead of encoding the low-cardinality columns. *)
Theorem onehot_transform_fails en X y w w' c :
  NoDup (col_names X) -> columns (w_self w) = PyStr "All" ->
  encoding_type (w_self w) = PyStr "OneHotEncoder" -> fit en X y w = (inr tt, w') ->
  c ∈ categorical_columns X -> low_card c = false ->
  exists msg, (transform X w').1 = inl (ValueError msg).
Proof.
  intros Hnd Hcols Het Hfit Hc Hlow.
  destruct (fit_onehot_all _ _ _ _ _ Hnd Hcols Het Hfit) as (m & Hm & He & _ & _).
  pose proof (ce_fit_dim _ _ _ _ Hm) as Hdim.
  pose proof (filter_length_lt low_card _ c Hc Hlow) as Hlt.
  pose proof (fit_keeps_params en X y w) as Hp.
  rewrite Hfit in Hp. unfold params in Hp. cbn in Hp. injection Hp as _ _ Hcols' _.
  destruct (ce_transform_dim m (PDFrame (Frame (f_index X) (categorical_columns X))))
    as [msg Hmsg].
  { rewrite Hdim. unfold pd_ncols. cbn. lia. }
  exists msg. rewrite transform_eq_spec. unfold transform_spec.
  rewrite Hcols', Hcols, categorical_of_all, getitem_names
    by (done || apply categorical_columns_in).
  cbn. rewrite He. cbn. by rewrite Hmsg.
Qed.

End Props.

(** ** Concrete runs

    The theorems above applied to the executable model of category_encoders
    ([LibraryModels.ce_mean]) on small tables: a two-row-type table with a
    text column and a float column with a missing value. *)

Definition ex_X : frame :=
  Frame [0; 1; 2] [Column "txt" DObject [CStr "a"; CStr "b"; CStr "a"];
                   Column "num" DFloat64 [CNum 1%Q; CNaN; CNum 3%Q]].

Definition ex_y : target := TSeries [0; 1; 2] [CNum 0%Q; CNum 1%Q; CNum 0%Q].

Definition ex_env : env := module_env true.

Definition ex_env_np : env :=
  {| np_bound := true; sklearn_impute_loaded := true; asserts_enabled := true |}.

Definition ex_rng : rng := Rng (fun n => 3 * n + 1) 0.

Definition ex_new (et : string) (rc : bool) : enc_self :=
  match __init__ ex_env (PyStr et) (PyStr "All") (PyBool rc) with
  | inr s => s
  | inl _ => EncSelf [] PyNone PyNone PyNone None None None None None None
  end.

Definition ex_fitted (et : string) (rc : bool) : world :=
  (fit ex_env ex_X ex_y (World (ex_new et rc) ex_rng)).2.

Definition frame_of (r : exc + frame) : frame :=
  match r with inr f => f | inl _ => Frame [] [] end.

Definition ex_out (et : string) (rc : bool) : frame :=
  frame_of (transform ex_X (ex_fitted et rc)).1.

(** The TargetEncoder run encodes [txt] by the mean target of its value. *)
Example ex_target_output :
  ex_out "TargetEncoder" true =
  Frame [0; 1; 2] [Column "txt_TargetEncoder" DFloat64 [CNum 0%Q; CNum 1%Q; CNum 0%Q];
                   Column "txt" DObject [CStr "a"; CStr "b"; CStr "a"];
                   Column "num" DFloat64 [CNum 1%Q; CNaN; CNum 3%Q]].
Proof. vm_compute. reflexivity. Qed.

Lemma init_validates_witness :
  asserts_enabled ex_env = true /\
  match __init__ ex_env (PyStr "Foo") (PyStr "All") (PyBool true) with
  | inr s => (exists t, PyStr "Foo" = PyStr t /\ t ∈ allowed) /\
             params s = (allowed, PyStr "Foo", PyStr "All", PyBool true) /\
             enc s = None /\ categorical_cols s = None /\ data_encode s = None
  | inl e => e = AssertionError (init_message (PyStr "Foo")) /\
             ~ (exists t, PyStr "Foo" = PyStr t /\ t ∈ allowed)
  end.
Proof. split; [reflexivity|]. apply init_validates. reflexivity. Defined.


(** Discharge a hypothesis of a concrete run by evaluation: an equation,
    or a decidable proposition (membership, [NoDup]). *)
Ltac by_eval :=
  first [ vm_compute; reflexivity
        | apply (bool_decide_unpack _); vm_compute; exact I
        | apply names_disjoint_by_test; vm_compute; reflexivity ].

Definition ex_w_t : world := ex_fitted "TargetEncoder" true.

Definition pdobj_of (r : exc + pdobj) : pdobj :=
  match r with inr d => d | inl _ => PDFrame (Frame [] []) end.

Definition ex_d : pdobj := Eval vm_compute in pdobj_of (getitem ex_X (categorical_of (PyStr "All") ex_X)).

Definition ex_e : encoder_obj :=
  Eval vm_compute in default (new_encoder TargetEncoder) (enc (w_self ex_w_t)).

Definition ex_t : frame := Eval vm_compute in frame_of (encoder_transform ex_e ex_d).



(** The same table with a column named as the encoder's output: the
    encoder applied a second time. *)
Definition ex_X2 : frame :=
  Frame [0; 1; 2] (f_cols ex_X ++ [Column "txt_TargetEncoder" DFloat64 [CNum 0; CNum 1; CNum 0]]).

Definition ex_w2 : world := (fit ex_env ex_X2 ex_y (World (ex_new "TargetEncoder" true) ex_rng)).2.

Definition ex_e2 : encoder_obj :=
  Eval vm_compute in default (new_encoder TargetEncoder) (enc (w_self ex_w2)).

Definition ex_d2 : pdobj := Eval vm_compute in pdobj_of (getitem ex_X2 (categorical_of (PyStr "All") ex_X2)).

Definition ex_t2 : frame := Eval vm_compute in frame_of (encoder_transform ex_e2 ex_d2).

Lemma transform_name_clash_witness :
  encoding_type (w_self ex_w2) = PyStr "TargetEncoder" /\ enc (w_self ex_w2) = Some ex_e2 /\
  getitem ex_X2 (categorical_of (columns (w_self ex_w2)) ex_X2) = inr ex_d2 /\
  encoder_transform ex_e2 ex_d2 = inr ex_t2 /\
  "txt_TargetEncoder" ∈ suffix_names "TargetEncoder" ex_t2 /\ "txt_TargetEncoder" ∈ col_names ex_X2 /\
  (transform ex_X2 ex_w2).1 = inl (ValueError "columns overlap but no suffix specified").
Proof.
  do 6 (split; [by_eval|]).
  apply (transform_name_clash ex_X2 ex_w2 ex_d2 ex_e2 ex_t2 "TargetEncoder" "txt_TargetEncoder"); by_eval.
Defined.

(** CatBoost with [np] bound: the state after the selection of line 41. *)
Definition ex_w_cb : world := (select_step ex_X (World (ex_new "CatBoostEncoder" true) ex_rng)).2.

Definition ex_cb : (exc + target) * world := catboost_step ex_env_np ex_X ex_y ex_w_cb.

Definition ex_y_cb : target :=
  Eval vm_compute in match ex_cb.1 with inr y => y | inl _ => TNone end.

Lemma catboost_pairs_witness :
  data_encode (w_self ex_w_cb) = Some ex_d /\ pd_index ex_d = f_index ex_X /\
  ex_y = TSeries [0; 1; 2] [CNum 0; CNum 1; CNum 0] /\
  length [CNum 0; CNum 1; CNum 0] = length (f_index ex_X) /\
  catboost_step ex_env_np ex_X ex_y ex_w_cb = (inr ex_y_cb, ex_cb.2) /\
  np_bound ex_env_np = true /\
  exists d' vals',
    data_encode (w_self ex_cb.2) = Some d' /\
    ex_y_cb = TSeries (seq 0 (length (f_index ex_X))) vals' /\
    pd_index d' = seq 0 (length (f_index ex_X)) /\
    combine (frame_values (to_frame d')) vals' ≡ₚ
      combine (frame_values (to_frame ex_d)) [CNum 0; CNum 1; CNum 0].
Proof.
  do 5 (split; [by_eval|]).
  apply (catboost_pairs ex_env_np ex_X ex_y ex_w_cb ex_y_cb ex_cb.2 ex_d [0; 1; 2]); by_eval.
Defined.

(** The TargetEncoder fitted on [ex_X]. *)
Definition ex_m : ce_model :=
  Eval vm_compute in
    match ce_fit TargetEncoder ex_d ex_y with inr m => m | inl _ => CeModel TargetEncoder 0 [] [] 0 end.


Lemma transform_before_fit_witness :
  __init__ ex_env (PyStr "TargetEncoder") (PyStr "All") (PyBool true) = inr (ex_new "TargetEncoder" true) /\
  getitem ex_X (categorical_of (PyStr "All") ex_X) = inr ex_d /\
  (transform ex_X (World (ex_new "TargetEncoder" true) ex_rng)).1 = inl (AttributeError "Encodings" "enc").
Proof.
  do 2 (split; [by_eval|]).
  apply (transform_before_fit ex_env (PyStr "TargetEncoder") (PyStr "All") (PyBool true) _ _ ex_X ex_d);
    by_eval.
Defined.

(** The fitted TargetEncoder instance after [set_params(encoding_type="Foo")]. *)
Definition ex_foo : world :=
  World (EncSelf allowed (PyStr "Foo") (PyStr "All") (PyBool true) None None (Some ex_e) None None None)
        ex_rng.

Lemma stale_encoder_refit_witness :
  py_in_strs (encoding_type (w_self ex_foo)) allowed = false /\
  getitem ex_X (categorical_of (columns (w_self ex_foo)) ex_X) = inr ex_d /\
  enc (w_self ex_foo) = Some ex_e /\
  let s1 := set_data_encode ex_d
              (set_categorical_cols (categorical_of (columns (w_self ex_foo)) ex_X) (w_self ex_foo)) in
  fit ex_env ex_X ex_y ex_foo =
    match encoder_fit ex_e ex_d ex_y with
    | inl err => (inl err, World s1 (w_rng ex_foo))
    | inr e' => (inr tt, World (set_enc e' s1) (w_rng ex_foo))
    end.
Proof.
  do 3 (split; [by_eval|]).
  apply (stale_encoder_refit ex_env ex_X ex_y ex_foo ex_d ex_e); by_eval.
Defined.

Lemma catboost_in_bounds_witness :
  np_bound ex_env_np = true /\ data_encode (w_self ex_w_cb) = Some ex_d /\
  pd_index ex_d = f_index ex_X /\ length [0; 1; 2] = length (f_index ex_X) /\
  exists y' w', catboost_step ex_env_np ex_X (TSeries [0; 1; 2] [CNum 0; CNum 1; CNum 0]) ex_w_cb = (inr y', w').
Proof.
  do 4 (split; [by_eval|]).
  apply (catboost_in_bounds ex_env_np ex_X ex_w_cb ex_d); by_eval.
Defined.

(** The renaming loop on a new instance whose [new_names] was reset. *)
Definition ex_w_rn : world := World (set_new_names [] (ex_new "TargetEncoder" true)) ex_rng.

Lemma rename_loop_map_witness :
  new_names (w_self ex_w_rn) = Some [] /\
  (forall et, encoding_type (w_self ex_w_rn) = PyStr et ->
     pfor ["a"; "b"] rename_one ex_w_rn =
       (inr tt, World (set_new_names (map (fun c => c +:+ "_" +:+ et) ["a"; "b"]) (w_self ex_w_rn))
                      (w_rng ex_w_rn))) /\
  (["a"; "b"] <> [] -> (forall et, encoding_type (w_self ex_w_rn) <> PyStr et) ->
     (pfor ["a"; "b"] rename_one ex_w_rn).1 = inl (TypeError "can only concatenate str to str")).
Proof. split; [by_eval|]. apply rename_loop_map. by_eval. Defined.

Lemma fit_catboost_needs_np_witness :
  np_bound ex_env = false /\
  encoding_type (w_self (World (ex_new "CatBoostEncoder" true) ex_rng)) = PyStr "CatBoostEncoder" /\
  getitem ex_X (categorical_of (columns (w_self (World (ex_new "CatBoostEncoder" true) ex_rng))) ex_X)
    = inr ex_d /\
  (fit ex_env ex_X ex_y (World (ex_new "CatBoostEncoder" true) ex_rng)).1 = inl (NameError "np").
Proof.
  do 3 (split; [by_eval|]).
  apply (fit_catboost_needs_np ex_env ex_X ex_y _ ex_d); by_eval.
Defined.

(** OneHot on 50 rows: an identifier column with 50 distinct values, a
    two-valued text column and a numeric column. *)
Definition ex_id_col : column := Column "id" DObject (map (fun i => CStr (pretty i)) (seq 0 50)).

Definition ex_X3 : frame :=
  Frame (seq 0 50)
    [ex_id_col;
     Column "txt" DObject (map (fun i => CStr (if Nat.even i then "a" else "b")) (seq 0 50));
     Column "num" DFloat64 (map (fun i => CNum (inject_Z (Z.of_nat i))) (seq 0 50))].

Definition ex_y3 : target :=
  TSeries (seq 0 50) (map (fun i => CNum (if Nat.even i then 0 else 1)) (seq 0 50)).

Definition ex_w3 : world := World (ex_new "OneHotEncoder" true) ex_rng.

Definition ex_w3' : world := (fit ex_env ex_X3 ex_y3 ex_w3).2.

Lemma onehot_fit_low_cardinality_witness :
  NoDup (col_names ex_X3) /\ columns (w_self ex_w3) = PyStr "All" /\
  encoding_type (w_self ex_w3) = PyStr "OneHotEncoder" /\
  fit ex_env ex_X3 ex_y3 ex_w3 = (inr tt, ex_w3') /\
  new_list (w_self ex_w3') = Some (map col_name (List.filter low_card (categorical_columns ex_X3))) /\
  data_encode (w_self ex_w3') =
    Some (PDFrame (Frame (f_index ex_X3) (List.filter low_card (categorical_columns ex_X3)))).
Proof.
  do 4 (split; [by_eval|]).
  apply (onehot_fit_low_cardinality ex_env ex_X3 ex_y3 ex_w3 ex_w3'); by_eval.
Defined.

Lemma onehot_transform_fails_witness :
  NoDup (col_names ex_X3) /\ columns (w_self ex_w3) = PyStr "All" /\
  encoding_type (w_self ex_w3) = PyStr "OneHotEncoder" /\
  fit ex_env ex_X3 ex_y3 ex_w3 = (inr tt, ex_w3') /\
  ex_id_col ∈ categorical_columns ex_X3 /\ low_card ex_id_col = false /\
  exists msg, (transform ex_X3 ex_w3').1 = inl (ValueError msg).
Proof.
  do 6 (split; [by_eval|]).
  apply (onehot_transform_fails ex_env ex_X3 ex_y3 ex_w3 ex_w3' ex_id_col); by_eval.
Defined.
End Encodings.
