(* ===== verification/NaNtreatment.v ===== *)
(** * The class [NaNtreatment] (src/percentile.py, lines 109-140)

    The instance is the record [nan_self] of its three attributes
    ([_allowed_treatments], [treatment] and [treatment_method], the last
    unset until [fit] assigns it). [__init__] is a function of the
    environment and the argument; [fit] and [transform] are computations
    of the state-and-exception monad [PyM] of the prelude over [nan_self].
    The sklearn [SimpleImputer] is reached through the interface
    [Libraries.SimpleImputerLib], and the theorems that depend on its
    behaviour use the laws [Libraries.SimpleImputerLaws] only. *)

From S2P Require Import Prelude PyCore Pandas Libraries LibraryModels.
From stdpp Require Import strings.
From Stdlib Require Import QArith.

Local Open Scope nat_scope.
Local Open Scope py_scope.

Module NaNtreatment.

(** What [transform] returns: [X] itself (line 139) or the array sklearn's
    [transform] returns (line 140). *)
Inductive nt_out :=
| OutFrame (f : frame)
| OutArray (M : matrix).

Section Model.
Context `{SI : SimpleImputerLib}.

Record nan_self := NanSelf {
  allowed_treatments : list string;
  treatment : pyval;
  treatment_method : option imputer_obj
}.

Definition set_treatment_method (m : imputer_obj) (s : nan_self) : nan_self :=
  NanSelf (allowed_treatments s) (treatment s) (Some m).

(** Reading [self.treatment_method], which may be unset. *)
Definition nattr {A} (o : option A) (name : string) : exc + A :=
  match o with Some a => inr a | None => inl (AttributeError "NaNtreatment" name) end.

(** ** [__init__] (lines 113-116) *)

Definition allowed : list string := ["fixed_value"; "mean"; "median"; "mode"; "None"].

Definition init_message (treatment : pyval) : fmt :=
  Fmt "the treatment introduced {} is not valid. Please use one in {}"
      [treatment; PyList (map PyStr allowed)].

Definition __init__ (en : env) (treatment : pyval) : exc + nan_self :=
  let? _ := py_assert en (py_in_strs treatment allowed || py_is_number treatment)
                      (init_message treatment) in
  inr (NanSelf allowed treatment None).

(** The default [treatment="mean"]. *)
Definition init_default (en : env) : exc + nan_self := __init__ en (PyStr "mean").

(** ** [fit] (lines 118-135) *)

(** [sklearn.impute.SimpleImputer(missing_values=np.nan, strategy=s)]:
    the callee [sklearn.impute.SimpleImputer] is evaluated before the
    argument [np.nan]. *)
Definition make_imputer (en : env) (s : strategy) : exc + imputer_obj :=
  let? _ := sklearn_impute en in
  let? _ := np_global en in
  inr (new_imputer s).

(** The branch of lines 123-131 the treatment selects, if any. *)
Definition fit_strategy (t : pyval) : option strategy :=
  if py_eq_str t "mean" || py_eq_none t then Some SMean
  else if py_eq_str t "median" then Some SMedian
  else if py_eq_str t "most_frequent" then Some SMostFrequent
  else if py_is_number t then Some (SConstant t)
  else None.

(** [y] is unused. [self.treatment_method.fit(X.values)] fits the object
    in place; when it raises, the attribute keeps the unfitted object. *)
Definition fit (en : env) (X : frame) (y : target) : PyM exc nan_self unit :=
  let* s := pget in
  do* (match fit_strategy (treatment s) with
       | Some st => let* m := plift (make_imputer en st) in
                    pmodify (set_treatment_method m)
       | None => pret tt
       end);
  let* s := pget in
  let* m := plift (nattr (treatment_method s) "treatment_method") in
  let* m' := plift (imputer_fit m (frame_values X)) in
  pmodify (set_treatment_method m').

(** ** [transform] (lines 137-140) *)

Definition transform (X : frame) : PyM exc nan_self nt_out :=
  let* s := pget in
  if py_eq_none (treatment s) then pret (OutFrame X)
  else
    let* m := plift (nattr (treatment_method s) "treatment_method") in
    let* M := plift (imputer_transform m (frame_values X)) in
    pret (OutArray M).

(** [TransformerMixin.fit_transform]: [self.fit(X, y).transform(X)]. *)
Definition fit_transform (en : env) (X : frame) (y : target) : PyM exc nan_self nt_out :=
  do* fit en X y;
  transform X.

(** ** Pure specification of [fit] *)

(** Lines 123-131: the state after the branch, or its exception. *)
Definition select_method (en : env) (s : nan_self) : exc + nan_self :=
  match fit_strategy (treatment s) with
  | Some st => let? m := make_imputer en st in inr (set_treatment_method m s)
  | None => inr s
  end.

Definition fit_spec (en : env) (X : frame) (s : nan_self) : (exc + unit) * nan_self :=
  match select_method en s with
  | inl e => (inl e, s)
  | inr s1 =>
      match (let? m := nattr (treatment_method s1) "treatment_method" in
             imputer_fit m (frame_values X)) with
      | inl e => (inl e, s1)
      | inr m' => (inr tt, set_treatment_method m' s1)
      end
  end.

(** ** Lemmas *)

Lemma fit_refines en X y s : fit en X y s = fit_spec en X s.
Proof.
  unfold fit, fit_spec, select_method, pbind, pget, pmodify, plift, pret, sbind.
  destruct (fit_strategy (treatment s)); [destruct (make_imputer en s0)|]; cbn; try done;
    destruct (treatment_method _); cbn; try done; by destruct (imputer_fit _ _).
Qed.

Lemma transform_state X s : (transform X s).2 = s.
Proof.
  unfold transform, pbind, pget, plift, pret.
  destruct (py_eq_none (treatment s)); [done|].
  destruct (nattr _ _); [done|]. cbn. by destruct (imputer_transform _ _).
Qed.

Lemma init_inr en t s : __init__ en t = inr s -> s = NanSelf allowed t None.
Proof. unfold __init__, sbind. destruct (py_assert _ _ _); [done|]. by intros [= <-]. Qed.

Lemma fit_strategy_number t q : py_number t = Some q -> fit_strategy t = Some (SConstant t).
Proof. by destruct t. Qed.

Lemma make_imputer_ok en st :
  np_bound en = true -> sklearn_impute_loaded en = true -> make_imputer en st = inr (new_imputer st).
Proof. intros Hnp Hsk. unfold make_imputer, sklearn_impute, np_global. by rewrite Hnp, Hsk. Qed.

Lemma numeric_frame_matrix X :
  numeric_frame X = true -> numeric_matrix (length (f_cols X)) (frame_values X).
Proof.
  intros H. unfold numeric_matrix, frame_values. apply Forall_forall.
  intros row Hrow%list_elem_of_In. apply in_map_iff in Hrow as (i & <- & _).
  split; [by rewrite length_map|]. apply Forall_forall.
  intros x Hx%list_elem_of_In. apply in_map_iff in Hx as (c & <- & Hc).
  unfold numeric_frame in H. rewrite forallb_forall in H. specialize (H c Hc).
  rewrite forallb_forall in H.
  destruct (nth_in_or_default i (col_values c) CNaN) as [Hin| ->]; [|by left].
  specialize (H _ Hin). destruct (nth i _ _); try discriminate; eauto.
Qed.

(** ** Theorems *)

(** C23: the constructor accepts exactly the five names of
    [_allowed_treatments] (as [str]) and the numbers ([int], [float]
    and [bool]); anything else, [None] included, raises
    [AssertionError] with the message naming it. *)
Theorem nan_init_validates en t :
  asserts_enabled en = true ->
  match __init__ en t with
  | inr s => ((exists u, t = PyStr u /\ u ∈ allowed) \/ py_is_number t = true) /\
             s = NanSelf allowed t None
  | inl e => e = AssertionError (init_message t) /\
             ~ ((exists u, t = PyStr u /\ u ∈ allowed) \/ py_is_number t = true)
  end.
Proof.
  intros Ha. unfold __init__, sbind.
  destruct (py_in_strs t allowed) eqn:Hin; destruct (py_is_number t) eqn:Hn; cbn;
    rewrite ?py_assert_ok, ?py_assert_fail by done.
  1-3: split; [|done]; rewrite ?py_in_strs_iff in Hin; tauto.
  split; [done|]. intros [Hex|]; [|congruence].
  apply py_in_strs_iff in Hex. congruence.
Qed.


(** C7: as shipped the module never binds [np]: [fit] on a new
    instance never succeeds. A treatment with a branch raises
    [NameError] on [np.nan] (or [AttributeError] when [sklearn.impute]
    was never imported); one without a branch raises [AttributeError]
    on [self.treatment_method] (line 134). *)
Theorem fit_fresh_fails b t s X y :
  __init__ (module_env b) t = inr s ->
  (fit (module_env b) X y s).1 =
    inl (match fit_strategy t with
         | Some _ => if b then NameError "np" else AttributeError "sklearn" "impute"
         | None => AttributeError "NaNtreatment" "treatment_method"
         end).
Proof.
  intros Hi. apply init_inr in Hi as ->. rewrite fit_refines.
  unfold fit_spec, select_method, make_imputer, sklearn_impute, np_global, sbind. cbn.
  by destruct (fit_strategy t), b.
Qed.

(** C11: the string ["None"], the sentinel the constructor accepts, is
    not [None]: [transform] never returns [X] unchanged for it. Whatever
    [fit] or [set_params] left in [treatment_method], a successful
    [transform] returns sklearn's array. *)
Theorem none_string_not_passthrough X s o :
  treatment s = PyStr "None" -> (transform X s).1 = inr o -> exists M, o = OutArray M.
Proof.
  intros Ht. unfold transform, pbind, pget, plift, pret. rewrite Ht. cbn.
  destruct (treatment_method s) as [m|]; cbn; [|done].
  destruct (imputer_transform m _); [done|]. intros [= <-]. by eexists.
Qed.

(** C32: [transform] before any [fit] raises [AttributeError] on
    [self.treatment_method], for every treatment but [None]. *)
Theorem nan_transform_before_fit en t s X :
  __init__ en t = inr s -> py_eq_none t = false ->
  transform X s = (inl (AttributeError "NaNtreatment" "treatment_method"), s).
Proof.
  intros Hi Hn. apply init_inr in Hi as ->.
  unfold transform, pbind, pget, plift. cbn. by rewrite Hn.
Qed.

(** C38: with [None] as treatment, [transform] returns [X] itself and
    leaves the instance unchanged (line 139). *)
Theorem none_passthrough X s :
  treatment s = PyNone -> transform X s = (inr (OutFrame X), s).
Proof. intros Ht. unfold transform, pbind, pget, pret. by rewrite Ht. Qed.

(** C36: a treatment without a branch refits whatever [treatment_method]
    an earlier [fit] left: after [set_params(treatment="mode")] the
    instance keeps imputing with the old strategy. *)
Theorem stale_method_refit en X y s m :
  fit_strategy (treatment s) = None -> treatment_method s = Some m ->
  fit en X y s =
    match imputer_fit m (frame_values X) with
    | inl e => (inl e, s)
    | inr m' => (inr tt, set_treatment_method m' s)
    end /\
  (forall m', imputer_fit m (frame_values X) = inr m' -> io_strategy m' = io_strategy m).
Proof.
  intros Hs Hm. split.
  - rewrite fit_refines. unfold fit_spec, select_method. rewrite Hs, Hm. done.
  - unfold imputer_fit. destruct (si_fit _ _); [done|]. by intros m' [= <-].
Qed.

(** C37: [fit] and [transform] never change the constructor parameters;
    [transform] changes nothing. *)
Theorem nan_keep_params en X y s :
  treatment (fit en X y s).2 = treatment s /\
  allowed_treatments (fit en X y s).2 = allowed_treatments s /\
  (transform X s).2 = s.
Proof.
  rewrite fit_refines, transform_state. unfold fit_spec.
  destruct (select_method en s) as [e|s1] eqn:Hsel; cbn; [done|].
  assert (treatment s1 = treatment s /\ allowed_treatments s1 = allowed_treatments s) as [H1 H2].
  { unfold select_method, sbind in Hsel.
    destruct (fit_strategy _); [destruct (make_imputer en s0)|];
      first [discriminate | by injection Hsel as <-]. }
  by destruct (sbind _ _).
Qed.

Context {SIL : SimpleImputerLaws}.

(** A branch of [fit] whose imputer fits: the instance holds it, fitted. *)
Lemma fit_branch_ok en X y s st f :
  np_bound en = true -> sklearn_impute_loaded en = true ->
  fit_strategy (treatment s) = Some st -> si_fit st (frame_values X) = inr f ->
  fit en X y s = (inr tt, set_treatment_method (ImputerObj st (Some f)) s).
Proof.
  intros Hnp Hsk Hst Hf. rewrite fit_refines. unfold fit_spec, select_method.
  rewrite Hst, make_imputer_ok by done. cbn. unfold imputer_fit. cbn. by rewrite Hf.
Qed.

(** [transform] with a fitted imputer is its [transform] of [X.values]. *)
Lemma transform_fitted X s st f :
  py_eq_none (treatment s) = false -> treatment_method s = Some (ImputerObj st (Some f)) ->
  transform X s =
    (match si_transform f (frame_values X) with inl e => inl e | inr M => inr (OutArray M) end, s).
Proof.
  intros Hn Hm. unfold transform, pbind, pget, plift, pret. cbn. rewrite Hn, Hm. cbn.
  unfold imputer_transform. cbn. by destruct (si_transform f _).
Qed.

(** The matrix of a numeric table with rows and columns. *)
Lemma frame_values_numeric X :
  numeric_frame X = true -> f_index X <> [] -> f_cols X <> [] ->
  numeric_matrix (length (f_cols X)) (frame_values X) /\ frame_values X <> [] /\ 0 < length (f_cols X).
Proof.
  intros HX Hrows Hcols. split_and!; [by apply numeric_frame_matrix| |by destruct (f_cols X); [|cbn; lia]].
  intros Hv. apply Hrows, length_zero_iff_nil. by rewrite <- length_frame_values, Hv.
Qed.

(** A numeric treatment fits on numeric data and fills the missing cells. *)
Lemma constant_fit_run en t q s X y X' :
  np_bound en = true -> sklearn_impute_loaded en = true ->
  treatment s = t -> py_number t = Some q ->
  numeric_frame X = true -> f_index X <> [] -> f_cols X <> [] ->
  numeric_frame X' = true -> length (f_cols X') = length (f_cols X) ->
  exists s', fit en X y s = (inr tt, s') /\
    transform X' s' = (inr (OutArray (map (map (fill_nan (CNum q))) (frame_values X'))), s').
Proof.
  intros Hnp Hsk Ht Hq HX Hrows Hcols HX' Hw.
  destruct (frame_values_numeric X HX Hrows Hcols) as (HM & Hne & Hpos).
  apply numeric_frame_matrix in HX'. rewrite Hw in HX'.
  destruct (si_const_fit _ _ _ _ Hq Hpos HM Hne) as [f Hf].
  eexists. split; [apply fit_branch_ok; [done|done|rewrite Ht; by apply (fit_strategy_number _ q)|exact Hf]|].
  rewrite (transform_fitted _ _ (SConstant t) f); [|cbn; rewrite Ht; by destruct t|done].
  by rewrite (si_const_transform _ _ _ _ _ _ Hq HM Hne Hf HX').
Qed.

(** C14: with [np] bound and [sklearn.impute] loaded, a numeric treatment
    [q] (the spec's [treatment=7]) fits on numeric data and its
    [transform] of any numeric table of the same width replaces every
    missing cell by [q] and keeps every other cell. *)
Theorem constant_fill en t q s X y X' :
  np_bound en = true -> sklearn_impute_loaded en = true ->
  __init__ en t = inr s -> py_number t = Some q ->
  numeric_frame X = true -> f_index X <> [] -> f_cols X <> [] ->
  numeric_frame X' = true -> length (f_cols X') = length (f_cols X) ->
  exists s', fit en X y s = (inr tt, s') /\
    transform X' s' = (inr (OutArray (map (map (fill_nan (CNum q))) (frame_values X'))), s').
Proof. intros Hnp Hsk Hi. apply constant_fit_run; [done..|]. by apply init_inr in Hi as ->. Qed.

(** C13: with [np] bound and [sklearn.impute] loaded, the default
    treatment ["mean"] fits on a numeric table whose every column has an
    observed value, and its [transform] of any numeric table of the same
    width replaces each missing cell of column [j] by the mean of the
    observed cells of column [j] of the fitting table (line 124), keeping
    every other cell. *)
Theorem mean_fill en s X y X' :
  np_bound en = true -> sklearn_impute_loaded en = true ->
  __init__ en (PyStr "mean") = inr s ->
  numeric_frame X = true -> f_index X <> [] -> f_cols X <> [] ->
  (forall j, j < length (f_cols X) -> observed (mcol j (frame_values X)) <> []) ->
  numeric_frame X' = true -> length (f_cols X') = length (f_cols X) ->
  exists s', fit en X y s = (inr tt, s') /\
    transform X' s' =
      (inr (OutArray (map (zip_with fill_nan (col_means (length (f_cols X)) (frame_values X)))
                          (frame_values X'))), s').
Proof.
  intros Hnp Hsk Hi HX Hrows Hcols Hobs HX' Hw. apply init_inr in Hi as ->.
  destruct (frame_values_numeric X HX Hrows Hcols) as (HM & Hne & Hpos).
  apply numeric_frame_matrix in HX'. rewrite Hw in HX'.
  destruct (si_mean_fit _ _ Hpos HM Hne) as [f Hf].
  eexists. split; [by apply fit_branch_ok|].
  rewrite (transform_fitted _ _ SMean f) by done. by rewrite (si_mean_transform _ _ _ _ HM Hobs Hf HX').
Qed.

End Model.

(** ** Concrete runs on the executable SimpleImputer model *)

Definition ex_env : env := module_env true.

Definition ex_env_np : env :=
  {| np_bound := true; sklearn_impute_loaded := true; asserts_enabled := true |}.

Definition ex_Xn : frame :=
  Frame [0; 1; 2] [Column "a" DFloat64 [CNum 1; CNaN; CNum 3];
                   Column "b" DFloat64 [CNaN; CNum 5; CNum 6]].

Definition ex_Xn' : frame :=
  Frame [0; 1] [Column "a" DFloat64 [CNaN; CNum 2]; Column "b" DFloat64 [CNaN; CNaN]].

Definition ex_new (t : pyval) : nan_self :=
  match __init__ ex_env t with inr s => s | inl _ => NanSelf [] PyNone None end.

(** Spec example 7: ["bogus"] is refused with the message, [3.5] accepted. *)
Example ex_bogus_refused :
  __init__ ex_env (PyStr "bogus") = inl (AssertionError (init_message (PyStr "bogus"))) /\
  render (init_message (PyStr "bogus")) =
    Some "the treatment introduced bogus is not valid. Please use one in ['fixed_value', 'mean', 'median', 'mode', 'None']" /\
  is_ok (__init__ ex_env (PyFloat (7 # 2))) = true.
Proof. vm_compute. split_and!; reflexivity. Qed.

Lemma nan_init_validates_witness :
  asserts_enabled ex_env = true /\
  match __init__ ex_env (PyFloat (7 # 2)) with
  | inr s => ((exists u, PyFloat (7 # 2) = PyStr u /\ u ∈ allowed) \/
              py_is_number (PyFloat (7 # 2)) = true) /\
             s = NanSelf allowed (PyFloat (7 # 2)) None
  | inl e => e = AssertionError (init_message (PyFloat (7 # 2))) /\
             ~ ((exists u, PyFloat (7 # 2) = PyStr u /\ u ∈ allowed) \/
                py_is_number (PyFloat (7 # 2)) = true)
  end.
Proof. split; [reflexivity|]. apply nan_init_validates. reflexivity. Defined.


Lemma fit_fresh_fails_witness :
  __init__ (module_env false) (PyInt 7) = inr (ex_new (PyInt 7)) /\
  (fit (module_env false) ex_Xn TNone (ex_new (PyInt 7))).1 =
    inl (match fit_strategy (PyInt 7) with
         | Some _ => if false then NameError "np" else AttributeError "sklearn" "impute"
         | None => AttributeError "NaNtreatment" "treatment_method"
         end).
Proof. split; [vm_compute; reflexivity|]. apply fit_fresh_fails. vm_compute. reflexivity. Defined.

(** The default treatment on [ex_Xn]: column [a] has mean 2, column [b]
    mean 11/2. *)
Example ex_mean_output :
  (transform ex_Xn' (fit ex_env_np ex_Xn TNone (ex_new (PyStr "mean"))).2).1 =
  inr (OutArray [[CNum 2; CNum (11 # 2)]; [CNum 2; CNum (11 # 2)]]).
Proof. vm_compute. reflexivity. Qed.

Lemma mean_fill_witness :
  __init__ ex_env_np (PyStr "mean") = inr (ex_new (PyStr "mean")) /\
  exists s', fit ex_env_np ex_Xn TNone (ex_new (PyStr "mean")) = (inr tt, s') /\
    transform ex_Xn' s' =
      (inr (OutArray (map (zip_with fill_nan (col_means (length (f_cols ex_Xn)) (frame_values ex_Xn)))
                          (frame_values ex_Xn'))), s').
Proof.
  split; [vm_compute; reflexivity|].
  apply (mean_fill ex_env_np (ex_new (PyStr "mean")) ex_Xn TNone ex_Xn');
    try (vm_compute; first [reflexivity | discriminate]).
  intros j Hj. destruct j as [|[|j]]; [vm_compute; discriminate|vm_compute; discriminate|cbn in Hj; lia].
Defined.

(** An instance fitted with the mean, whose treatment is then set to the
    string ["None"] or to ["mode"] ([set_params]). *)
Definition ex_mean_fitted : nan_self :=
  Eval vm_compute in (fit ex_env_np ex_Xn TNone (ex_new (PyStr "mean"))).2.

Definition ex_method : imputer_obj :=
  Eval vm_compute in default (new_imputer SMedian) (treatment_method ex_mean_fitted).

Definition ex_set (t : pyval) : nan_self := NanSelf allowed t (Some ex_method).

Definition ex_none_out : nt_out :=
  Eval vm_compute in match (transform ex_Xn (ex_set (PyStr "None"))).1 with
                     | inr o => o | inl _ => OutFrame ex_Xn end.

Lemma none_string_not_passthrough_witness :
  treatment (ex_set (PyStr "None")) = PyStr "None" /\
  (transform ex_Xn (ex_set (PyStr "None"))).1 = inr ex_none_out /\
  exists M, ex_none_out = OutArray M.
Proof.
  split; [reflexivity|]. split; [vm_compute; reflexivity|].
  apply (none_string_not_passthrough ex_Xn (ex_set (PyStr "None"))); vm_compute; reflexivity.
Defined.

Lemma nan_transform_before_fit_witness :
  __init__ ex_env (PyStr "mean") = inr (ex_new (PyStr "mean")) /\ py_eq_none (PyStr "mean") = false /\
  transform ex_Xn (ex_new (PyStr "mean")) =
    (inl (AttributeError "NaNtreatment" "treatment_method"), ex_new (PyStr "mean")).
Proof.
  do 2 (split; [vm_compute; reflexivity|]).
  apply (nan_transform_before_fit ex_env (PyStr "mean")); vm_compute; reflexivity.
Defined.

Lemma none_passthrough_witness :
  treatment (NanSelf allowed PyNone None) = PyNone /\
  transform ex_Xn (NanSelf allowed PyNone None) = (inr (OutFrame ex_Xn), NanSelf allowed PyNone None).
Proof. split; [reflexivity|]. apply none_passthrough. reflexivity. Defined.

Lemma stale_method_refit_witness :
  fit_strategy (treatment (ex_set (PyStr "mode"))) = None /\
  treatment_method (ex_set (PyStr "mode")) = Some ex_method /\
  fit ex_env_np ex_Xn' TNone (ex_set (PyStr "mode")) =
    match imputer_fit ex_method (frame_values ex_Xn') with
    | inl e => (inl e, ex_set (PyStr "mode"))
    | inr m' => (inr tt, set_treatment_method m' (ex_set (PyStr "mode")))
    end /\
  (forall m', imputer_fit ex_method (frame_values ex_Xn') = inr m' ->
              io_strategy m' = io_strategy ex_method).
Proof.
  split; [reflexivity|]. split; [reflexivity|].
  apply stale_method_refit; reflexivity.
Defined.

(** Spec example 6: [treatment=7] fills exactly the missing cells. *)
Example ex_fill_seven :
  (fit_transform ex_env_np ex_Xn TNone (ex_new (PyInt 7))).1 =
    inr (OutArray [[CNum 1; CNum 7]; [CNum 7; CNum 5]; [CNum 3; CNum 6]]).
Proof. vm_compute. reflexivity. Qed.

Lemma constant_fill_witness :
  np_bound ex_env_np = true /\ sklearn_impute_loaded ex_env_np = true /\
  __init__ ex_env_np (PyInt 7) = inr (ex_new (PyInt 7)) /\ py_number (PyInt 7) = Some (inject_Z 7) /\
  numeric_frame ex_Xn = true /\ f_index ex_Xn <> [] /\ f_cols ex_Xn <> [] /\
  numeric_frame ex_Xn' = true /\ length (f_cols ex_Xn') = length (f_cols ex_Xn) /\
  exists s', fit ex_env_np ex_Xn TNone (ex_new (PyInt 7)) = (inr tt, s') /\
    transform ex_Xn' s' =
      (inr (OutArray (map (map (fill_nan (CNum (inject_Z 7)))) (frame_values ex_Xn'))), s').
Proof.
  do 9 (split; [vm_compute; (reflexivity || discriminate)|]).
  apply (constant_fill ex_env_np (PyInt 7) (inject_Z 7) (ex_new (PyInt 7)) ex_Xn TNone ex_Xn');
    vm_compute; (reflexivity || discriminate).
Defined.
End NaNtreatment.
