(* ===== verification/Lifecycle.v ===== *)
(** * The lifecycle of the two estimators

    Both classes inherit from sklearn's [BaseEstimator] and
    [TransformerMixin] (src/percentile.py, lines 9 and 109): a pipeline
    creates an instance with [__init__], reads and changes its parameters
    with [get_params] and [set_params], copies it with [clone], and calls [fit], [transform] and [fit_transform]
    (= [fit(X, y).transform(X)]) in any order, catching or not the
    exceptions they raise; the instance keeps the attributes written
    before an exception. This file states that lifecycle as a step
    relation on the instance (with numpy's random stream for [Encodings]),
    defines the instances reachable from [__init__], and proves invariants
    of every reachable instance by induction on reachability. *)

From S2P Require Import Prelude PyCore Pandas NumpyRandom Libraries LibraryModels Encodings NaNtreatment.
From stdpp Require Import strings.
From Stdlib Require Import QArith.

Local Open Scope nat_scope.
Local Open Scope py_scope.

Module EncodingsLifecycle.
Import Encodings.

Section Lifecycle.
Context `{CE : CategoryEncoders}.

(** [BaseEstimator.set_params(encoding_type=.., columns=.., return_categorical=..)]:
    each given parameter is stored as is, without the constructor's check. *)
Definition set_params (et cols rc : option pyval) (s : enc_self) : enc_self :=
  EncSelf (allowed_encodings s) (default (encoding_type s) et) (default (columns s) cols)
    (default (return_categorical s) rc) (categorical_cols s) (data_encode s) (enc s)
    (new_list s) (transformed s) (new_names s).

(** [BaseEstimator.get_params(deep=False)]: [getattr(self, name)] for each
    argument of [__init__] (line 15), read from the instance as it is now. *)
Definition get_params (s : enc_self) : pyval * pyval * pyval :=
  (encoding_type s, columns s, return_categorical s).

(** [sklearn.base.clone(self)]: the class's constructor called on a deep
    copy of [get_params(deep=False)], with [__init__]'s [assert] run again.
    Values are immutable in this model, so the copy is the value itself;
    clone's closing check, that the new instance's [get_params] returns
    the objects it was given (else [RuntimeError]), always passes because
    [__init__] stores them unchanged ([clone_params]). *)
Definition clone (en : env) (s : enc_self) : exc + enc_self :=
  let '(et, cols, rc) := get_params s in
  __init__ en et cols rc.

(** [TransformerMixin.fit_transform]: [self.fit(X, y).transform(X)]; [fit]
    returns [self] (line 75). *)
Definition fit_transform (en : env) (X : frame) (y : target) : PyM exc world frame :=
  do* fit en X y;
  transform X.

(** One call on the instance, whatever it returns or raises. *)
Inductive step (en : env) : world -> world -> Prop :=
| step_fit X y w : step en w (fit en X y w).2
| step_transform X w : step en w (transform X w).2
| step_set_params et cols rc w :
    step en w (World (set_params et cols rc (w_self w)) (w_rng w)).

(** The instances a program reaches from [__init__], numpy's stream
    starting at [g0]. *)
Inductive reachable (en : env) (g0 : rng) : world -> Prop :=
| reach_init et cols rc s : __init__ en et cols rc = inr s -> reachable en g0 (World s g0)
| reach_step w w' : reachable en g0 w -> step en w w' -> reachable en g0 w'.

(** ** The random stream only moves forward *)

Definition rng_rel (w w' : world) : Prop :=
  rng_draw (w_rng w') = rng_draw (w_rng w) /\ rng_pos (w_rng w) <= rng_pos (w_rng w').

#[export] Instance rng_rel_preorder : PreOrder rng_rel.
Proof.
  unfold rng_rel. split; [intros w; split; [done|lia]|].
  intros w1 w2 w3 [H1 H1'] [H2 H2']. split; [congruence|lia].
Qed.

Ltac rng_close :=
  unfold rng_rel; cbn [w_rng w_self];
  first [ split; [reflexivity|lia]
        | match goal with
          | |- context [permutation ?n ?g] =>
              destruct (permutation_draws n g) as [Hpos Hdraw]; split; [exact Hdraw|lia]
          end ].

Lemma fit_rng en X y : preserves rng_rel (fit en X y).
Proof. unfold fit. repeat (first [preserves_step ltac:(rng_close) | unfold_step]). Qed.

Lemma transform_rng X : preserves rng_rel (transform X).
Proof. unfold transform. repeat (first [preserves_step ltac:(rng_close) | unfold_step]). Qed.

Lemma step_rng en w w' : step en w w' -> rng_rel w w'.
Proof. intros []; [apply fit_rng|apply transform_rng|rng_close]. Qed.

Lemma step_params en w w' :
  step en w w' -> allowed_encodings (w_self w') = allowed_encodings (w_self w).
Proof.
  intros [X y w0|X w0|et cols rc w0]; [| |done].
  - pose proof (fit_keeps_params en X y w0) as H. unfold same_proj, params in H. congruence.
  - pose proof (transform_keeps_params X w0) as H. unfold same_proj, params in H. congruence.
Qed.

(** ** No CatBoost encoder without [np] *)

(** The instance holds no CatBoost estimator. *)
Definition no_catboost (s : enc_self) : Prop :=
  forall e, enc s = Some e -> eo_kind e <> CatBoostEncoder.

Definition no_catboost_rel (w w' : world) : Prop := no_catboost (w_self w) -> no_catboost (w_self w').

#[export] Instance no_catboost_rel_preorder : PreOrder no_catboost_rel.
Proof. unfold no_catboost_rel. split; [intros w; done|intros w1 w2 w3 H1 H2 H; auto]. Qed.

Lemma catboost_step_no_np en X y w :
  np_bound en = false -> catboost_step en X y w = (inl (NameError "np"), w).
Proof.
  intros Hnp. unfold catboost_step, draw_permutation, np_global, pbind, plift.
  by rewrite Hnp.
Qed.

(** [self.enc.fit] keeps the estimator's kind. *)
Lemma fit_encoder_no_catboost y : preserves no_catboost_rel (fit_encoder y).
Proof.
  intros [s g] Hs e He. revert He. unfold fit_encoder, pbind, self_get, plift, self_update, pmodify.
  cbn. destruct (enc s) as [e0|] eqn:He0; cbn; [|by apply Hs].
  destruct (data_encode s); cbn; [|by apply Hs].
  unfold encoder_fit. destruct (ce_fit _ _ _); cbn; [by apply Hs|].
  intros [= <-]. cbn. by apply (Hs e0).
Qed.

Ltac no_catboost_close :=
  unfold no_catboost_rel, no_catboost; cbn; intros Hw e He;
  first [ by apply Hw | injection He as <-; cbn; discriminate ].

Lemma fit_no_catboost en X y : np_bound en = false -> preserves no_catboost_rel (fit en X y).
Proof.
  intros Hnp. unfold fit.
  repeat (first [ preserves_step ltac:(no_catboost_close)
                | match goal with
                  | |- preserves _ (catboost_step _ _ _) =>
                      intros w; rewrite catboost_step_no_np by done; cbn; done
                  | |- preserves _ (fit_encoder _) => apply fit_encoder_no_catboost
                  | |- preserves _ (select_step _) => unfold select_step
                  | |- preserves _ onehot_step => unfold onehot_step
                  | |- preserves _ (onehot_check _) => unfold onehot_check
                  end ]).
Qed.

Lemma transform_no_catboost X : preserves no_catboost_rel (transform X).
Proof.
  assert (H : keeps enc (transform X)) by (unfold transform; keeps_tac).
  intros w Hw e He. apply Hw. unfold same_proj in H. by rewrite <- H.
Qed.

(** ** Invariants of the reachable instances *)


(** C10: as shipped (the module never binds [np]), no instance reachable
    from [__init__] ever holds a CatBoost estimator, whatever the calls
    and parameters: the CatBoost encoding is unusable. *)
Theorem as_shipped_no_catboost b g0 w :
  reachable (module_env b) g0 w -> no_catboost (w_self w).
Proof.
  induction 1 as [et cols rc s Hi|w w' _ IH Hstep].
  - apply enc_init_inr in Hi as ->. by intros e He.
  - destruct Hstep as [X y w0|X w0|et cols rc w0].
    + by apply fit_no_catboost.
    + by apply transform_no_catboost.
    + exact IH.
Qed.

(** [fit_transform] is a [fit] step followed, when [fit] returns, by a
    [transform] step. *)
Lemma fit_transform_reachable en g0 X y w :
  reachable en g0 w -> reachable en g0 (fit_transform en X y w).2.
Proof.
  intros Hw. unfold fit_transform, pbind.
  assert (Hf : reachable en g0 (fit en X y w).2) by (eapply reach_step; [exact Hw|constructor]).
  destruct (fit en X y w) as [[e|[]] w1]; [exact Hf|].
  eapply reach_step; [exact Hf|constructor].
Qed.

(** ** [clone] *)

(** clone's closing check: the new instance reads back the parameters it
    was built from. *)
Lemma clone_params en s s' : clone en s = inr s' -> get_params s' = get_params s.
Proof. unfold clone, get_params. intros ->%enc_init_inr. done. Qed.


End Lifecycle.
(** ** A concrete run: a CatBoost fit that raises, [set_params] to
    TargetEncoder, a fit and a transform. *)

Definition ex_w1 : world := World (ex_new "CatBoostEncoder" true) ex_rng.
Definition ex_w2 : world := (fit ex_env ex_X ex_y ex_w1).2.
Definition ex_w3 : world :=
  World (set_params (Some (PyStr "TargetEncoder")) None None (w_self ex_w2)) (w_rng ex_w2).
Definition ex_w4 : world := (fit ex_env ex_X ex_y ex_w3).2.
Definition ex_w5 : world := (transform ex_X ex_w4).2.

Lemma ex_w5_reachable : reachable ex_env ex_rng ex_w5.
Proof.
  apply (reach_step _ _ ex_w4); [|constructor].
  apply (reach_step _ _ ex_w3); [|constructor].
  apply (reach_step _ _ ex_w2); [|constructor].
  apply (reach_step _ _ ex_w1); [|constructor].
  apply (reach_init ex_env ex_rng (PyStr "CatBoostEncoder") (PyStr "All") (PyBool true)
           (ex_new "CatBoostEncoder" true)). vm_compute. reflexivity.
Qed.


Lemma as_shipped_no_catboost_witness :
  reachable (module_env true) ex_rng ex_w5 /\ no_catboost (w_self ex_w5).
Proof. split; [exact ex_w5_reachable|]. apply (as_shipped_no_catboost true ex_rng). exact ex_w5_reachable. Defined.

(** Cloning the instance of that run copies its parameters and drops what
    was fitted; after [set_params(encoding_type="Foo")] the clone raises. *)
Definition ex_w6 : enc_self := set_params (Some (PyStr "Foo")) None None (w_self ex_w5).

Example ex_clone_runs :
  reachable ex_env ex_rng (World ex_w6 (w_rng ex_w5)) /\
  clone ex_env (w_self ex_w5) = inr (ex_new "TargetEncoder" true) /\
  clone ex_env ex_w6 = inl (AssertionError (init_message (PyStr "Foo"))).
Proof.
  split; [apply (reach_step _ _ ex_w5); [exact ex_w5_reachable|constructor]|].
  split; vm_compute; reflexivity.
Qed.

End EncodingsLifecycle.

Module NaNLifecycle.
Import NaNtreatment.

Section Lifecycle.
Context `{SI : SimpleImputerLib}.

(** [BaseEstimator.set_params(treatment=..)]: stored as is, without the
    constructor's check. *)
Definition set_params (t : option pyval) (s : nan_self) : nan_self :=
  NanSelf (allowed_treatments s) (default (treatment s) t) (treatment_method s).

(** [BaseEstimator.get_params(deep=False)]: the one argument of
    [__init__] (line 113). *)
Definition get_params (s : nan_self) : pyval := treatment s.

(** [sklearn.base.clone(self)]: [NaNtreatment(treatment=deepcopy(..))] on
    the current [treatment], re-running the constructor's [assert]; the
    fitted [treatment_method] is not carried over. As for [Encodings],
    clone's identity check on the parameters always passes. *)
Definition clone (en : env) (s : nan_self) : exc + nan_self :=
  __init__ en (get_params s).

Inductive step (en : env) : nan_self -> nan_self -> Prop :=
| step_fit X y s : step en s (fit en X y s).2
| step_transform X s : step en s (transform X s).2
| step_set_params t s : step en s (set_params t s).

Inductive reachable (en : env) : nan_self -> Prop :=
| reach_init t s : __init__ en t = inr s -> reachable en s
| reach_step s s' : reachable en s -> step en s s' -> reachable en s'.

(** A constant strategy only ever carries a number as fill value. *)
Definition strategy_ok (st : strategy) : Prop :=
  match st with SConstant v => py_is_number v = true | _ => True end.

Definition method_ok (s : nan_self) : Prop :=
  allowed_treatments s = allowed /\
  forall m, treatment_method s = Some m -> strategy_ok (io_strategy m).

Lemma fit_strategy_ok t st : fit_strategy t = Some st -> strategy_ok st.
Proof.
  unfold fit_strategy.
  destruct (_ || _); [by intros [= <-]|].
  destruct (py_eq_str t "median"); [by intros [= <-]|].
  destruct (py_eq_str t "most_frequent"); [by intros [= <-]|].
  destruct (py_is_number t) eqn:Hn; [by intros [= <-]|done].
Qed.

Lemma imputer_fit_strategy m M m' : imputer_fit m M = inr m' -> io_strategy m' = io_strategy m.
Proof. unfold imputer_fit. destruct (si_fit _ _); [done|]. by intros [= <-]. Qed.

(** The state [fit] leaves: its input, the branch's new imputer, or one of
    them refitted. *)
Lemma fit_state en X y s :
  (fit en X y s).2 = s \/
  exists m, (fit en X y s).2 = set_treatment_method m s /\
    ((exists st, fit_strategy (treatment s) = Some st /\ io_strategy m = st) \/
     (exists m0, treatment_method s = Some m0 /\ io_strategy m = io_strategy m0)).
Proof.
  rewrite fit_refines. unfold fit_spec, select_method, sbind.
  destruct (fit_strategy (treatment s)) as [st|] eqn:Hst.
  - destruct (make_imputer en st) as [e|m] eqn:Hm; [by left|]. cbn.
    assert (Hio : io_strategy m = st).
    { revert Hm. unfold make_imputer, sbind.
      destruct (sklearn_impute en), (np_global en); try done. by intros [= <-]. }
    destruct (imputer_fit m (frame_values X)) as [e|m'] eqn:Hf; cbn;
      right; eexists; (split; [reflexivity|]); left; exists st; split; try done.
    + by rewrite (imputer_fit_strategy _ _ _ Hf).
  - destruct (treatment_method s) as [m0|] eqn:Hm0; cbn; [|by left].
    destruct (imputer_fit m0 _) as [e|m'] eqn:Hf; cbn; [by left|].
    right. exists m'. split; [by destruct s|]. right. exists m0.
    split; [done|]. by apply (imputer_fit_strategy _ _ _ Hf).
Qed.

(** C27: in every instance reachable from [__init__] by [set_params],
    [fit] and [transform] calls, [_allowed_treatments] keeps its value and
    every imputer held in [treatment_method] has a strategy of one of the
    four branches, a constant one carrying a number. *)
Theorem nan_reachable_method_ok en s : reachable en s -> method_ok s.
Proof.
  induction 1 as [t s Hi|s s' _ [Ha IH] Hstep].
  - apply init_inr in Hi as ->. split; [done|]. by intros m.
  - destruct Hstep as [X y s|X s|t s].
    + destruct (fit_state en X y s) as [->|(m & -> & Hm)]; [done|].
      split; [done|]. intros m' [= <-].
      destruct Hm as [(st & Hst & ->)|(m0 & Hm0 & ->)].
      * by apply (fit_strategy_ok (treatment s)).
      * by apply IH.
    + by rewrite transform_state.
    + done.
Qed.

(** C9: as shipped (the module never binds [np]), no instance reachable
    from [__init__] ever holds an imputer, whatever the calls and
    parameters, so every [transform] raises [AttributeError] unless the
    treatment is [None]. *)
Theorem as_shipped_no_imputer b s :
  reachable (module_env b) s ->
  treatment_method s = None /\
  (py_eq_none (treatment s) = false -> forall X,
     transform X s = (inl (AttributeError "NaNtreatment" "treatment_method"), s)).
Proof.
  intros Hr. assert (Hm : treatment_method s = None).
  { induction Hr as [t s Hi|s s' _ IH Hstep].
    - by apply init_inr in Hi as ->.
    - destruct Hstep as [X y s|X s|t s]; [|by rewrite transform_state|done].
      rewrite fit_refines. unfold fit_spec, select_method, sbind, make_imputer,
        sklearn_impute, np_global. cbn.
      destruct (fit_strategy _); [by destruct b|]. cbn. by rewrite IH. }
  split; [done|]. intros Hn X. unfold transform, pbind, pget, plift. cbn.
  by rewrite Hn, Hm.
Qed.

Context {SIL : SimpleImputerLaws}.

(** C15: with [np] bound and [sklearn.impute] loaded, no reachable instance
    is stuck: from any of them, [set_params(treatment=v)] with a number [v]
    followed by [fit] on numeric data succeeds and reaches an instance
    whose [transform] of any numeric table of the same width fills every
    missing cell with [v]. *)
Theorem nan_recoverable en s v q X y X' :
  np_bound en = true -> sklearn_impute_loaded en = true ->
  reachable en s -> py_number v = Some q ->
  numeric_frame X = true -> f_index X <> [] -> f_cols X <> [] ->
  numeric_frame X' = true -> length (f_cols X') = length (f_cols X) ->
  let s' := (fit en X y (set_params (Some v) s)).2 in
  reachable en s' /\ (fit en X y (set_params (Some v) s)).1 = inr tt /\
  transform X' s' = (inr (OutArray (map (map (fill_nan (CNum q))) (frame_values X'))), s').
Proof.
  intros Hnp Hsk Hr Hq HX Hrows Hcols HX' Hw s'.
  destruct (constant_fit_run en v q (set_params (Some v) s) X y X')
    as (s1 & Hfit & Ht); [done..|].
  subst s'. rewrite Hfit. split_and!; [|done|done].
  rewrite <- Hfit. apply (reach_step _ (set_params (Some v) s)); [|constructor].
  apply (reach_step _ s); [done|constructor].
Qed.

(** clone's closing check for [NaNtreatment]. *)
Lemma nan_clone_params en s s' : clone en s = inr s' -> get_params s' = get_params s.
Proof. unfold clone, get_params. intros ->%init_inr. done. Qed.


End Lifecycle.
(** ** Concrete runs *)

(** As shipped: [fit] raises, [set_params(treatment="mode")], [transform]. *)
Definition ex_s1 : nan_self := ex_new (PyStr "mean").
Definition ex_s2 : nan_self := (fit ex_env ex_Xn TNone ex_s1).2.
Definition ex_s3 : nan_self := set_params (Some (PyStr "mode")) ex_s2.
Definition ex_s4 : nan_self := (transform ex_Xn ex_s3).2.

Lemma ex_s4_reachable : reachable ex_env ex_s4.
Proof.
  apply (reach_step _ ex_s3); [|constructor].
  apply (reach_step _ ex_s2); [|constructor].
  apply (reach_step _ ex_s1); [|constructor].
  apply (reach_init ex_env (PyStr "mean") ex_s1). vm_compute. reflexivity.
Qed.

Lemma as_shipped_no_imputer_witness :
  reachable (module_env true) ex_s4 /\
  treatment_method ex_s4 = None /\
  (py_eq_none (treatment ex_s4) = false -> forall X,
     transform X ex_s4 = (inl (AttributeError "NaNtreatment" "treatment_method"), ex_s4)).
Proof. split; [exact ex_s4_reachable|]. apply (as_shipped_no_imputer true). exact ex_s4_reachable. Defined.

(** With [np] bound: a mean fit, [set_params(treatment=7)], a constant fit. *)
Definition ex_t2 : nan_self := (fit ex_env_np ex_Xn TNone (ex_new (PyStr "mean"))).2.
Definition ex_t3 : nan_self := set_params (Some (PyInt 7)) ex_t2.
Definition ex_t4 : nan_self := (fit ex_env_np ex_Xn TNone ex_t3).2.

Lemma ex_t4_reachable : reachable ex_env_np ex_t4.
Proof.
  apply (reach_step _ ex_t3); [|constructor].
  apply (reach_step _ ex_t2); [|constructor].
  apply (reach_step _ (ex_new (PyStr "mean"))); [|constructor].
  apply (reach_init ex_env_np (PyStr "mean") (ex_new (PyStr "mean"))). vm_compute. reflexivity.
Qed.

Lemma nan_reachable_method_ok_witness : reachable ex_env_np ex_t4 /\ method_ok ex_t4.
Proof. split; [exact ex_t4_reachable|]. apply (nan_reachable_method_ok ex_env_np). exact ex_t4_reachable. Defined.

(** Then [set_params(treatment="mode")], a value the constructor rejects. *)
Definition ex_u : nan_self := set_params (Some (PyStr "mode")) ex_t4.

Lemma ex_u_reachable : reachable ex_env_np ex_u.
Proof. apply (reach_step _ ex_t4); [exact ex_t4_reachable|constructor]. Qed.

Lemma nan_recoverable_witness :
  let s' := (fit ex_env_np ex_Xn TNone (set_params (Some (PyInt 3)) ex_u)).2 in
  reachable ex_env_np s' /\ (fit ex_env_np ex_Xn TNone (set_params (Some (PyInt 3)) ex_u)).1 = inr tt /\
  transform ex_Xn s' = (inr (OutArray (map (map (fill_nan (CNum 3))) (frame_values ex_Xn))), s').
Proof.
  apply (nan_recoverable ex_env_np ex_u (PyInt 3) 3 ex_Xn TNone ex_Xn);
    try (vm_compute; first [reflexivity | discriminate]).
  exact ex_u_reachable.
Defined.

(** The clone of the fitted [ex_t4] holds no imputer; after
    [set_params(treatment="most_frequent")], a value [fit] handles but the
    constructor refuses, the clone raises. *)
Definition ex_t5 : nan_self := set_params (Some (PyStr "most_frequent")) ex_t4.

Example ex_nan_clone_runs :
  reachable ex_env_np ex_t5 /\ treatment_method ex_t4 <> None /\
  clone ex_env_np ex_t4 = inr (NanSelf allowed (PyInt 7) None) /\
  clone ex_env_np ex_t5 = inl (AssertionError (init_message (PyStr "most_frequent"))).
Proof.
  split; [apply (reach_step _ ex_t4); [exact ex_t4_reachable|constructor]|].
  split_and!; [vm_compute; discriminate|vm_compute; reflexivity..].
Qed.

End NaNLifecycle.
