(* ===== verification/Pipeline.v ===== *)
(** * A pipeline of the two estimators

    The spec's deployment: an external orchestrator (sklearn's [Pipeline])
    runs [Encodings] and then [NaNtreatment] on the same table.
    [Pipeline.fit_transform(X, y)] calls [fit_transform(X, y)] of the first
    step and [fit_transform(Xt, y)] of the last one on the first step's
    output [Xt]. The two classes never call each other; the pipeline is
    their only composition. This file states it and proves that the
    encoder's output with [return_categorical=False] is a valid input of a
    numeric [NaNtreatment]: the pipeline then returns the table with every
    missing cell filled and nothing else changed. *)

From S2P Require Import Prelude PyCore Pandas NumpyRandom Libraries LibraryModels Encodings NaNtreatment Lifecycle.
From stdpp Require Import strings.
From Stdlib Require Import QArith.

Local Open Scope nat_scope.
Local Open Scope py_scope.

Module Pipeline.

Section Pipeline.
Context `{CE : CategoryEncoders} `{SI : SimpleImputerLib}.

(** [Pipeline([("enc", Encodings(..)), ("nan", NaNtreatment(..))]).fit_transform(X, y)]:
    the state of both steps after the call. *)
Definition pipeline_fit_transform (en : env) (X : frame) (y : target)
    (p : Encodings.world * NaNtreatment.nan_self)
  : (exc + NaNtreatment.nt_out) * (Encodings.world * NaNtreatment.nan_self) :=
  let (r1, w') := EncodingsLifecycle.fit_transform en X y p.1 in
  match r1 with
  | inl e => (inl e, (w', p.2))
  | inr Xt =>
      let (r2, s') := NaNtreatment.fit_transform en Xt y p.2 in
      (r2, (w', s'))
  end.

(** The first step's output is a [transform] on an instance with the
    parameters the pipeline gave it. *)
Lemma enc_fit_transform_out en X y w Xt :
  (EncodingsLifecycle.fit_transform en X y w).1 = inr Xt ->
  exists w1, (Encodings.transform X w1).1 = inr Xt /\
             Encodings.params (Encodings.w_self w1) = Encodings.params (Encodings.w_self w).
Proof.
  unfold EncodingsLifecycle.fit_transform, pbind.
  pose proof (Encodings.fit_keeps_params en X y w) as Hp. unfold Encodings.same_proj in Hp.
  destruct (Encodings.fit en X y w) as [[e|[]] w1]; [done|]. intros H. by exists w1.
Qed.

Context {CEL : CategoryEncodersLaws} {SIL : SimpleImputerLaws}.

(** C12: with [np] bound and [sklearn.impute] loaded, a pipeline of an
    [Encodings] step with [return_categorical=False] and a [NaNtreatment]
    step with a numeric treatment [q], run on a table whose numeric
    columns hold numbers or missing values (and with no boolean column),
    succeeds whenever the encoder step does and leaves a non-empty
    output: the imputer fits on the encoder's output, fills every missing
    cell with [q], keeps every other cell, and no missing value remains. *)
Theorem pipeline_no_missing en X y w s t q Xt :
  np_bound en = true -> sklearn_impute_loaded en = true ->
  py_truthy (Encodings.return_categorical (Encodings.w_self w)) = false ->
  frame_clean X = true -> f_index X <> [] ->
  (EncodingsLifecycle.fit_transform en X y w).1 = inr Xt -> f_cols Xt <> [] ->
  NaNtreatment.__init__ en t = inr s -> py_number t = Some q ->
  exists p',
    pipeline_fit_transform en X y (w, s) =
      (inr (NaNtreatment.OutArray (map (map (fill_nan (CNum q))) (frame_values Xt))), p') /\
    Forall (Forall (fun x => x <> CNaN)) (map (map (fill_nan (CNum q))) (frame_values Xt)).
Proof.
  intros Hnp Hsk Htr HX Hrows Hft Hcols Hi Hq.
  destruct (enc_fit_transform_out _ _ _ _ _ Hft) as (w1 & Ht & Hp).
  assert (Htr1 : py_truthy (Encodings.return_categorical (Encodings.w_self w1)) = false).
  { unfold Encodings.params in Hp. injection Hp as _ _ _ ->. exact Htr. }
  destruct (Encodings.transform_numeric_frame X w1 Xt HX Htr1 Ht) as [Hnum Hidx].
  apply NaNtreatment.init_inr in Hi as Hi.
  destruct (NaNtreatment.constant_fit_run en t q s Xt y Xt Hnp Hsk ltac:(by subst s) Hq Hnum)
    as (s' & Hfit & Htrans); [by rewrite Hidx|done|done|done|].
  unfold pipeline_fit_transform. cbn [fst].
  destruct (EncodingsLifecycle.fit_transform en X y w) as [r1 w'].
  cbn in Hft. subst r1. cbn [fst snd].
  unfold NaNtreatment.fit_transform, pbind. rewrite Hfit, Htrans.
  eexists. split; [reflexivity|].
  apply Forall_forall. intros row Hrow. apply list_elem_of_In, in_map_iff in Hrow as (r & <- & _).
  apply Forall_forall. intros x Hx. apply list_elem_of_In, in_map_iff in Hx as (c & <- & _).
  by apply fill_nan_not_nan.
Qed.

End Pipeline.

(** ** A concrete run: TargetEncoder without the text columns, then
    [treatment=7], on the spec's end-to-end table. *)

Definition ex_w : Encodings.world := Encodings.World (Encodings.ex_new "TargetEncoder" false) Encodings.ex_rng.

Definition ex_Xt : frame :=
  Eval vm_compute in
    Encodings.frame_of (EncodingsLifecycle.fit_transform Encodings.ex_env_np Encodings.ex_X Encodings.ex_y ex_w).1.

Definition ex_s : NaNtreatment.nan_self := NaNtreatment.ex_new (PyInt 7).

(** The encoded column and the numeric column, the missing cell filled. *)
Example ex_pipeline :
  (pipeline_fit_transform Encodings.ex_env_np Encodings.ex_X Encodings.ex_y (ex_w, ex_s)).1 =
    inr (NaNtreatment.OutArray [[CNum 0; CNum 1]; [CNum 1; CNum 7]; [CNum 0; CNum 3]]).
Proof. vm_compute. reflexivity. Qed.

Lemma pipeline_no_missing_witness :
  np_bound Encodings.ex_env_np = true /\ sklearn_impute_loaded Encodings.ex_env_np = true /\
  py_truthy (Encodings.return_categorical (Encodings.w_self ex_w)) = false /\
  frame_clean Encodings.ex_X = true /\ f_index Encodings.ex_X <> [] /\
  (EncodingsLifecycle.fit_transform Encodings.ex_env_np Encodings.ex_X Encodings.ex_y ex_w).1 = inr ex_Xt /\
  f_cols ex_Xt <> [] /\
  NaNtreatment.__init__ Encodings.ex_env_np (PyInt 7) = inr ex_s /\ py_number (PyInt 7) = Some (inject_Z 7) /\
  exists p',
    pipeline_fit_transform Encodings.ex_env_np Encodings.ex_X Encodings.ex_y (ex_w, ex_s) =
      (inr (NaNtreatment.OutArray (map (map (fill_nan (CNum (inject_Z 7)))) (frame_values ex_Xt))), p') /\
    Forall (Forall (fun x => x <> CNaN)) (map (map (fill_nan (CNum (inject_Z 7)))) (frame_values ex_Xt)).
Proof.
  do 9 (split; [vm_compute; (reflexivity || discriminate)|]).
  apply (pipeline_no_missing Encodings.ex_env_np Encodings.ex_X Encodings.ex_y ex_w ex_s (PyInt 7));
    vm_compute; (reflexivity || discriminate).
Defined.
End Pipeline.
