(* ===== verification/RandomState.v ===== *)
(** * Results that do not depend on numpy's random state

    For a CatBoostEncoder, [Encodings.fit] draws
    [np.random.permutation(len(X))] and reorders the selected rows and the
    target with it before [self.enc.fit] (src/percentile.py, lines 57-60).
    The module never passes a target to [self.enc.transform] (line 92),
    and a CatBoostEncoder transforms a table without target from the count
    and target sum of each category, which no reordering changes
    ([ce_fit_rows_perm] in [Libraries.v]). This file proves that two
    instances alike but for numpy's stream, [data_encode] and fitted
    encoders that transform alike give the same results to any sequence
    of [fit], [transform], [fit_transform] and [set_params] calls: the
    permutation changes nothing a caller sees, only the position of the
    global stream and the row order of [self.data_encode].

    The proof is a two-run simulation. [simR] relates two programs run
    from related instances: their results are equal, or related for the
    library objects they return, and the instances after them are related
    again; its rules follow the monad's combinators, and the CatBoost
    branch, the one place the runs differ, is computed in closed form. *)

From S2P Require Import Prelude PyCore Pandas NumpyRandom Libraries LibraryModels Encodings Lifecycle.
From stdpp Require Import strings.

Module RandomState.
Import Encodings.

Section Relations.
Context `{CE : CategoryEncoders}.

(** Two encoder objects of one kind, unfitted, or fitted to transform alike. *)
Definition obj_equiv (o o' : encoder_obj) : Prop :=
  eo_kind o = eo_kind o' /\ option_Forall2 fitted_equiv (eo_fitted o) (eo_fitted o').

#[export] Instance obj_equiv_equivalence : Equivalence obj_equiv.
Proof.
  unfold obj_equiv. split.
  - intros o. split; [done|reflexivity].
  - intros o o' [Hk Hf]. split; [done|by symmetry].
  - intros o1 o2 o3 [Hk Hf] [Hk' Hf']. split; [congruence|by etrans].
Qed.

(** The attributes other than [data_encode] and [enc]. *)
Definition view (s : enc_self) :=
  (allowed_encodings s, encoding_type s, columns s, return_categorical s,
   categorical_cols s, new_list s, transformed s, new_names s).

(** Two instances alike but for [data_encode] and encoders that transform alike. *)
Definition self_rel (s s' : enc_self) : Prop :=
  view s = view s' /\ option_Forall2 obj_equiv (enc s) (enc s').

#[export] Instance self_rel_equivalence : Equivalence self_rel.
Proof.
  unfold self_rel. split.
  - intros s. split; reflexivity.
  - intros s s' [Hv He]. split; by symmetry.
  - intros s1 s2 s3 [Hv He] [Hv' He']. split; by etrans.
Qed.

(** ... with the same [data_encode], the encoding type satisfying [P]. *)
Definition rel (P : pyval -> Prop) (s s' : enc_self) : Prop :=
  self_rel s s' /\ data_encode s = data_encode s' /\ P (encoding_type s).

Lemma rel_fields P s s' :
  rel P s s' ->
  allowed_encodings s' = allowed_encodings s /\ encoding_type s' = encoding_type s /\
  columns s' = columns s /\ return_categorical s' = return_categorical s /\
  categorical_cols s' = categorical_cols s /\ new_list s' = new_list s /\
  transformed s' = transformed s /\ new_names s' = new_names s /\
  data_encode s' = data_encode s.
Proof. intros [[Hv _] [Hd _]]. unfold view in Hv. injection Hv. intros. by split_and!. Qed.

(** [self.enc] of two related instances, as [attr] reads it. *)
Lemma attr_enc_rel P s s' :
  rel P s s' -> sum_relation eq obj_equiv (attr (enc s) "enc") (attr (enc s') "enc").
Proof. intros [[_ He] _]. destruct He; by constructor. Qed.

Lemma encoder_transform_equiv e e' d :
  obj_equiv e e' -> encoder_transform e' d = encoder_transform e d.
Proof. intros [_ Hf]. unfold encoder_transform. by destruct Hf. Qed.

(** [fit] builds its estimator afresh from the kind. *)
Lemma encoder_fit_equiv e e' d y :
  obj_equiv e e' -> encoder_fit e' d y = encoder_fit e d y.
Proof. intros [Hk _]. unfold encoder_fit. by rewrite Hk. Qed.
End Relations.

(** Each attribute write keeps two instances related. *)
Ltac rel_tac :=
  unfold rel, self_rel, view in *; cbn in *;
  intuition (first [congruence | reflexivity | by constructor | idtac]).

Section Sim.
Context `{CE : CategoryEncoders} (P : pyval -> Prop).

(** Run from two related instances, whatever their streams, [m] and [m']
    return equal errors and values related by [RA], and leave related
    instances. *)
Definition simR {A} (RA : relation A) (m m' : PyM exc world A) : Prop :=
  forall w w', rel P (w_self w) (w_self w') ->
    sum_relation eq RA (m w).1 (m' w').1 /\ rel P (w_self (m w).2) (w_self (m' w').2).

Lemma simR_bind {A B} (RA : relation A) (RB : relation B) m m' (k k' : A -> PyM exc world B) :
  simR RA m m' -> (forall a a', RA a a' -> simR RB (k a) (k' a')) ->
  simR RB (pbind m k) (pbind m' k').
Proof.
  intros Hm Hk w w' Hw. unfold pbind. destruct (Hm w w' Hw) as [Hr Hs].
  destruct (m w) as [r w1], (m' w') as [r' w1']. cbn in *.
  destruct Hr as [e e' <-|a a' Ha]; [by split; [constructor|]|by apply Hk].
Qed.

Lemma simR_ret {A} (RA : relation A) a a' : RA a a' -> simR RA (pret a) (pret a').
Proof. intros Ha w w' Hw. split; [by constructor|done]. Qed.

Lemma simR_lift {A} (RA : relation A) (r r' : exc + A) :
  sum_relation eq RA r r' -> simR RA (plift r) (plift r').
Proof. intros Hr w w' Hw. by split. Qed.

Lemma simR_self_get : simR (rel P) self_get self_get.
Proof. intros w w' Hw. split; [by constructor|done]. Qed.

Lemma simR_update f f' :
  (forall s s', rel P s s' -> rel P (f s) (f' s')) -> simR eq (self_update f) (self_update f').
Proof. intros Hf w w' Hw. split; [by constructor|by apply Hf]. Qed.

Lemma simR_pfor {A} (l : list A) body body' :
  (forall a, simR eq (body a) (body' a)) -> simR eq (pfor l body) (pfor l body').
Proof.
  intros Hb. induction l as [|a l IH]; cbn; [by apply simR_ret|].
  apply (simR_bind eq); [apply Hb|]. by intros ? ? <-.
Qed.

(** Two related runs of one program return the same thing. *)
Lemma simR_use {A} (m : PyM exc world A) w w' :
  simR eq m m -> rel P (w_self w) (w_self w') ->
  (m w).1 = (m w').1 /\ self_rel (w_self (m w).2) (w_self (m w').2).
Proof.
  intros Hm Hw. destruct (Hm w w' Hw) as [Hr [Hs _]]. split; [|done].
  by destruct Hr as [e e' <-|a a' <-].
Qed.
End Sim.

Definition not_cb (v : pyval) : Prop := py_eq_str v "CatBoostEncoder" = false.

Lemma rel_not_cb `{CE : CategoryEncoders} s s' :
  rel not_cb s s' -> py_eq_str (encoding_type s) "CatBoostEncoder" = false.
Proof. by intros (_ & _ & H). Qed.

Lemma self_rel_columns `{CE : CategoryEncoders} s s' : self_rel s s' -> columns s' = columns s.
Proof. intros [Hv _]. unfold view in Hv. by injection Hv. Qed.

Lemma self_rel_et `{CE : CategoryEncoders} s s' : self_rel s s' -> encoding_type s' = encoding_type s.
Proof. intros [Hv _]. unfold view in Hv. by injection Hv. Qed.

(** One rule of a two-run simulation. *)
Ltac sim_step :=
  match goal with
  | |- simR _ _ (pbind self_get _) (pbind self_get _) =>
      eapply simR_bind; [apply simR_self_get|];
      let s := fresh "s" in let s' := fresh "s'" in let Hs := fresh "Hs" in
      intros s s' Hs;
      let H1 := fresh in let H2 := fresh in let H3 := fresh in let H4 := fresh in
      let H5 := fresh in let H6 := fresh in let H7 := fresh in let H8 := fresh in
      let H9 := fresh in
      destruct (rel_fields _ _ _ Hs) as (H1 & H2 & H3 & H4 & H5 & H6 & H7 & H8 & H9);
      rewrite ?H1, ?H2, ?H3, ?H4, ?H5, ?H6, ?H7, ?H8, ?H9; clear H1 H2 H3 H4 H5 H6 H7 H8 H9
  | |- simR _ _ (pbind (plift (attr (enc _) _)) _) (pbind (plift (attr (enc _) _)) _) =>
      eapply (simR_bind _ obj_equiv); [apply simR_lift; eapply attr_enc_rel; eassumption|];
      intros ?e ?e' ?He
  | |- simR _ _ (pbind (plift (encoder_transform ?e ?d)) _) (pbind (plift (encoder_transform ?e' ?d)) _) =>
      rewrite (encoder_transform_equiv e e' d) by assumption
  | |- simR _ _ (pbind (plift (encoder_fit ?e ?d ?y)) _) (pbind (plift (encoder_fit ?e' ?d ?y)) _) =>
      rewrite (encoder_fit_equiv e e' d y) by assumption
  | Hs : rel not_cb ?s _ |- context [py_eq_str (encoding_type ?s) "CatBoostEncoder"] =>
      rewrite (rel_not_cb _ _ Hs)
  | |- simR _ _ (pbind _ _) (pbind _ _) => eapply (simR_bind _ eq); [|intros ? ? <-]
  | |- simR _ _ (pret _) (pret _) => by apply simR_ret
  | |- simR _ _ (plift _) (plift _) => apply simR_lift; reflexivity
  | |- simR _ _ (self_update _) (self_update _) => apply simR_update; intros ? ? ?; rel_tac
  | |- simR _ _ (pfor _ _) (pfor _ _) => apply simR_pfor; intros
  | |- simR _ _ (if ?b then _ else _) (if ?b then _ else _) => destruct b
  | |- simR _ _ onehot_step _ => unfold onehot_step
  | |- simR _ _ (onehot_check _) _ => unfold onehot_check
  | |- simR _ _ (fit_encoder _) _ => unfold fit_encoder
  | |- simR _ _ (rename_one _) _ => unfold rename_one
  end.

Section Runs.
Context `{CE : CategoryEncoders}.

(** Run from two related instances, whatever their streams, [m] returns
    the same result and leaves related instances. *)
Definition agree {A} (m : PyM exc world A) : Prop :=
  forall s s' g g', self_rel s s' ->
    (m (World s g)).1 = (m (World s' g')).1 /\
    self_rel (w_self (m (World s g)).2) (w_self (m (World s' g')).2).

Lemma agree_bind {A B} (m : PyM exc world A) (k : A -> PyM exc world B) :
  agree m -> (forall a, agree (k a)) -> agree (pbind m k).
Proof.
  intros Hm Hk s s' g g' Hs. unfold pbind. destruct (Hm s s' g g' Hs) as [Hr Hs1].
  destruct (m (World s g)) as [r [s1 g1]], (m (World s' g')) as [r' [s1' g1']].
  cbn in *. subst r'. destruct r as [e|a]; [done|]. by apply Hk.
Qed.

Lemma agree_ret {A} (a : A) : agree (pret a).
Proof. intros s s' g g' Hs. by split. Qed.

Lemma agree_update f : (forall s s', self_rel s s' -> self_rel (f s) (f s')) -> agree (self_update f).
Proof. intros Hf s s' g g' Hs. split; [done|by apply Hf]. Qed.

(** [select_step] writes [categorical_cols] and, when [X[..]] succeeds,
    the same [data_encode] into both instances: a continuation that
    simulates from instances with the same [data_encode] runs alike. *)
Lemma select_then_sim {A} P X (k : unit -> PyM exc world A) s s' g g' :
  self_rel s s' -> P (encoding_type s) -> simR P eq (k tt) (k tt) ->
  (pbind (select_step X) k (World s g)).1 = (pbind (select_step X) k (World s' g')).1 /\
  self_rel (w_self (pbind (select_step X) k (World s g)).2)
           (w_self (pbind (select_step X) k (World s' g')).2).
Proof.
  intros Hs HP Hk. unfold pbind. rewrite !select_step_run. cbn [w_self w_rng].
  rewrite (self_rel_columns _ _ Hs).
  destruct (getitem X (categorical_of (columns s) X)) as [e|d]; [split; [done|rel_tac]|].
  apply (simR_use P); [exact Hk|rel_tac].
Qed.

(** [transform] from two related instances. *)
Lemma transform_agree X : agree (transform X).
Proof.
  intros s s' g g' Hs. apply (select_then_sim (fun _ => True)); [done|done|]. cbv beta. repeat sim_step.
Qed.

(** [fit] from two related instances, when the encoding type is not CatBoost. *)
Lemma fit_sim_not_cb en X y s s' g g' :
  self_rel s s' -> py_eq_str (encoding_type s) "CatBoostEncoder" = false ->
  (fit en X y (World s g)).1 = (fit en X y (World s' g')).1 /\
  self_rel (w_self (fit en X y (World s g)).2) (w_self (fit en X y (World s' g')).2).
Proof.
  intros Hs Hcb. apply (select_then_sim not_cb); [done|done|]. cbv beta. repeat sim_step.
Qed.

Lemma py_eq_str_true v t : py_eq_str v t = true -> v = PyStr t.
Proof. destruct v; try done. cbn. by intros ->%String.eqb_eq. Qed.

(** [fit] of a CatBoostEncoder (lines 34-41, 57-60, 74), every exception
    included. *)
Lemma fit_catboost_run en X y w :
  py_eq_str (encoding_type (w_self w)) "CatBoostEncoder" = true ->
  let c := categorical_of (columns (w_self w)) X in
  let s0 := set_categorical_cols c (w_self w) in
  fit en X y w =
    match getitem X c with
    | inl e => (inl e, World s0 (w_rng w))
    | inr d =>
      let s1 := set_data_encode d s0 in
      match np_global en with
      | inl e => (inl e, World s1 (w_rng w))
      | inr _ =>
        let pg := permutation (length (f_index X)) (w_rng w) in
        match iloc d pg.1 with
        | inl e => (inl e, World s1 pg.2)
        | inr d' =>
          let s2 := set_data_encode (reset_index d') s1 in
          match target_iloc_reset y pg.1 with
          | inl e => (inl e, World s2 pg.2)
          | inr y' =>
            let s3 := set_enc (new_encoder CatBoostEncoder) s2 in
            match ce_fit CatBoostEncoder (reset_index d') y' with
            | inl e => (inl e, World s3 pg.2)
            | inr m => (inr tt, World (set_enc (EncoderObj CatBoostEncoder (Some m)) s3) pg.2)
            end
          end
        end
      end
    end.
Proof.
  intros Het%py_eq_str_true c s0. subst c s0. unfold fit. unfold pbind at 1. rewrite select_step_run.
  destruct (getitem X _) as [e|d]; [done|].
  unfold catboost_step, draw_permutation, fit_encoder, encoder_fit, np_global, pd_len,
    pbind, self_get, self_update, pmodify, plift, pret.
  cbn. rewrite Het. cbn. destruct (np_bound en); cbn; [|done].
  destruct (permutation _ (w_rng w)) as [p g]. cbn.
  destruct (iloc d p); cbn; [done|]. destruct (target_iloc_reset y p); cbn; [done|].
  by destruct (ce_fit _ _ _).
Qed.

Context {CEL : CategoryEncodersLaws}.

(** [fit] of a CatBoostEncoder from two related instances, whatever
    permutations the two streams draw. *)
Lemma fit_sim_cb en X y s s' g g' :
  self_rel s s' -> py_eq_str (encoding_type s) "CatBoostEncoder" = true ->
  (fit en X y (World s g)).1 = (fit en X y (World s' g')).1 /\
  self_rel (w_self (fit en X y (World s g)).2) (w_self (fit en X y (World s' g')).2).
Proof.
  intros Hs Hcb.
  rewrite (fit_catboost_run en X y (World s g)) by exact Hcb.
  rewrite (fit_catboost_run en X y (World s' g')) by (cbn; by rewrite (self_rel_et _ _ Hs)).
  cbn [w_self w_rng]. rewrite (self_rel_columns _ _ Hs).
  destruct (getitem X _) as [e|d]; [split; [done|rel_tac]|].
  destruct (np_global en); [split; [done|rel_tac]|].
  set (n := length (f_index X)).
  assert (Hpp : (permutation n g).1 ≡ₚ (permutation n g').1)
    by (etrans; [apply permutation_is_perm|symmetry; apply permutation_is_perm]).
  set (p := (permutation n g).1) in *. set (p' := (permutation n g').1) in *.
  pose proof (iloc_perm_cases d p p' Hpp) as Hi.
  destruct (iloc d p) as [e|dp] eqn:Hdp, (iloc d p') as [e'|dp'] eqn:Hdp';
    inversion Hi; subst; [split; [done|rel_tac]|].
  pose proof (target_iloc_reset_perm_cases y p p' Hpp) as Ht.
  destruct (target_iloc_reset y p) as [e|yp] eqn:Hyp, (target_iloc_reset y p') as [e'|yp'] eqn:Hyp';
    inversion Ht; subst; [split; [done|rel_tac]|].
  pose proof (ce_fit_rows_perm d y p p' dp dp' yp yp' Hpp Hdp Hdp' Hyp Hyp') as Hf.
  destruct (ce_fit CatBoostEncoder (reset_index dp) yp) as [e|m],
    (ce_fit CatBoostEncoder (reset_index dp') yp') as [e'|m'];
    inversion Hf; subst; (split; [done|]); rel_tac.
  constructor. split; [done|by constructor].
Qed.

(** [fit] from two related instances. *)
Lemma fit_agree en X y : agree (fit en X y).
Proof.
  intros s s' g g' Hs. destruct (py_eq_str (encoding_type s) "CatBoostEncoder") eqn:Hcb;
    [by apply fit_sim_cb|by apply fit_sim_not_cb].
Qed.

(** ** Sequences of calls *)

(** A call a pipeline makes on the instance. [fit] and [set_params]
    return the instance itself, written [None] here. *)
Inductive call :=
| CFit (X : frame) (y : target)
| CTransform (X : frame)
| CFitTransform (X : frame) (y : target)
| CSetParams (et cols rc : option pyval).

Definition run_call (en : env) (c : call) : PyM exc world (option frame) :=
  match c with
  | CFit X y => pbind (fit en X y) (fun _ => pret None)
  | CTransform X => pbind (transform X) (fun t => pret (Some t))
  | CFitTransform X y => pbind (EncodingsLifecycle.fit_transform en X y) (fun t => pret (Some t))
  | CSetParams et cols rc =>
      pbind (self_update (EncodingsLifecycle.set_params et cols rc)) (fun _ => pret None)
  end.

(** The calls in order, the caller catching every exception and going on. *)
Fixpoint run_calls (en : env) (cs : list call) (w : world) : list (exc + option frame) * world :=
  match cs with
  | [] => ([], w)
  | c :: cs' =>
      let (r, w1) := run_call en c w in
      let (rs, w2) := run_calls en cs' w1 in
      (r :: rs, w2)
  end.

Lemma run_call_agree en c : agree (run_call en c).
Proof.
  destruct c as [X y|X|X y|et cols rc]; cbn [run_call];
    (apply agree_bind; [|intros; apply agree_ret]).
  - apply fit_agree.
  - apply transform_agree.
  - apply agree_bind; [apply fit_agree|intros; apply transform_agree].
  - apply agree_update. intros s s' Hs. unfold EncodingsLifecycle.set_params. rel_tac.
Qed.

Lemma run_calls_agree en cs s s' g g' :
  self_rel s s' -> (run_calls en cs (World s g)).1 = (run_calls en cs (World s' g')).1.
Proof.
  revert s s' g g'. induction cs as [|c cs IH]; intros s s' g g' Hs; cbn; [done|].
  destruct (run_call_agree en c s s' g g' Hs) as [Hr Hs1].
  destruct (run_call en c (World s g)) as [r [s1 g1]], (run_call en c (World s' g')) as [r' [s1' g1']].
  cbn in *. subst r'. specialize (IH s1 s1' g1 g1' Hs1).
  destruct (run_calls en cs (World s1 g1)), (run_calls en cs (World s1' g1')). cbn in *. by subst.
Qed.

End Runs.

(** ** A concrete run

    Two streams that draw different permutations for the three rows of
    [ex_X]: the fitted instances hold differently ordered [data_encode],
    and the calls return the same results. *)

Definition ex_rng' : rng := Rng (fun n => 7 * n + 2) 0.

Definition ex_calls : list call :=
  [CFit ex_X ex_y; CTransform ex_X; CSetParams None None (Some (PyBool false)); CFitTransform ex_X ex_y].

Definition ex_cb_new : enc_self := ex_new "CatBoostEncoder" true.

Example ex_streams_differ :
  (permutation 3 ex_rng).1 <> (permutation 3 ex_rng').1 /\
  data_encode (w_self (fit ex_env_np ex_X ex_y (World ex_cb_new ex_rng)).2) <>
  data_encode (w_self (fit ex_env_np ex_X ex_y (World ex_cb_new ex_rng')).2) /\
  (run_calls ex_env_np ex_calls (World ex_cb_new ex_rng)).1 =
  (run_calls ex_env_np ex_calls (World ex_cb_new ex_rng')).1.
Proof. split_and!; vm_compute; [discriminate|discriminate|reflexivity]. Qed.

End RandomState.
